(** * Gym Tracker: the browser-side rendering and import helpers of
    [static/app.js], and the plan-import reconciler of the specification.

    The development embeds the JavaScript functions the specification's
    properties are about (number formatting, WHR, session-type normaliser,
    adherence pills and history, KPI deltas, check-in import preview and
    apply, CSV cell encoder) as Rocq functions, and proves the properties
    on them.

    Conventions of the embedding.
    - A JavaScript number is a value of [num]: an exact rational, or NaN,
      or one of the two infinities.  Rounding error of binary64 and
      overflow are not represented; statements about a printed quotient
      leave room for them.  [num] has one zero: the negative zero that
      [Math.round] gives is followed to where it is printed
      ([formatLocaleRounded]), a negative zero received as a value is not
      represented.
    - A JavaScript string is a [string] of bytes (UTF-8).  The characters
      the code tests for are ASCII, and no byte of a multi-byte UTF-8
      sequence is an ASCII byte.
    - A scalar JSON value is a [JsVal]; a JSON object with scalar fields is
      a [gmap string JsVal], a missing key reading as [VUndefined]. *)

From Stdlib Require Import ZArith QArith Qround Qabs Lia Lqa List Bool Ascii String DecimalString.
From stdpp Require Import base option strings gmap.
From Stdlib Require Import Sorted DecimalN.

Local Open Scope Z_scope.
Local Open Scope string_scope.

(** ** JavaScript numbers *)

Module Num.

Inductive num : Type :=
| NaN
| PInf
| NInf
| Fin (q : Q).

Definition isNaN (x : num) : bool :=
  match x with NaN => true | _ => false end.

(** [Number.isFinite] on a value that already is a number. *)
Definition isFinite (x : num) : bool :=
  match x with Fin _ => true | _ => false end.

Definition Qltb (a b : Q) : bool := negb (Qle_bool b a).

(** [x < y], [x <= y], [x > y]: false as soon as one side is NaN. *)
Definition ltb (x y : num) : bool :=
  match x, y with
  | NaN, _ | _, NaN => false
  | Fin a, Fin b => Qltb a b
  | NInf, NInf => false
  | NInf, _ => true
  | _, PInf => match x with PInf => false | _ => true end
  | _, _ => false
  end.

Definition leb (x y : num) : bool :=
  match x, y with
  | NaN, _ | _, NaN => false
  | Fin a, Fin b => Qle_bool a b
  | NInf, _ => true
  | _, PInf => true
  | _, _ => false
  end.

Definition gtb (x y : num) : bool := ltb y x.

(** [x === y] on numbers. *)
Definition eqb (x y : num) : bool :=
  match x, y with
  | Fin a, Fin b => Qeq_bool a b
  | PInf, PInf | NInf, NInf => true
  | _, _ => false
  end.

Definition neg (x : num) : num :=
  match x with
  | NaN => NaN
  | PInf => NInf
  | NInf => PInf
  | Fin q => Fin (- q)
  end.

Definition abs (x : num) : num :=
  match x with
  | NaN => NaN
  | PInf | NInf => PInf
  | Fin q => Fin (Qabs q)
  end.

Definition add (x y : num) : num :=
  match x, y with
  | NaN, _ | _, NaN => NaN
  | Fin a, Fin b => Fin (a + b)
  | PInf, NInf | NInf, PInf => NaN
  | PInf, _ | _, PInf => PInf
  | NInf, _ | _, NInf => NInf
  end.

Definition sub (x y : num) : num := add x (neg y).

(** The sign of an infinite result: negative when exactly one operand is. *)
Definition isNeg (x : num) : bool :=
  match x with
  | NInf => true
  | Fin q => Qltb q 0
  | _ => false
  end.

Definition infOf (negative : bool) : num := if negative then NInf else PInf.

Definition isZero (x : num) : bool :=
  match x with Fin q => Qeq_bool q 0 | _ => false end.

Definition mul (x y : num) : num :=
  match x, y with
  | NaN, _ | _, NaN => NaN
  | Fin a, Fin b => Fin (a * b)
  | _, _ =>
      if isZero x || isZero y then NaN
      else infOf (xorb (isNeg x) (isNeg y))
  end.

Definition div (x y : num) : num :=
  match x, y with
  | NaN, _ | _, NaN => NaN
  | Fin a, Fin b =>
      if Qeq_bool b 0
      then (if Qeq_bool a 0 then NaN else infOf (Qltb a 0))
      else Fin (a / b)
  | Fin _, _ => Fin 0
  | _, Fin _ => infOf (xorb (isNeg x) (isNeg y))
  | _, _ => NaN
  end.

(** [Math.round]: the nearest integer, a tie going up.  The zero it gives
    for a negative argument is the negative zero in JavaScript; the sign of
    that zero is kept where the result is printed ([formatLocaleRounded]). *)
Definition round (x : num) : num :=
  match x with
  | Fin q => Fin (inject_Z (Qfloor (q + (1 # 2))))
  | _ => x
  end.

(** [Number.isInteger]. *)
Definition isInteger (x : num) : bool :=
  match x with
  | Fin q => Qeq_bool q (inject_Z (Qfloor q))
  | _ => false
  end.

Definition ofZ (z : Z) : num := Fin (inject_Z z).

End Num.
Export Num.

(** ** JavaScript strings *)

Module Text.

Definition code (c : ascii) : N := N_of_ascii c.

Definition chars (s : string) : list ascii := list_ascii_of_string s.
Definition ofChars (l : list ascii) : string := string_of_list_ascii l.

(** The white space and line terminators [String.prototype.trim] removes.
    [wsLen s] is the number of bytes of the white-space character [s]
    starts with in UTF-8, or [0] when it starts with none: TAB, LF, VT, FF,
    CR, SPACE; U+00A0; U+1680; U+2000..U+200A, U+2028, U+2029, U+202F;
    U+205F; U+3000; U+FEFF. *)
Definition isAsciiWs (c : ascii) : bool :=
  let n := code c in
  (N.leb 9 n && N.leb n 13) || N.eqb n 32.

Definition isWs3 (a b c : ascii) : bool :=
  let x := code a in let y := code b in let z := code c in
  (N.eqb x 225 && N.eqb y 154 && N.eqb z 128)
  || (N.eqb x 226 && N.eqb y 128
      && ((N.leb 128 z && N.leb z 138) || N.eqb z 168 || N.eqb z 169
          || N.eqb z 175))
  || (N.eqb x 226 && N.eqb y 129 && N.eqb z 159)
  || (N.eqb x 227 && N.eqb y 128 && N.eqb z 128)
  || (N.eqb x 239 && N.eqb y 187 && N.eqb z 191).

Definition wsLen (s : string) : nat :=
  match s with
  | String a r =>
      if isAsciiWs a then 1%nat
      else match r with
           | String b r' =>
               if N.eqb (code a) 194 && N.eqb (code b) 160 then 2%nat
               else match r' with
                    | String c _ => if isWs3 a b c then 3%nat else 0%nat
                    | EmptyString => 0%nat
                    end
           | EmptyString => 0%nat
           end
  | EmptyString => 0%nat
  end.

Fixpoint trimStart (s : string) : string :=
  match wsLen s, s with
  | 1%nat, String _ r => trimStart r
  | 2%nat, String _ (String _ r) => trimStart r
  | 3%nat, String _ (String _ (String _ r)) => trimStart r
  | _, _ => s
  end.

(** The same from the end, on the reversed byte sequence. *)
Definition wsLenRev (l : list ascii) : nat :=
  match l with
  | a :: r =>
      if isAsciiWs a then 1%nat
      else match r with
           | b :: r' =>
               if N.eqb (code b) 194 && N.eqb (code a) 160 then 2%nat
               else match r' with
                    | c :: _ => if isWs3 c b a then 3%nat else 0%nat
                    | [] => 0%nat
                    end
           | [] => 0%nat
           end
  | [] => 0%nat
  end.

Fixpoint trimStartRev (l : list ascii) : list ascii :=
  match wsLenRev l, l with
  | 1%nat, _ :: r => trimStartRev r
  | 2%nat, _ :: _ :: r => trimStartRev r
  | 3%nat, _ :: _ :: _ :: r => trimStartRev r
  | _, _ => l
  end.

Definition trimEnd (s : string) : string :=
  ofChars (List.rev (trimStartRev (List.rev (chars s)))).

(** [s.trim()] *)
Definition trim (s : string) : string := trimEnd (trimStart s).

(** [s.toLowerCase()], on the ASCII letters; other bytes are kept. *)
Definition lowerChar (c : ascii) : ascii :=
  let n := code c in
  if N.leb 65 n && N.leb n 90 then ascii_of_N (n + 32) else c.

Fixpoint toLowerCase (s : string) : string :=
  match s with
  | EmptyString => EmptyString
  | String c r => String (lowerChar c) (toLowerCase r)
  end.

(** [s === t] on strings. *)
Definition eqb (s t : string) : bool := String.eqb s t.

Definition isDigit (c : ascii) : bool :=
  let n := code c in N.leb 48 n && N.leb n 57.

Definition digitVal (c : ascii) : Z := Z.of_N (code c) - 48.

(** The longest prefix of decimal digits, and what follows it. *)
Fixpoint spanDigits (s : string) : string * string :=
  match s with
  | String c r =>
      if isDigit c
      then let '(d, rest) := spanDigits r in (String c d, rest)
      else (EmptyString, s)
  | EmptyString => (EmptyString, EmptyString)
  end.

(** The value of a string of digits in base [base]. *)
Fixpoint digitsValue (base : Z) (val : ascii -> Z) (acc : Z) (s : string) : Z :=
  match s with
  | EmptyString => acc
  | String c r => digitsValue base val (acc * base + val c) r
  end.

Definition decValue (s : string) : Z := digitsValue 10 digitVal 0 s.

(** Decimal digits of a non-negative integer, ["0"] for zero. *)
Definition decString (z : Z) : string :=
  DecimalString.NilZero.string_of_uint (N.to_uint (Z.to_N z)).

Fixpoint repeatChar (n : nat) (c : ascii) : string :=
  match n with
  | O => EmptyString
  | S n' => String c (repeatChar n' c)
  end.

(** [String(n).padStart(width, "0")] for a non-negative integer. *)
Definition zeroPad (z : Z) (width : nat) : string :=
  let d := decString z in
  repeatChar (width - String.length d) "0" ++ d.

End Text.

(** ** JavaScript values and the conversions the code relies on *)

Module Js.
Import Text.

Inductive JsVal : Type :=
| VUndefined
| VNull
| VBool (b : bool)
| VNum (n : num)
| VStr (s : string).

(** [10^z] for any integer [z]. *)
Definition pow10 (z : Z) : Q := Qpower (10 # 1) z.

(** *** StringToNumber: the StringNumericLiteral grammar *)

Definition isHexDigit (c : ascii) : bool :=
  let n := code c in
  isDigit c || (N.leb 65 n && N.leb n 70) || (N.leb 97 n && N.leb n 102).

Definition hexVal (c : ascii) : Z :=
  let n := code c in
  if isDigit c then digitVal c
  else if N.leb 97 n then Z.of_N n - 87 else Z.of_N n - 55.

Definition isOctDigit (c : ascii) : bool :=
  let n := code c in N.leb 48 n && N.leb n 55.

Definition isBinDigit (c : ascii) : bool :=
  let n := code c in N.leb 48 n && N.leb n 49.

Fixpoint allChars (p : ascii -> bool) (s : string) : bool :=
  match s with
  | EmptyString => true
  | String c r => p c && allChars p r
  end.

(** A non-empty run of digits of the given base, up to the end. *)
Definition radixLiteral (base : Z) (p : ascii -> bool) (val : ascii -> Z)
    (s : string) : num :=
  match s with
  | EmptyString => NaN
  | _ => if allChars p s then ofZ (digitsValue base val 0 s) else NaN
  end.

(** ExponentPart, after the [e]: an optional sign and at least one digit,
    up to the end of the literal. *)
Definition exponentValue (s : string) : option Z :=
  let '(negative, body) :=
    match s with
    | String "+" r => (false, r)
    | String "-" r => (true, r)
    | _ => (false, s)
    end in
  match spanDigits body with
  | (EmptyString, _) => None
  | (d, EmptyString) => Some (if negative then - decValue d else decValue d)
  | (_, _) => None
  end.

(** The mantissa digits [ip.fp] scaled by [10^e]. *)
Definition decimalValue (ip fp : string) (e : Z) : num :=
  Fin (inject_Z (decValue (ip ++ fp))
       * pow10 (e - Z.of_nat (String.length fp))).

Definition withExponent (ip fp rest : string) : num :=
  match rest with
  | EmptyString => decimalValue ip fp 0
  | String c r =>
      if N.eqb (code c) 101 || N.eqb (code c) 69
      then match exponentValue r with
           | Some e => decimalValue ip fp e
           | None => NaN
           end
      else NaN
  end.

(** StrUnsignedDecimalLiteral *)
Definition unsignedDecimal (s : string) : num :=
  if eqb s "Infinity" then PInf
  else
    let '(ip, r1) := spanDigits s in
    match r1 with
    | String "." r2 =>
        let '(fp, r3) := spanDigits r2 in
        match ip, fp with
        | EmptyString, EmptyString => NaN
        | _, _ => withExponent ip fp r3
        end
    | _ =>
        match ip with
        | EmptyString => NaN
        | _ => withExponent ip EmptyString r1
        end
    end.

Definition StringToNumber (s : string) : num :=
  match trim s with
  | EmptyString => Fin 0
  | String "+" r => unsignedDecimal r
  | String "-" r => neg (unsignedDecimal r)
  | String "0" (String "x" r) | String "0" (String "X" r) =>
      radixLiteral 16 isHexDigit hexVal r
  | String "0" (String "o" r) | String "0" (String "O" r) =>
      radixLiteral 8 isOctDigit digitVal r
  | String "0" (String "b" r) | String "0" (String "B" r) =>
      radixLiteral 2 isBinDigit digitVal r
  | t => unsignedDecimal t
  end.

(** [Number(v)] *)
Definition ToNumber (v : JsVal) : num :=
  match v with
  | VUndefined => NaN
  | VNull => Fin 0
  | VBool b => if b then Fin 1 else Fin 0
  | VNum n => n
  | VStr s => StringToNumber s
  end.

(** [Number.isFinite(x)], false on every value that is not a number. *)
Definition Number_isFinite (v : JsVal) : bool :=
  match v with VNum n => isFinite n | _ => false end.

(** [Number.isNaN(x)] *)
Definition Number_isNaN (v : JsVal) : bool :=
  match v with VNum n => isNaN n | _ => false end.

(** [v == null] *)
Definition isNullish (v : JsVal) : bool :=
  match v with VUndefined | VNull => true | _ => false end.

(** [v] is the empty string, strictly. *)
Definition isEmptyStr (v : JsVal) : bool :=
  match v with VStr EmptyString => true | _ => false end.

(** Truthiness, as [!v], [v || d] and [c ? a : b] use it. *)
Definition truthy (v : JsVal) : bool :=
  match v with
  | VUndefined | VNull => false
  | VBool b => b
  | VNum n => negb (isNaN n || isZero n)
  | VStr s => negb (eqb s "")
  end.

(** [v || d] *)
Definition orElse (v d : JsVal) : JsVal := if truthy v then v else d.

(** [v ?? d] *)
Definition coalesce (v d : JsVal) : JsVal := if isNullish v then d else v.

(** *** Number::toString, radix 10

    The digits are those of the value rounded to 17 significant digits,
    trailing zeros removed; the layout (plain, fraction, exponent) follows
    the position [n] of the decimal point as in the language definition. *)

Fixpoint stripZerosRev (l : list ascii) : list ascii :=
  match l with
  | c :: r => if N.eqb (code c) 48 then stripZerosRev r else l
  | [] => []
  end.

Definition stripTrailingZeros (s : string) : string :=
  ofChars (List.rev (stripZerosRev (List.rev (chars s)))).

(** [floor (log10 q)] for [q > 0]. *)
Definition floorLog10 (q : Q) : Z :=
  let la := Z.of_nat (String.length (decString (Qnum q))) in
  let lb := Z.of_nat (String.length (decString (Zpos (Qden q)))) in
  let e0 := la - lb in
  if Qle_bool (pow10 e0) q then e0 else e0 - 1.

Definition positiveToString (q : Q) : string :=
  let e := floorLog10 q in
  let s17 := Qfloor (q * pow10 (16 - e) + (1 # 2)) in
  let '(n, s) :=
    if Z.leb (10 ^ 17) s17 then (e + 2, 10 ^ 16) else (e + 1, s17) in
  let digits := stripTrailingZeros (decString s) in
  let k := Z.of_nat (String.length digits) in
  if Z.leb k n && Z.leb n 21 then
    digits ++ repeatChar (Z.to_nat (n - k)) "0"
  else if Z.ltb 0 n && Z.leb n 21 then
    substring 0 (Z.to_nat n) digits ++ "."
    ++ substring (Z.to_nat n) (Z.to_nat (k - n)) digits
  else if Z.ltb (-6) n && Z.leb n 0 then
    "0." ++ repeatChar (Z.to_nat (- n)) "0" ++ digits
  else
    let e' := n - 1 in
    let expo := (if Z.ltb e' 0 then "e-" else "e+") ++ decString (Z.abs e') in
    if Z.eqb k 1 then digits ++ expo
    else substring 0 1 digits ++ "."
         ++ substring 1 (Z.to_nat (k - 1)) digits ++ expo.

Definition NumberToString (x : num) : string :=
  match x with
  | NaN => "NaN"
  | PInf => "Infinity"
  | NInf => "-Infinity"
  | Fin q =>
      if Qeq_bool q 0 then "0"
      else if Qltb q 0 then "-" ++ positiveToString (- q)
      else positiveToString q
  end.

(** [String(v)], and the conversion of template literals. *)
Definition ToString (v : JsVal) : string :=
  match v with
  | VUndefined => "undefined"
  | VNull => "null"
  | VBool b => if b then "true" else "false"
  | VNum n => NumberToString n
  | VStr s => s
  end.

(** *** [toLocaleString("es-ES", {useGrouping: "always",
         minimumFractionDigits: d, maximumFractionDigits: d})]
    of a finite number: rounded half away from zero to [d] decimals, the
    integer part grouped by three with [.], the decimals after [,]. *)

Fixpoint group3Rev (n : nat) (l : list ascii) : list ascii :=
  match l with
  | [] => []
  | c :: r =>
      match n, r with
      | _, [] => [c]
      | O, _ => c :: "."%char :: group3Rev 2 r
      | S n', _ => c :: group3Rev n' r
      end
  end.

Definition group3 (s : string) : string :=
  ofChars (List.rev (group3Rev 2 (List.rev (chars s)))).

Definition toLocaleString_esES (q : Q) (digits : nat) : string :=
  let scale := 10 ^ Z.of_nat digits in
  let m := Qfloor (Qabs q * inject_Z scale + (1 # 2)) in
  let sign := if Qltb q 0 then "-" else "" in
  let body := group3 (decString (m / scale)) in
  match digits with
  | O => sign ++ body
  | _ => sign ++ body ++ "," ++ zeroPad (m mod scale) digits
  end.

End Js.

Import Text Js.

(** ** Objects, and small helpers of the embedding *)

Abbreviation JsObj := (gmap string JsVal).

(** [o.k]: a key the object does not have reads as [undefined]. *)
Definition get (o : JsObj) (k : string) : JsVal := default VUndefined (o !! k).

(** The placeholder the views print for a value they cannot show. *)
Definition DASH : string := "—".

Definition DQ : string := String (ascii_of_N 34) EmptyString.

(** [name="value"], as the markup writes an attribute. *)
Definition attr (name value : string) : string :=
  name ++ "=" ++ DQ ++ value ++ DQ.

Definition span (cls body : string) : string :=
  "<span " ++ attr "class" cls ++ ">" ++ body ++ "</span>".

(** [escapeHtml] *)
Fixpoint escapeChars (s : string) : string :=
  match s with
  | EmptyString => EmptyString
  | String c r =>
      let n := code c in
      (if N.eqb n 38 then "&amp;"
       else if N.eqb n 60 then "&lt;"
       else if N.eqb n 62 then "&gt;"
       else if N.eqb n 34 then "&quot;"
       else if N.eqb n 39 then "&#39;"
       else String c EmptyString) ++ escapeChars r
  end.

Definition escapeHtml (v : JsVal) : string := escapeChars (ToString v).

(** ** Choices of window *)

Definition PLAN_ADHERENCE_WINDOW_CHOICES : list Z := [7; 15; 30].

(** [choices.includes(n)] *)
Definition includes (choices : list Z) (n : num) : bool :=
  existsb (fun c => Num.eqb (ofZ c) n) choices.

Definition parsePlanAdherenceWindow (raw fallback : JsVal) : num :=
  let n := ToNumber raw in
  if isInteger n && includes PLAN_ADHERENCE_WINDOW_CHOICES n then n
  else if includes PLAN_ADHERENCE_WINDOW_CHOICES (ToNumber fallback)
       then ToNumber fallback
       else ofZ 15.

(** ** Number formatting *)

Definition formatLocaleNumber (value : JsVal) (digits : nat) : string :=
  match ToNumber value with
  | Fin q => toLocaleString_esES q digits
  | _ => DASH
  end.

(** JavaScript has two zeros and the numbers here have one.  [Math.round]
    keeps the sign of its argument, so it gives the negative zero for a
    negative number that rounds to zero ([-0.5 <= x < 0]); dividing that
    zero by a positive number keeps it, and [toLocaleString] prints it with
    its sign ([-0], [-0,000]).  [formatLocaleRounded x y digits] is
    [formatLocaleNumber(y, digits)] for a [y] obtained from [x] by
    [Math.round] and such a division: the text of [y], after a minus sign
    when [y] is a zero that comes from a negative [x]. *)
Definition formatLocaleRounded (x y : num) (digits : nat) : string :=
  if isNeg x && isZero y then "-" ++ formatLocaleNumber (VNum y) digits
  else formatLocaleNumber (VNum y) digits.

Definition fmt3 (x : JsVal) : string :=
  if isNullish x || Number_isNaN x then DASH
  else
    let scaled := mul (ToNumber x) (ofZ 1000) in
    formatLocaleRounded scaled (div (round scaled) (ofZ 1000)) 3.

(** [/^\d{4}-\d{2}-\d{2}$/.test(s)] *)
Definition isIsoDate (s : string) : bool :=
  match chars s with
  | [y1; y2; y3; y4; d1; m1; m2; d2; a1; a2] =>
      isDigit y1 && isDigit y2 && isDigit y3 && isDigit y4
      && N.eqb (code d1) 45 && isDigit m1 && isDigit m2
      && N.eqb (code d2) 45 && isDigit a1 && isDigit a2
  | _ => false
  end.

Definition humanDateDash (iso : JsVal) : string :=
  let s := ToString (orElse iso (VStr "")) in
  if isIsoDate s
  then substring 8 2 s ++ "-" ++ substring 5 2 s ++ "-" ++ substring 0 4 s
  else ToString (orElse (VStr s) (VStr DASH)).

Definition displayInt (v : JsVal) : string :=
  let num := ToNumber v in
  if isFinite num
  then escapeHtml (VStr (formatLocaleRounded num (round num) 0))
  else DASH.

Definition displayFloat (v : JsVal) (digits : nat) : string :=
  let num := ToNumber v in
  if isFinite num
  then escapeHtml (VStr (formatLocaleNumber (VNum num) digits))
  else DASH.

(** ** Session types *)

Definition normalizeSessionType (v : JsVal) : string :=
  let type := toLowerCase (trim (ToString (orElse v (VStr "")))) in
  if eqb type "mixta" then "pesas"
  else if eqb type "pesas" then "pesas"
  else "clase".

(** ** KPI deltas *)

(** An element, as far as the views write to it. *)
Record Node : Type := mkNode {
  classList : list string;
  innerHTML : string
}.

Definition hasClass (c : string) (n : Node) : bool :=
  existsb (String.eqb c) (classList n).

(** [node.classList.remove(...tokens)] *)
Definition classList_remove (tokens : list string) (n : Node) : Node :=
  mkNode (List.filter (fun c => negb (existsb (String.eqb c) tokens))
                      (classList n))
         (innerHTML n).

(** [node.classList.add(token)] *)
Definition classList_add (token : string) (n : Node) : Node :=
  if hasClass token n then n
  else mkNode (classList n ++ [token]) (innerHTML n).

Definition set_innerHTML (html : string) (n : Node) : Node :=
  mkNode (classList n) html.

(** The markup of a text node: [&], [<], [>] and the no-break space are
    written as entities. *)
Fixpoint textMarkup (s : string) : string :=
  match s with
  | EmptyString => EmptyString
  | String c r =>
      let n := code c in
      if N.eqb n 38 then "&amp;" ++ textMarkup r
      else if N.eqb n 60 then "&lt;" ++ textMarkup r
      else if N.eqb n 62 then "&gt;" ++ textMarkup r
      else match r with
           | String c' r' =>
               if N.eqb n 194 && N.eqb (code c') 160
               then "&nbsp;" ++ textMarkup r'
               else String c (textMarkup r)
           | EmptyString => String c EmptyString
           end
  end.

(** [node.textContent = text] *)
Definition set_textContent (text : string) (n : Node) : Node :=
  mkNode (classList n) (textMarkup text).

Definition KPI_STATE_CLASSES : list string :=
  ["good"; "warn"; "bad"; "muted";
   "state-better"; "state-equal"; "state-worse"; "state-muted"].

(** [drawKpiDelta], the closure of the summary view.  [meta] is the markup
    [buildKpiMetaHtml()] returns for the baseline period of the summary
    being drawn.  A missing node ([None]) is left alone. *)
Definition drawKpiDelta (meta : string) (node : option Node) (delta : JsVal)
    (digits : nat) (unit : string) (preferLower : bool) (stableEps : num)
    : option Node :=
  match node with
  | None => None
  | Some node0 =>
      let node1 := set_innerHTML "" (classList_remove KPI_STATE_CLASSES node0) in
      if isNullish delta || isNaN (ToNumber delta) then
        Some (classList_add "state-muted"
                (set_textContent "Sin comparativa previa" node1))
      else
        let value := ToNumber delta in
        let isStable := leb (abs value) stableEps in
        if isStable then
          Some (classList_add "state-equal"
                  (set_innerHTML
                     (span "kpi-delta-main" "Igual: sin cambios relevantes"
                      ++ meta) node1))
        else
          let sign := if gtb value (Fin 0) then "+" else "" in
          let textVal :=
            match digits with
            | O => sign ++ formatLocaleRounded value (round value) 0
            | _ => sign ++ formatLocaleNumber (VNum value) digits
            end in
          let upIsGood := negb preferLower in
          let isGood := if gtb value (Fin 0) then upIsGood else negb upIsGood in
          let label := if isGood then "Mejor" else "Peor" in
          Some (classList_add (if isGood then "state-better" else "state-worse")
                  (set_innerHTML
                     (span "kpi-delta-main" (label ++ ": " ++ textVal ++ unit)
                      ++ meta) node1))
  end.

(** ** Waist-to-hip ratio *)

Definition computeWHR (r : JsObj) : string :=
  let w := ToNumber (get r "waist_cm") in
  let h := ToNumber (get r "hip_cm") in
  if negb (isFinite w) || negb (isFinite h) || leb h (Fin 0) then DASH
  else fmt3 (VNum (div w h)).

(** ** Check-in import: preview and apply *)

(** One entry of [payload.preview]. [row] is [None] when the entry has no
    row object. *)
Record PreviewItem : Type := mkPreviewItem {
  row_number : JsVal;
  status : JsVal;
  reason : JsVal;
  row : option JsObj
}.

Record ImportPayload : Type := mkImportPayload {
  preview : option (list PreviewItem);   (* [None]: not an array *)
  summary : JsObj
}.

(** One entry of the [rows] the apply request carries. *)
Record ApplyRow : Type := mkApplyRow {
  apply_row_number : JsVal;
  apply_row : option JsObj
}.

(** The cells of one line of the preview table. *)
Record PreviewCells : Type := mkPreviewCells {
  cell_number : string;
  cell_status : string;
  cell_date : string;
  cell_sleep : string;
  cell_steps : string;
  cell_weight : string;
  cell_whr : string;
  cell_reason : string
}.

Inductive PreviewBody : Type :=
| BodyNoRows                          (* "Sin filas para mostrar" *)
| BodyRows (lines : list PreviewCells).

Record SummaryLine : Type := mkSummaryLine {
  summary_text : string;
  summary_hidden : bool
}.

(** The part of the page the import dialog works on: the module variable
    [importPreviewRows] and the four elements, each [None] when the page
    does not have it. *)
Record ImportUi : Type := mkImportUi {
  importPreviewRows : list PreviewItem;
  importDietSummary : option SummaryLine;
  importPreviewBody : option PreviewBody;
  importPreviewWrap : option bool;      (* [hidden] *)
  importApplyBtn : option bool          (* [disabled] *)
}.

(** [String(status || "").toLowerCase()] *)
Definition statusKey (st : JsVal) : string :=
  toLowerCase (ToString (orElse st (VStr ""))).

(** The lookup in the literal object: the four statuses, and the two
    lower-case names every object inherits, which give neither a class nor
    a label. *)
Definition importStatusPill (st : JsVal) : string :=
  let key := statusKey st in
  let '(cls, label) :=
    if eqb key "valid" then ("good", "Valida")
    else if eqb key "imported" then ("good", "Importada")
    else if eqb key "conflict" then ("warn", "Conflicto")
    else if eqb key "invalid" then ("bad", "Invalida")
    else if eqb key "constructor" || eqb key "__proto__"
         then ("undefined", "undefined")
    else ("warn", DASH) in
  span ("pill " ++ cls) label.

Definition importSafeVal (v : JsVal) : string :=
  if isNullish v || isEmptyStr v then DASH else escapeHtml v.

(** [Number(summary.k || 0)] *)
Definition summaryCount (s : JsObj) (k : string) : num :=
  ToNumber (orElse (get s k) (VNum (Fin 0))).

Definition renderImportSummary (s : JsObj) (ui : ImportUi) : ImportUi :=
  match importDietSummary ui with
  | None => ui
  | Some _ =>
      let total := NumberToString (summaryCount s "total") in
      let valid := NumberToString (summaryCount s "valid") in
      let conflict := NumberToString (summaryCount s "conflict") in
      let invalid := NumberToString (summaryCount s "invalid") in
      let imported := summaryCount s "imported" in
      let text :=
        if gtb imported (Fin 0)
        then "total: " ++ total ++ " | importadas: " ++ NumberToString imported
             ++ " | conflictos: " ++ conflict ++ " | invalidas: " ++ invalid
        else "total: " ++ total ++ " | validas: " ++ valid
             ++ " | conflictos: " ++ conflict ++ " | invalidas: " ++ invalid in
      mkImportUi (importPreviewRows ui) (Some (mkSummaryLine text false))
                 (importPreviewBody ui) (importPreviewWrap ui)
                 (importApplyBtn ui)
  end.

Definition previewCells (item : PreviewItem) : PreviewCells :=
  let r := default ∅ (row item) in
  let st := VStr (statusKey (status item)) in
  mkPreviewCells
    (importSafeVal (row_number item))
    (importStatusPill st)
    (importSafeVal (get r "log_date"))
    (displayFloat (get r "sleep_hours") 1)
    (displayInt (get r "steps"))
    (displayFloat (get r "weight_kg") 1)
    (computeWHR r)
    (if truthy (reason item) then escapeHtml (reason item) else DASH).

(** The filter both the preview and the apply step use. *)
Definition isValidItem (r : PreviewItem) : bool :=
  eqb (statusKey (status r)) "valid".

Definition renderImportPreview (payload : ImportPayload) (ui : ImportUi)
    : ImportUi :=
  let rows := default [] (preview payload) in
  let ui1 :=
    renderImportSummary (summary payload)
      (mkImportUi rows (importDietSummary ui) (importPreviewBody ui)
                  (importPreviewWrap ui) (importApplyBtn ui)) in
  match importPreviewBody ui1, importPreviewWrap ui1 with
  | Some _, Some _ =>
      match rows with
      | [] =>
          mkImportUi rows (importDietSummary ui1) (Some BodyNoRows)
                     (Some false)
                     (option_map (fun _ => true) (importApplyBtn ui1))
      | _ =>
          let validCount := length (List.filter isValidItem rows) in
          mkImportUi rows (importDietSummary ui1)
                     (Some (BodyRows (List.map previewCells rows)))
                     (Some false)
                     (option_map (fun _ => Nat.eqb validCount 0)
                                 (importApplyBtn ui1))
      end
  | _, _ => ui1
  end.

(** [applyDietImport], up to the request: the [rows] of the body posted to
    [/api/diet/import/apply], or [None] when no request is made (the toast
    "No hay filas validas para importar"). *)
Definition applyDietImport (ui : ImportUi) : option (list ApplyRow) :=
  let validRows :=
    List.map (fun r => mkApplyRow (row_number r) (row r))
             (List.filter isValidItem (importPreviewRows ui)) in
  match validRows with
  | [] => None
  | _ => Some validRows
  end.

(** ** Plan adherence *)

Record Pill : Type := mkPill {
  label : string;
  tone : string
}.

Definition scoreMatches (value expected : JsVal) : bool :=
  ltb (abs (sub (ToNumber value) (ToNumber expected))) (Fin (1 # 1000)).

Definition planPillFromAdherenceScore (scoreValue : JsVal) (hasPlan : bool)
    : Pill :=
  if negb hasPlan then mkPill "Sin plan" "warn"
  else if isNullish scoreValue || isEmptyStr scoreValue
       then mkPill "Pendiente" "warn"
  else if scoreMatches scoreValue (VNum (Fin 1)) then mkPill "Cumplida" "good"
  else if scoreMatches scoreValue (VNum (Fin (1 # 2)))
       then mkPill "Parcial" "warn"
  else if scoreMatches scoreValue (VNum (Fin 0))
       then mkPill "No cumplida" "bad"
  else mkPill "Pendiente" "warn".

Definition planScoreLabel (v : JsVal) : string :=
  let num := ToNumber v in
  if negb (isFinite num) then DASH
  else if ltb (abs (sub num (Fin 1))) (Fin (1 # 1000)) then "Hecho"
  else if ltb (abs (sub num (Fin (1 # 2)))) (Fin (1 # 1000)) then "Parcial"
  else if ltb (abs (sub num (Fin 0))) (Fin (1 # 1000)) then "No hecho"
  else NumberToString num.

Definition formatPlanScore (v : JsVal) : string :=
  let num := ToNumber v in
  if negb (isFinite num) then DASH
  else formatLocaleNumber (VNum num) 2.

(** [day.adherence_history]; an absent history has every field undefined
    and no item list. *)
Record AdherenceHistory : Type := mkAdherenceHistory {
  window_days : JsVal;
  items : option (list JsObj);           (* [None]: not an array *)
  scored_days : JsVal;
  total_days : JsVal;
  from : JsVal;
  to : JsVal
}.

(** [items.map((item) => Number(item?.total_score))
          .filter((num) => Number.isFinite(num))] *)
Definition scoredValues (its : list JsObj) : list num :=
  List.filter isFinite (List.map (fun item => ToNumber (get item "total_score")) its).

(** [values.reduce((acc, num) => acc + num, 0)] *)
Definition sumValues (values : list num) : num :=
  fold_left add values (Fin 0).

Definition periodAvg (its : list JsObj) : string :=
  let values := scoredValues its in
  match values with
  | [] => DASH
  | _ => formatPlanScore
           (VNum (div (sumValues values) (ofZ (Z.of_nat (length values)))))
  end.

(** One entry of the history list, as printed. *)
Record HistoryLine : Type := mkHistoryLine {
  line_date : string;
  line_diet : string;
  line_workout : string;
  line_total : string
}.

Definition historyLine (item : JsObj) : HistoryLine :=
  mkHistoryLine
    (escapeChars (humanDateDash (orElse (get item "log_date") (VStr ""))))
    (escapeChars (if isNullish (get item "diet_score") then DASH
                  else planScoreLabel (get item "diet_score")))
    (escapeChars (if isNullish (get item "workout_score") then DASH
                  else planScoreLabel (get item "workout_score")))
    (escapeChars (if isNullish (get item "total_score") then DASH
                  else formatPlanScore (get item "total_score"))).

(** What [renderPlanAdherenceHistory] writes: the window it stores in
    [planAdherenceWindowDays] and shows in the selector, the text of the
    period summary, and the lines of the list (the time of the last update
    and the note of a line are left out). *)
Record HistoryView : Type := mkHistoryView {
  view_windowDays : num;
  view_totalDays : num;
  view_scoredDays : num;
  view_periodAvg : string;
  view_period : string;
  view_lines : list HistoryLine
}.

Definition renderPlanAdherenceHistory (history : AdherenceHistory)
    (planAdherenceWindowDays : num) : HistoryView :=
  let windowDays :=
    parsePlanAdherenceWindow (window_days history)
                             (VNum planAdherenceWindowDays) in
  let its := default [] (items history) in
  let scoredDays := ToNumber (orElse (scored_days history) (VNum (Fin 0))) in
  let totalDays := ToNumber (orElse (total_days history) (VNum windowDays)) in
  let periodFrom := humanDateDash (orElse (from history) (VStr "")) in
  let periodTo := humanDateDash (orElse (to history) (VStr "")) in
  let avg := periodAvg its in
  mkHistoryView windowDays totalDays scoredDays avg
    ("Resumen del período (" ++ NumberToString totalDays ++ " días): "
     ++ periodFrom ++ " al " ++ periodTo ++ " · "
     ++ NumberToString scoredDays ++ "/" ++ NumberToString totalDays
     ++ " días con puntuación · media diaria combinada " ++ avg ++ ".")
    (List.map historyLine its).

(** ** CSV export of the import incidents *)

(** The test of the pattern of [csvCell]: a double quote, a comma or a
    line feed occurs in [text]. *)
Definition needsQuoting (text : string) : bool :=
  existsb (fun c => let n := code c in
                    N.eqb n 34 || N.eqb n 44 || N.eqb n 10) (chars text).

(** The global replacement of [csvCell]: every double quote becomes two. *)
Fixpoint doubleQuotes (text : string) : string :=
  match text with
  | EmptyString => EmptyString
  | String c r =>
      if N.eqb (code c) 34 then DQ ++ DQ ++ doubleQuotes r
      else String c (doubleQuotes r)
  end.

Definition csvCell (raw : JsVal) : string :=
  let text := ToString (coalesce raw (VStr "")) in
  if needsQuoting text then DQ ++ doubleQuotes text ++ DQ else text.

(** ** The plan import reconciler (server side) *)

Module PlanImport.

Inductive SessionType : Type := Clase | Pesas.

(** Modelled from the spec: the exercise targets of a planned session
    (PlanWorkoutExercise of the data model); the server code that builds
    them is not part of the browser sources. *)
Record PlanWorkoutExercise : Type := mkExercise {
  exercise_name : string;
  target_sets : Z;
  target_reps_min : Z;
  target_reps_max : Z;
  target_weight_kg : option Q;
  target_rpe : option Q;
  intensity_target : string;
  progression_weight_rule : string;
  progression_reps_rule : string
}.

(** Modelled from the spec: the free-text context columns of a workout-plan
    row, kept as they are on the session. *)
Record SessionContext : Type := mkContext {
  warmup : string;
  class_sessions : string;
  cardio : string;
  mobility_cooldown : string;
  additional_exercises : string;
  notes : string
}.

(** Modelled from the spec: a workout-plan CSV row the validator accepted
    (status valid, or accepted with a warning), with its session type
    normalised and the exercise slots the row filled in, whatever the
    session type. *)
Record WorkoutRow : Type := mkWorkoutRow {
  row_log_date : string;
  row_session_type : SessionType;
  row_context : SessionContext;
  row_exercises : list PlanWorkoutExercise
}.

(** Modelled from the spec: PlanWorkoutSession of the data model. *)
Record PlanWorkoutSession : Type := mkSession {
  log_date : string;
  plan_session_id : string;
  session_type : SessionType;
  context : SessionContext;
  exercises : list PlanWorkoutExercise
}.

(** Modelled from the spec: the ordinal tag of the session at the given
    position within its date, ["S" + zeroPad(positionWithinDate+1, 2)]. *)
Definition sessionId (positionWithinDate : nat) : string :=
  "S" ++ zeroPad (Z.of_nat positionWithinDate + 1) 2.

(** Modelled from the spec: the session a row becomes; the exercises of a
    [clase] row are ignored entirely. *)
Definition sessionOfRow (positionWithinDate : nat) (r : WorkoutRow)
    : PlanWorkoutSession :=
  mkSession (row_log_date r) (sessionId positionWithinDate)
            (row_session_type r) (row_context r)
            (match row_session_type r with
             | Clase => []
             | Pesas => row_exercises r
             end).

(** Modelled from the spec: the reconciler goes through the rows in file
    order and counts, per [log_date], the rows already seen; the count is
    the position of the row within its date. *)
Fixpoint reconcileFrom (seen : gmap string nat) (rows : list WorkoutRow)
    : list PlanWorkoutSession :=
  match rows with
  | [] => []
  | r :: rest =>
      let pos := default 0%nat (seen !! row_log_date r) in
      sessionOfRow pos r
        :: reconcileFrom (<[row_log_date r := S pos]> seen) rest
  end.

Definition reconcile (rows : list WorkoutRow) : list PlanWorkoutSession :=
  reconcileFrom ∅ rows.

Definition onDate (d : string) (s : PlanWorkoutSession) : bool :=
  String.eqb (log_date s) d.

(** The persisted sessions of one date, in stored order. *)
Definition sessionsOn (d : string) (store : list PlanWorkoutSession)
    : list PlanWorkoutSession :=
  List.filter (onDate d) store.

(** Modelled from the spec: importing replaces, for every date of the file,
    all the sessions stored for that date by the sessions of the file. *)
Definition importWorkout (store : list PlanWorkoutSession)
    (rows : list WorkoutRow) : list PlanWorkoutSession :=
  List.filter
    (fun s => negb (existsb (fun r => String.eqb (row_log_date r) (log_date s))
                            rows))
    store
  ++ reconcile rows.

End PlanImport.

(** ** Reference definitions the properties are stated with *)

(** *** Reading a CSV cell back

    The decoder of a cell written by [csvCell]: a cell between double
    quotes loses them and has every doubled double quote undoubled; any
    other cell is taken as it is. *)

Definition isQuote (c : ascii) : bool := N.eqb (code c) 34.

Fixpoint undoubleQuotes (s : string) : string :=
  match s with
  | EmptyString => EmptyString
  | String c r =>
      String c
        (match r with
         | String c' r' =>
             if isQuote c && isQuote c' then undoubleQuotes r'
             else undoubleQuotes r
         | EmptyString => EmptyString
         end)
  end.

Fixpoint lastChar (s : string) : option ascii :=
  match s with
  | EmptyString => None
  | String c EmptyString => Some c
  | String _ r => lastChar r
  end.

Fixpoint dropLast (s : string) : string :=
  match s with
  | EmptyString => EmptyString
  | String _ EmptyString => EmptyString
  | String c r => String c (dropLast r)
  end.

Definition csvDecode (cell : string) : string :=
  match cell with
  | String c r =>
      if isQuote c && from_option isQuote false (lastChar r)
      then undoubleQuotes (dropLast r)
      else cell
  | EmptyString => EmptyString
  end.

(** [c] occurs in [s]. *)
Definition occurs (c : ascii) (s : string) : Prop := In c (chars s).

Definition QUOTE : ascii := ascii_of_N 34.
Definition COMMA : ascii := ascii_of_N 44.
Definition LF : ascii := ascii_of_N 10.

(** *** Check-in import *)

(** The status of the entry is the string [name]. *)
Definition statusIs (name : string) (it : PreviewItem) : bool :=
  match status it with
  | VStr s => String.eqb s name
  | _ => false
  end.

(** The three statuses a preview gives a row. *)
Definition previewStatus (st : JsVal) : Prop :=
  st = VStr "valid" \/ st = VStr "conflict" \/ st = VStr "invalid".

(** What the apply request sends of an entry. *)
Definition toApplyRow (it : PreviewItem) : ApplyRow :=
  mkApplyRow (row_number it) (row it).

(** The apply button is there and can be pressed. *)
Definition applyEnabled (ui : ImportUi) : Prop := importApplyBtn ui = Some false.

(** The page has the elements of the import dialog. *)
Definition hasImportDialog (ui : ImportUi) : Prop :=
  is_Some (importPreviewBody ui) /\ is_Some (importPreviewWrap ui)
  /\ is_Some (importApplyBtn ui).

(** *** Adherence *)

(** [x] is within 0.001 of [target]. *)
Definition within (x target : Q) : Prop := (Qabs (x - target) < 1 # 1000)%Q.

(** [x] is a number that is within 0.001 of none of 1, 0.5 and 0. *)
Definition matchesNoScore (x : num) : Prop :=
  match x with
  | Fin q => ~ within q 1 /\ ~ within q (1 # 2) /\ ~ within q 0
  | _ => True
  end.

(** No score was given: the value is null, undefined or the empty string. *)
Definition noScore (v : JsVal) : Prop :=
  v = VNull \/ v = VUndefined \/ v = VStr "".

(** *** Waist-to-hip ratio *)


(** A check-in with waist 80 and hip 100. *)
Definition checkin_80_100 : JsObj :=
  <["waist_cm" := VNum (Fin 80)]> (<["hip_cm" := VNum (Fin 100)]> ∅).

(** A check-in that has a hip measure and no waist measure. *)
Definition checkin_no_waist : JsObj :=
  <["log_date" := VStr "2026-01-05"]>
    (<["waist_cm" := VNull]> (<["hip_cm" := VNum (Fin 95)]> ∅)).

(** *** Adherence history *)

(** A day scored 1 on both tracks. *)
Definition day_scored : JsObj :=
  <["log_date" := VStr "2026-01-05"]>
    (<["diet_score" := VNum (Fin 1)]>
       (<["workout_score" := VNum (Fin 1)]>
          (<["total_score" := VNum (Fin 1)]> ∅))).

(** A day that has a note and no score. *)
Definition day_note_only : JsObj :=
  <["log_date" := VStr "2026-01-06"]>
    (<["diet_score" := VNull]>
       (<["workout_score" := VNull]>
          (<["total_score" := VNull]>
             (<["notes" := VStr "viaje"]> ∅)))).

(** A 7-day history with one scored day and one unscored day. *)
Definition history_one_scored : AdherenceHistory :=
  mkAdherenceHistory (VNum (Fin 7)) (Some [day_scored; day_note_only])
                     (VNum (Fin 1)) (VNum (Fin 7))
                     (VStr "2026-01-01") (VStr "2026-01-07").

(** A 7-day history whose only day is unscored. *)
Definition history_none_scored : AdherenceHistory :=
  mkAdherenceHistory (VNum (Fin 7)) (Some [day_note_only])
                     (VNum (Fin 0)) (VNum (Fin 7))
                     (VStr "2026-01-01") (VStr "2026-01-07").

(** *** A preview of three rows and a page with the import dialog

    The preview of the end-to-end test: a row whose date already has a
    check-in, a new row, and a row with a bad date. *)

Definition checkinRow (date : string) (steps : Z) : JsObj :=
  <["log_date" := VStr date]> (<["steps" := VNum (ofZ steps)]> ∅).

Definition item_conflict : PreviewItem :=
  mkPreviewItem (VNum (ofZ 2)) (VStr "conflict")
                (VStr "ya existe un registro para la fecha")
                (Some (checkinRow "2099-02-10" 9999)).

Definition item_valid : PreviewItem :=
  mkPreviewItem (VNum (ofZ 3)) (VStr "valid") VNull
                (Some (checkinRow "2099-02-11" 9100)).

Definition item_invalid : PreviewItem :=
  mkPreviewItem (VNum (ofZ 4)) (VStr "invalid") (VStr "log_date invalido")
                (Some (checkinRow "bad-date" 9000)).

Definition preview_three_rows : ImportPayload :=
  mkImportPayload (Some [item_conflict; item_valid; item_invalid])
                  (<["total" := VNum (ofZ 3)]> ∅).

(** The dialog before any preview: nothing shown, the button disabled. *)
Definition ui_dialog : ImportUi :=
  mkImportUi [] (Some (mkSummaryLine "" true)) (Some (BodyRows []))
             (Some true) (Some true).

(** *** Sessions numbered in file order *)

(** The rows of one date, turned into sessions numbered from [start]. *)
Fixpoint numberRows (start : nat) (rows : list PlanImport.WorkoutRow)
    : list PlanImport.PlanWorkoutSession :=
  match rows with
  | [] => []
  | r :: rest => PlanImport.sessionOfRow start r :: numberRows (S start) rest
  end.

Definition rowOn (d : string) (r : PlanImport.WorkoutRow) : bool :=
  String.eqb (PlanImport.row_log_date r) d.

(** The workout plan of the end-to-end test: a [pesas] and a [clase] row
    for the first day, a [pesas] row for the second; here the [clase] row
    carries an exercise too. *)
Definition hipThrust : PlanImport.PlanWorkoutExercise :=
  PlanImport.mkExercise "Hip Thrust" 4 5 8 (Some (120 # 1)) (Some (8 # 1))
                        "RPE 7-8" "+2.5kg" "+1 rep".

Definition sentadilla : PlanImport.PlanWorkoutExercise :=
  PlanImport.mkExercise "Sentadilla" 4 6 8 (Some (90 # 1)) (Some (15 # 2))
                        "RPE 7-8" "+2kg" "+1 rep".

Definition row_pesas_day1 : PlanImport.WorkoutRow :=
  PlanImport.mkWorkoutRow "2099-05-01" PlanImport.Pesas
    (PlanImport.mkContext "Bici 10" "" "Caminata" "Movilidad" "Pallof" "AM")
    [hipThrust].

Definition row_clase_day1 : PlanImport.WorkoutRow :=
  PlanImport.mkWorkoutRow "2099-05-01" PlanImport.Clase
    (PlanImport.mkContext "" "Pilates" "" "" "Bandas" "PM")
    [sentadilla].

Definition row_pesas_day2 : PlanImport.WorkoutRow :=
  PlanImport.mkWorkoutRow "2099-05-02" PlanImport.Pesas
    (PlanImport.mkContext "Bici 5" "" "Caminata" "Movilidad" "" "Noche")
    [sentadilla].

(** *** The header of a diet-plan file *)

(** Modelled from the spec: the canonical columns of the diet-plan
    template; the server code that reads the header is not part of the
    browser sources. *)
Definition DIET_PLAN_COLUMNS : list string :=
  ["log_date"; "calories_target_kcal"; "protein_target_g"; "carbs_target_g";
   "fat_target_g"; "breakfast"; "snack_1"; "lunch"; "snack_2"; "dinner";
   "notes"].

(** Modelled from the spec: a header is complete when every canonical
    column occurs in it, compared case-sensitively. *)
Definition headerComplete (columns header : list string) : bool :=
  forallb (fun c => existsb (String.eqb c) header) columns.

(** The header of the diet plan the end-to-end test uploads, and expects to
    be imported. *)
Definition e2e_diet_header : list string :=
  ["date"; "calories_target_kcal"; "protein_target_g"; "carbs_target_g";
   "fat_target_g"; "breakfast"; "snack_1"; "lunch"; "snack_2"; "dinner";
   "notes"].

(** ** More of [static/app.js]: theme, limits, dates, import details *)

(** *** Theme toggle *)

(** What the theme code reads and writes: [localStorage] ([None] when
    reading or writing it throws), the media query
    [(prefers-color-scheme: light)], the two attributes of the root element
    and the text of the label ([None] when the page has no label). *)
Record Browser : Type := mkBrowser {
  localStorage : option (gmap string string);
  prefersLight : bool;
  data_theme : option string;
  data_theme_mode : option string;
  themeLabel : option string
}.

Definition THEME_KEY : string := "theme".

Definition systemPrefersLight (b : Browser) : bool := prefersLight b.

Definition isThemeMode (v : string) : bool :=
  eqb v "light" || eqb v "dark" || eqb v "system".

Definition getStoredTheme (b : Browser) : string :=
  match localStorage b with
  | Some store =>
      match store !! THEME_KEY with
      | Some v => if isThemeMode v then v else "system"
      | None => "system"
      end
  | None => "system"
  end.

Definition setStoredTheme (v : string) (b : Browser) : Browser :=
  match localStorage b with
  | Some store =>
      mkBrowser (Some (<[THEME_KEY := v]> store)) (prefersLight b)
                (data_theme b) (data_theme_mode b) (themeLabel b)
  | None => b
  end.

Definition effectiveTheme (mode : string) (b : Browser) : string :=
  if eqb mode "system"
  then (if systemPrefersLight b then "light" else "dark")
  else mode.

Definition updateThemeLabel (mode : string) (b : Browser) : Browser :=
  match themeLabel b with
  | None => b
  | Some _ =>
      let eff := effectiveTheme mode b in
      let nextTxt := if eqb eff "light" then "Oscuro" else "Claro" in
      mkBrowser (localStorage b) (prefersLight b) (data_theme b)
                (data_theme_mode b) (Some ("Tema: " ++ nextTxt))
  end.

Definition applyTheme (mode : string) (b : Browser) : Browser :=
  let eff := effectiveTheme mode b in
  updateThemeLabel mode
    (mkBrowser (localStorage b) (prefersLight b) (Some eff) (Some mode)
               (themeLabel b)).

(** The click handler of the theme button. *)
Definition themeToggleClick (b : Browser) : Browser :=
  let stored := getStoredTheme b in
  let eff := effectiveTheme stored b in
  let next := if eqb eff "light" then "dark" else "light" in
  applyTheme next (setStoredTheme next b).

(** *** Limits *)

Definition LIMIT_CHOICES : list Z := [7; 15; 30; 60; 90].

(** A parameter declared [p = d]: an argument that is undefined, or left
    out, is replaced by the default. *)
Definition defaultArg (d v : JsVal) : JsVal :=
  match v with VUndefined => d | _ => v end.

(** [parseLimitValue(raw, fallback = 15)] *)
Definition parseLimitValue (raw fallback : JsVal) : JsVal :=
  let fallback := defaultArg (VNum (ofZ 15)) fallback in
  let n := ToNumber raw in
  if isInteger n && includes LIMIT_CHOICES n then VNum n else fallback.

(** *** Dates *)

Definition humanDate (iso : JsVal) : string :=
  let s := ToString (orElse iso (VStr "")) in
  if isIsoDate s
  then substring 8 2 s ++ "/" ++ substring 5 2 s ++ "/" ++ substring 0 4 s
  else ToString (orElse (VStr s) (VStr DASH)).

Definition isoLike (v : JsVal) : string :=
  let s := trim (ToString (orElse v (VStr ""))) in
  if isIsoDate s then s else "".

Definition asDisplay (v : JsVal) : string :=
  if isNullish v || isEmptyStr v then DASH else escapeHtml v.

(** *** Check-in import: closing the preview *)

Definition clearImportPreview (ui : ImportUi) : ImportUi :=
  mkImportUi []
             (option_map (fun _ => mkSummaryLine "" true) (importDietSummary ui))
             (option_map (fun _ => BodyRows []) (importPreviewBody ui))
             (option_map (fun _ => true) (importPreviewWrap ui))
             (option_map (fun _ => true) (importApplyBtn ui)).

(** *** Plan import: the incidents of a file *)

(** [hay.includes(needle)] *)
Fixpoint str_includes (needle hay : string) : bool :=
  String.prefix needle hay
  || match hay with
     | EmptyString => false
     | String _ r => str_includes needle r
     end.

(** [s.split(re)] for a pattern [re] that matches one character of the
    class [sep]. *)
Fixpoint splitOn (sep : ascii -> bool) (s : string) : list string :=
  match s with
  | EmptyString => [EmptyString]
  | String c r =>
      if sep c then EmptyString :: splitOn sep r
      else match splitOn sep r with
           | h :: t => String c h :: t
           | [] => [String c EmptyString]
           end
  end.

Definition isReasonSeparator (c : ascii) : bool :=
  N.eqb (code c) 59 || N.eqb (code c) 124.

Definition nonEmpty (s : string) : bool := negb (eqb s "").

Definition splitPlanImportReasons (reasonText : JsVal) : list string :=
  List.filter nonEmpty
    (List.map trim
       (splitOn isReasonSeparator (ToString (orElse reasonText (VStr ""))))).

Definition planImportIssueType (st reasonText : JsVal) : string :=
  let statusTxt := toLowerCase (trim (ToString (orElse st (VStr "")))) in
  let hasReason := nonEmpty (trim (ToString (orElse reasonText (VStr "")))) in
  if eqb statusTxt "invalid" then "Error"
  else if eqb statusTxt "warning" then "Aviso"
  else if eqb statusTxt "imported" && hasReason then "Aviso"
  else "".

Definition planImportActionHint (reasonText : JsVal) (issueType : string)
    (rowData : JsObj) : string :=
  let reason := toLowerCase (ToString (orElse reasonText (VStr ""))) in
  let sessionType :=
    toLowerCase (ToString (orElse (get rowData "session_type") (VStr ""))) in
  if str_includes "date invalida" reason then
    "Usa formato AAAA-MM-DD, por ejemplo 2026-03-02."
  else if str_includes "session_type 'mixta'" reason then
    "Reemplaza mixta por clase o pesas."
  else if str_includes "session_type debe ser" reason then
    "Escribe session_type exactamente como clase o pesas."
  else if str_includes "name obligatorio" reason then
    "Completa exercise_*_name o deja vacío todo el bloque exercise_* de ese slot."
  else if str_includes "sets invalido" reason
          || str_includes "sets fuera de rango" reason
          || str_includes "debe ser entero" reason then
    "En exercise_*_sets usa enteros de 1 a 12 (sin rangos tipo 3-4)."
  else if str_includes "reps_min invalido" reason
          || str_includes "reps_max invalido" reason then
    "En reps_min y reps_max usa enteros (no texto ni rangos en una sola celda)."
  else if str_includes "reps_min no puede ser mayor" reason then
    "Ajusta los valores para que reps_min sea menor o igual que reps_max."
  else if str_includes "weight_kg invalido" reason
          || str_includes "weight_kg fuera de rango" reason then
    "En weight_kg usa un número simple (ejemplo: 75.5)."
  else if str_includes "rpe invalido" reason
          || str_includes "rpe fuera de rango" reason then
    "En rpe usa un número entre 1 y 10."
  else if str_includes "duplicad" reason then
    "Elimina filas repetidas para la misma fecha/sesión antes de importar."
  else if str_includes "se ignoraron" reason
          && (str_includes "session_type clase" reason
              || eqb sessionType "clase") then
    "Para session_type=clase, deja vacías las columnas exercise_*."
  else if eqb issueType "Aviso" then
    "La fila se importó, pero conviene ajustar ese dato para futuras ediciones."
  else "Corrige la fila usando la plantilla oficial y vuelve a importar.".

(** The match of the pattern of [normalizePlanImportCause] at the start of
    the text: [exercise_] in any letter case, one or more digits, optional
    white space, a colon, optional white space.  The result is what follows
    the match. *)
Definition matchExercisePrefix (s : string) : option string :=
  if eqb (toLowerCase (substring 0 9 s)) "exercise_" then
    match spanDigits (substring 9 (String.length s - 9) s) with
    | (EmptyString, _) => None
    | (_, r1) =>
        match trimStart r1 with
        | String c r3 => if N.eqb (code c) 58 then Some (trimStart r3) else None
        | EmptyString => None
        end
    end
  else None.

Definition normalizePlanImportCause (reasonText : JsVal) : string :=
  let s := ToString (orElse reasonText (VStr "")) in
  trim (match matchExercisePrefix s with
        | Some rest => "exercise_*: " ++ rest
        | None => s
        end).

(** One line of the incident list. [detail_line] is the row number, or the
    empty string when the result has none. *)
Record DetailRow : Type := mkDetailRow {
  detail_line : JsVal;
  detail_log_date : string;
  detail_session_type : string;
  detail_issue_type : string;
  detail_reason : string;
  detail_action : string
}.

(** The lines one result of the import contributes. *)
Definition detailRowsOf (item : PreviewItem) : list DetailRow :=
  let issueType := planImportIssueType (status item) (reason item) in
  if eqb issueType "" then []
  else
    let rowData := default ∅ (row item) in
    let lineNo := ToNumber (row_number item) in
    let reasons :=
      match splitPlanImportReasons (reason item) with
      | [] => ["Incidencia sin detalle."]
      | rs => rs
      end in
    List.map
      (fun r =>
         mkDetailRow
           (if isFinite lineNo then VNum lineNo else VStr "")
           (ToString (orElse (get rowData "log_date") (VStr "")))
           (ToString (orElse (get rowData "session_type") (VStr "")))
           issueType r
           (planImportActionHint (VStr r) issueType rowData))
      reasons.

(** [results] is [None] when the payload has no array of results. *)
Definition buildPlanImportDetailRows (results : option (list PreviewItem))
    : list DetailRow :=
  List.concat (List.map detailRowsOf (default [] results)).

(** [cells.join(sep)] *)
Fixpoint join (sep : string) (cells : list string) : string :=
  match cells with
  | [] => EmptyString
  | [c] => c
  | c :: rest => c ++ sep ++ join sep rest
  end.

Definition LFs : string := String (ascii_of_N 10) EmptyString.

(** [cells.map(csvCell).join(",")] *)
Definition csvLine (cells : list JsVal) : string :=
  join "," (List.map csvCell cells).

Definition DETAIL_CSV_HEADER : list JsVal :=
  [VStr "linea"; VStr "fecha"; VStr "session_type"; VStr "tipo";
   VStr "motivo"; VStr "accion_sugerida"].

Definition detailCells (r : DetailRow) : list JsVal :=
  [detail_line r; VStr (detail_log_date r); VStr (detail_session_type r);
   VStr (detail_issue_type r); VStr (detail_reason r);
   VStr (detail_action r)].

(** The text of the file [downloadPlanImportDetailCsv] offers, or [None]
    when there is no incident and nothing is downloaded. *)
Definition planImportDetailCsv (rows : list DetailRow) : option string :=
  match rows with
  | [] => None
  | _ => Some (join LFs (csvLine DETAIL_CSV_HEADER
                         :: List.map (fun r => csvLine (detailCells r)) rows))
  end.

(** *** Reference definitions for the further properties *)

(** The theme a click on the theme button switches to. *)
Definition oppositeTheme (eff : string) : string :=
  if eqb eff "light" then "dark" else "light".

(** [n] is one of the numbers of [choices]. *)
Definition isChoice (choices : list Z) (n : num) : Prop :=
  exists c, In c choices /\ Num.eqb (ofZ c) n = true.

(** Reading escaped markup back: the five entities [escapeHtml] writes
    become their character again, everything else is kept.  [fuel] bounds
    the number of characters produced. *)
Fixpoint stripPrefix (p s : string) : option string :=
  match p with
  | EmptyString => Some s
  | String a p' =>
      match s with
      | String b s' => if Ascii.eqb a b then stripPrefix p' s' else None
      | EmptyString => None
      end
  end.

Definition entityAt (r : string) : option (ascii * string) :=
  match stripPrefix "amp;" r with
  | Some r' => Some ("&"%char, r')
  | None =>
  match stripPrefix "lt;" r with
  | Some r' => Some ("<"%char, r')
  | None =>
  match stripPrefix "gt;" r with
  | Some r' => Some (">"%char, r')
  | None =>
  match stripPrefix "quot;" r with
  | Some r' => Some (QUOTE, r')
  | None =>
  match stripPrefix "#39;" r with
  | Some r' => Some ("'"%char, r')
  | None => None
  end end end end end.

Fixpoint unescapeFuel (fuel : nat) (s : string) : string :=
  match fuel with
  | O => s
  | S fuel' =>
      match s with
      | EmptyString => EmptyString
      | String c r =>
          if N.eqb (code c) 38 then
            match entityAt r with
            | Some (c', r') => String c' (unescapeFuel fuel' r')
            | None => String c (unescapeFuel fuel' r)
            end
          else String c (unescapeFuel fuel' r)
      end
  end.

Definition unescapeHtml (s : string) : string :=
  unescapeFuel (String.length s) s.

(** The classes [drawKpiDelta] removes before it adds one. *)
Definition isKpiStateClass (c : string) : bool :=
  existsb (String.eqb c) KPI_STATE_CLASSES.

(** The four states of a KPI delta. *)
Definition KPI_STATES : list string :=
  ["state-muted"; "state-equal"; "state-better"; "state-worse"].

(** A delta of a weight-like KPI that went down, with its node. *)
Definition kpi_node : Node := mkNode ["kpi-delta"; "good"; "state-equal"] "".

(** *** Reading a CSV file back

    A reader of comma-separated text with line-feed record ends: a field
    that starts with a double quote runs to the closing double quote, a
    doubled double quote inside it standing for one; any other field runs
    to the next comma, line feed or end of text. *)
Inductive CsvMode : Type := FieldStart | Unquoted | Quoted | QuoteSeen.

Record CsvState : Type := mkCsvState {
  csv_mode : CsvMode;
  csv_field : string;                  (* the field being read *)
  csv_record : list string;            (* the fields of the record so far *)
  csv_records : list (list string)     (* the records read *)
}.

Definition snoc (s : string) (c : ascii) : string := s ++ String c EmptyString.

Definition endField (st : CsvState) : CsvState :=
  mkCsvState FieldStart EmptyString
             (csv_record st ++ [csv_field st])%list (csv_records st).

Definition endRecord (st : CsvState) : CsvState :=
  mkCsvState FieldStart EmptyString []
             (csv_records st ++ [(csv_record st ++ [csv_field st])%list])%list.

Definition addChar (m : CsvMode) (c : ascii) (st : CsvState) : CsvState :=
  mkCsvState m (snoc (csv_field st) c) (csv_record st) (csv_records st).

Definition setMode (m : CsvMode) (st : CsvState) : CsvState :=
  mkCsvState m (csv_field st) (csv_record st) (csv_records st).

Definition csvStep (st : CsvState) (c : ascii) : CsvState :=
  match csv_mode st with
  | FieldStart =>
      if isQuote c then setMode Quoted st
      else if Ascii.eqb c COMMA then endField st
      else if Ascii.eqb c LF then endRecord st
      else addChar Unquoted c st
  | Unquoted =>
      if Ascii.eqb c COMMA then endField st
      else if Ascii.eqb c LF then endRecord st
      else addChar Unquoted c st
  | Quoted =>
      if isQuote c then setMode QuoteSeen st
      else addChar Quoted c st
  | QuoteSeen =>
      if isQuote c then addChar Quoted c st
      else if Ascii.eqb c COMMA then endField st
      else if Ascii.eqb c LF then endRecord st
      else addChar Unquoted c st
  end.

Fixpoint runCsv (st : CsvState) (input : string) : CsvState :=
  match input with
  | EmptyString => st
  | String c r => runCsv (csvStep st c) r
  end.

(** The records at the end of the text: the field and the record being
    read are closed. *)
Definition csvFinish (st : CsvState) : list (list string) :=
  (csv_records st ++ [(csv_record st ++ [csv_field st])%list])%list.

Definition parseCsv (text : string) : list (list string) :=
  csvFinish (runCsv (mkCsvState FieldStart EmptyString [] []) text).

(** The modes in which a field can end. *)
Definition fieldEnded (m : CsvMode) : bool :=
  match m with Quoted => false | _ => true end.

(** The text [csvCell] writes for a value. *)
Definition cellText (raw : JsVal) : string :=
  ToString (coalesce raw (VStr "")).

(** *** Sample results of a plan import *)

(** An invalid row with two reasons, and a row imported with a warning. *)
Definition result_invalid : PreviewItem :=
  mkPreviewItem (VNum (ofZ 3)) (VStr "invalid")
                (VStr "exercise_1: sets invalido; date invalida")
                (Some (<["log_date" := VStr "2026-01-01"]>
                         (<["session_type" := VStr "pesas"]> ∅))).

Definition result_warned : PreviewItem :=
  mkPreviewItem (VNum (ofZ 4)) (VStr "imported")
                (VStr "se ignoraron ejercicios para session_type clase")
                (Some (<["log_date" := VStr "2026-01-01"]>
                         (<["session_type" := VStr "clase"]> ∅))).

Definition detail_of_warned : DetailRow :=
  mkDetailRow (VNum (ofZ 4)) "2026-01-01" "clase" "Aviso"
              "se ignoraron ejercicios para session_type clase"
              "Para session_type=clase, deja vacías las columnas exercise_*.".

(** The status of a result as [planImportIssueType] reads it. *)
Definition statusText (item : PreviewItem) : string :=
  toLowerCase (trim (ToString (orElse (status item) (VStr "")))).

(** The line number an incident of the result is listed with. *)
Definition lineOf (item : PreviewItem) : JsVal :=
  if isFinite (ToNumber (row_number item))
  then VNum (ToNumber (row_number item)) else VStr "".

(** *** Photos of the lightbox *)

Record PhotoItem : Type := mkPhotoItem {
  photo_log_date : string;
  photo_url : string;
  photo_label : string;
  photo_original_name : string;
  photo_weight_kg : JsVal;
  photo_whr : JsVal
}.

(** [v == null ? null : Number(v)] *)
Definition numberOrNull (v : JsVal) : JsVal :=
  if isNullish v then VNull else VNum (ToNumber v).

(** The key of the [Map] of [normalizePhotoItems]. *)
Definition photoKey (date url : string) : string := date ++ "|" ++ url.

(** [put]: the entries of the [Map], in insertion order, with one more
    item unless it has no photo, no ISO date, or a key already there.
    [None] is an entry of the array that is null. *)
Definition put (entries : list (string * PhotoItem)) (item : option JsObj)
    : list (string * PhotoItem) :=
  match item with
  | None => entries
  | Some it =>
      if negb (truthy (get it "photo_url")) then entries
      else
        let date := isoLike (get it "log_date") in
        if eqb date "" then entries
        else
          let key := photoKey date (ToString (get it "photo_url")) in
          if existsb (fun kv => eqb (fst kv) key) entries then entries
          else
            (entries ++
             [(key,
               mkPhotoItem date
                 (ToString (get it "photo_url"))
                 (ToString (orElse (get it "label") (VStr ("Foto " ++ date))))
                 (ToString (orElse (get it "original_name") (VStr "")))
                 (numberOrNull (get it "weight_kg"))
                 (numberOrNull (get it "whr")))])%list
  end.

(** The object a check-in row with a photo is put as. *)
Definition dietPhotoObject (r : JsObj) : JsObj :=
  let whrRaw := ToNumber (VStr (computeWHR r)) in
  <["log_date" := get r "log_date"]>
    (<["photo_url" := get r "photo_url"]>
       (<["label" :=
            VStr (trim ("Foto "
                        ++ ToString (orElse (get r "log_date") (VStr ""))))]>
          (<["weight_kg" := get r "weight_kg"]>
             (<["whr" := if isFinite whrRaw then VNum whrRaw else VNull]> ∅)))).

Definition putDietRow (entries : list (string * PhotoItem))
    (r : option JsObj) : list (string * PhotoItem) :=
  match r with
  | None => entries
  | Some row =>
      if negb (truthy (get row "photo_url")) then entries
      else put entries (Some (dietPhotoObject row))
  end.

(** [a > b] on strings. *)
Definition strGtb (a b : string) : bool :=
  match String.compare a b with Gt => true | _ => false end.

(** The comparator of the sort: negative when [a] goes first. *)
Definition photoCompare (a b : PhotoItem) : Z :=
  if eqb (photo_log_date a) (photo_log_date b) then 0
  else if strGtb (photo_log_date a) (photo_log_date b) then -1 else 1.

(** [array.sort(compare)]: the stable sort, by insertion. *)
Fixpoint insertSorted {A} (compare : A -> A -> Z) (x : A) (l : list A)
    : list A :=
  match l with
  | [] => [x]
  | y :: rest =>
      if Z.leb (compare x y) 0 then x :: l
      else y :: insertSorted compare x rest
  end.

Fixpoint sortBy {A} (compare : A -> A -> Z) (l : list A) : list A :=
  match l with
  | [] => []
  | x :: rest => insertSorted compare x (sortBy compare rest)
  end.

(** [rawPhotos] and [dietRows] are [None] when they are not arrays. *)
Definition normalizePhotoItems (rawPhotos dietRows : option (list (option JsObj)))
    : list PhotoItem :=
  let m1 := fold_left put (default [] rawPhotos) [] in
  let m2 := fold_left putDietRow (default [] dietRows) m1 in
  sortBy photoCompare (List.map snd m2).

(** The characters a formatted number is made of: digits, the grouping
    dot, the decimal comma and the minus sign. *)
Definition numberChar (c : ascii) : bool :=
  isDigit c || N.eqb (code c) 46 || N.eqb (code c) 44 || N.eqb (code c) 45.

(** [a] is not of an earlier date than [b], in the order [>] has on
    strings. *)
Definition notEarlier (a b : PhotoItem) : Prop :=
  String.compare (photo_log_date a) (photo_log_date b) <> Lt.

(** What tells two photo items apart: the date and the address. *)
Definition photoIdentity (p : PhotoItem) : string * string :=
  (photo_log_date p, photo_url p).

(** What holds of the entries of the [Map] of [normalizePhotoItems] at
    every moment: the keys are distinct, each is the key of its item, and
    each item has an ISO date. *)
Definition entriesOk (entries : list (string * PhotoItem)) : Prop :=
  List.NoDup (List.map fst entries)
  /\ Forall (fun kv =>
               fst kv = photoKey (photo_log_date (snd kv)) (photo_url (snd kv))
               /\ isIsoDate (photo_log_date (snd kv)) = true) entries.

(** A check-in row with both measures and a photo. *)
Definition checkin_with_photo : JsObj :=
  <["log_date" := VStr "2099-02-10"]>
    (<["photo_url" := VStr "/uploads/a.jpg"]> checkin_80_100).

(** The photo item the lightbox gets for it. *)
Definition photo_of_checkin : PhotoItem :=
  mkPhotoItem "2099-02-10" "/uploads/a.jpg" "Foto 2099-02-10" "" VNull VNull.

(** A limit that is assigned [parseLimitValue(raw, limit)] for each value
    received, as [summaryWindowDays], [dietLimit], [workLimit] and
    [suppLimit] are. *)
Definition limitAfter (limit : JsVal) (received : list JsVal) : JsVal :=
  fold_left (fun cur raw => parseLimitValue raw cur) received limit.

(** *** The synchronisation status *)

(** [c] is one of the tone classes of the status line. *)
Definition isSyncTone (c : string) : bool :=
  existsb (String.eqb c) ["ok"; "warn"; "bad"].

(** [setSyncStatus(text, tone)]; a missing node ([None]) is left alone. *)
Definition setSyncStatus (syncStatus : option Node) (text tone : JsVal)
    : option Node :=
  match syncStatus with
  | None => None
  | Some node =>
      let n1 :=
        set_textContent (ToString (orElse text (VStr "Sin estado"))) node in
      let n2 := classList_remove ["ok"; "warn"; "bad"] n1 in
      Some (match tone with
            | VStr t =>
                if String.eqb t "warn" || String.eqb t "bad"
                then classList_add t n2
                else classList_add "ok" n2
            | _ => classList_add "ok" n2
            end)
  end.

(** Case analysis on the eight bits of a character. *)
Ltac each_ascii c :=
  destruct c as [[|] [|] [|] [|] [|] [|] [|] [|]].

(** *** Reading a formatted ratio back

    A number written the Spanish way with three decimals, read back in
    thousandths: an optional minus sign, digits that dots may group, a
    comma, and exactly three digits.  Any other text is not read. *)







(** * Properties *)

(** ** The CSV cell encoder *)

Lemma chars_cons c s : chars (String c s) = c :: chars s.
Proof. reflexivity. Qed.

Lemma needsQuoting_cons c s :
  needsQuoting (String c s)
  = (isQuote c || N.eqb (code c) 44 || N.eqb (code c) 10) || needsQuoting s.
Proof. reflexivity. Qed.

Lemma code_inj a b : code a = code b -> a = b.
Proof.
  unfold code. intros H.
  rewrite <- (ascii_N_embedding a), <- (ascii_N_embedding b). now rewrite H.
Qed.

Lemma code_eqb c n : n = code (ascii_of_N n) -> N.eqb (code c) n = true <-> c = ascii_of_N n.
Proof.
  intros Hn. rewrite N.eqb_eq. split.
  - intros H. apply code_inj. now rewrite <- Hn.
  - intros ->. now rewrite <- Hn.
Qed.

(** The test of [csvCell] is the occurrence of one of the three characters. *)
Lemma needsQuoting_spec s :
  needsQuoting s = true <-> occurs QUOTE s \/ occurs COMMA s \/ occurs LF s.
Proof.
  unfold occurs. induction s as [|c s IH].
  - cbn. split; [discriminate | tauto].
  - rewrite needsQuoting_cons, chars_cons. cbn [In].
    rewrite !orb_true_iff, IH. unfold isQuote.
    rewrite (code_eqb c 34), (code_eqb c 44), (code_eqb c 10) by reflexivity.
    unfold QUOTE, COMMA, LF.
    split; intros H; repeat destruct H as [H|H]; subst; tauto.
Qed.

Lemma DQ_append s : DQ ++ s = String QUOTE s.
Proof. reflexivity. Qed.

Lemma isQuote_QUOTE : isQuote QUOTE = true.
Proof. reflexivity. Qed.

Lemma isQuote_true c : isQuote c = true -> c = QUOTE.
Proof. unfold isQuote. now rewrite (code_eqb c 34). Qed.

Lemma lastChar_snoc s c : lastChar (s ++ String c EmptyString) = Some c.
Proof.
  induction s as [|a s IH]; [reflexivity|].
  change (String a s ++ String c EmptyString)%string
    with (String a (s ++ String c EmptyString)).
  destruct (s ++ String c EmptyString)%string eqn:E.
  - destruct s; discriminate.
  - exact IH.
Qed.

Lemma dropLast_snoc s c : dropLast (s ++ String c EmptyString) = s.
Proof.
  induction s as [|a s IH]; [reflexivity|].
  change (String a s ++ String c EmptyString)%string
    with (String a (s ++ String c EmptyString)).
  destruct (s ++ String c EmptyString)%string eqn:E.
  - destruct s; discriminate.
  - change (String a (dropLast (String a0 s0)) = String a s). now rewrite IH.
Qed.

(** Undoubling undoes the doubling of [csvCell]. *)
Lemma undouble_double s : undoubleQuotes (doubleQuotes s) = s.
Proof.
  induction s as [|c s IH]; [reflexivity|].
  cbn [doubleQuotes]. fold (isQuote c).
  destruct (isQuote c) eqn:Hc.
  - apply isQuote_true in Hc. subst c.
    rewrite !DQ_append. cbn [undoubleQuotes]. rewrite isQuote_QUOTE. cbn.
    now rewrite IH.
  - cbn [undoubleQuotes]. rewrite Hc. cbn [andb].
    f_equal. rewrite <- IH at 2. now destruct (doubleQuotes s).
Qed.

Lemma length_snoc s c :
  String.length (s ++ String c EmptyString) = S (String.length s).
Proof.
  induction s as [|a s IH]; [reflexivity|].
  change (S (String.length (s ++ String c EmptyString))
          = S (S (String.length s))).
  now rewrite IH.
Qed.

Lemma doubleQuotes_length s :
  (String.length s <= String.length (doubleQuotes s))%nat.
Proof.
  induction s as [|c s IH]; cbn [doubleQuotes]; [apply Nat.le_refl|].
  destruct (N.eqb (code c) 34); rewrite ?DQ_append; cbn; lia.
Qed.

Lemma wrapped_longer s : DQ ++ doubleQuotes s ++ DQ <> s.
Proof.
  intros H. apply (f_equal String.length) in H.
  rewrite DQ_append in H. cbn [String.length] in H.
  unfold DQ in H. rewrite length_snoc in H.
  pose proof (doubleQuotes_length s). lia.
Qed.

Lemma csvDecode_wrapped s : csvDecode (DQ ++ doubleQuotes s ++ DQ) = s.
Proof.
  rewrite DQ_append. unfold csvDecode, DQ. fold QUOTE.
  rewrite lastChar_snoc, dropLast_snoc, isQuote_QUOTE. cbn.
  apply undouble_double.
Qed.

Lemma csvDecode_plain s : needsQuoting s = false -> csvDecode s = s.
Proof.
  destruct s as [|c s]; [reflexivity|].
  rewrite needsQuoting_cons. intros H. unfold csvDecode.
  destruct (isQuote c); [discriminate | reflexivity].
Qed.

(** C10. For every string, [csvCell] returns the text between double quotes,
    every double quote of the text doubled, exactly when the text has a
    double quote, a comma or a line feed, and returns the text unchanged
    exactly when it has none; reading the cell back (outer quotes removed,
    doubled quotes undoubled) gives the text again. *)
Theorem csvCell_quotes_and_round_trips (s : string) :
  (occurs QUOTE s \/ occurs COMMA s \/ occurs LF s
     <-> csvCell (VStr s) = DQ ++ doubleQuotes s ++ DQ)
  /\ (~ (occurs QUOTE s \/ occurs COMMA s \/ occurs LF s)
     <-> csvCell (VStr s) = s)
  /\ csvDecode (csvCell (VStr s)) = s.
Proof.
  rewrite <- needsQuoting_spec.
  unfold csvCell. cbn [coalesce isNullish ToString].
  destruct (needsQuoting s) eqn:Hq.
  - split; [tauto|]. split; [|apply csvDecode_wrapped].
    split; [intros H; now elim H | intros H; now apply wrapped_longer in H].
  - split; [|split; [|now apply csvDecode_plain]].
    + split; [discriminate | intros H; symmetry in H; now apply wrapped_longer in H].
    + split; [reflexivity | intros _; discriminate].
Qed.

(** ** The session-type normaliser *)

Lemma text_eqb_eq s t : eqb s t = true <-> s = t.
Proof. apply String.eqb_eq. Qed.

Lemma text_eqb_neq s t : eqb s t = false <-> s <> t.
Proof. apply String.eqb_neq. Qed.

(** C4, as the code has it. The normaliser has two outcomes and no invalid
    one: after trimming and lower-casing, [mixta] and [pesas] give [pesas],
    and every other value ([clase], a missing or empty value, any
    unrecognised type) gives [clase]; normalising twice changes nothing. *)
Theorem normalizeSessionType_two_outcomes (v : JsVal) :
  let type := toLowerCase (trim (ToString (orElse v (VStr "")))) in
  (normalizeSessionType v = "pesas" <-> type = "mixta" \/ type = "pesas")
  /\ (normalizeSessionType v = "clase" <-> type <> "mixta" /\ type <> "pesas")
  /\ normalizeSessionType (VStr (normalizeSessionType v))
     = normalizeSessionType v.
Proof.
  intros type. unfold normalizeSessionType. fold type.
  destruct (eqb type "mixta") eqn:Hm; [|destruct (eqb type "pesas") eqn:Hp];
    rewrite ?text_eqb_eq, ?text_eqb_neq in *;
    (split; [|split]); try reflexivity;
    intuition (try discriminate; try congruence).
Qed.

(** Case and surrounding white space do not matter. *)
Example normalizeSessionType_examples :
  List.map normalizeSessionType
           [VStr " Mixta "; VStr "PESAS"; VStr "clase"; VStr "";
            VNull; VUndefined; VStr "cardio"]
  = ["pesas"; "pesas"; "clase"; "clase"; "clase"; "clase"; "clase"].
Proof. reflexivity. Qed.

(** C4, as the specification words it, fails: a session type that is
    neither [mixta], [pesas] nor [clase] is not refused but becomes
    [clase]. *)
Lemma normalizeSessionType_coerces_unknown :
  toLowerCase (trim "yoga") <> "mixta"
  /\ toLowerCase (trim "yoga") <> "pesas"
  /\ toLowerCase (trim "yoga") <> "clase"
  /\ normalizeSessionType (VStr "yoga") = "clase".
Proof. repeat split; vm_compute; discriminate. Qed.

(** ** Adherence pills *)

Lemma Qltb_lt a b : Qltb a b = true <-> (a < b)%Q.
Proof.
  unfold Qltb. rewrite negb_true_iff.
  split.
  - intros H. apply Qnot_le_lt. intros Hle.
    apply Qle_bool_iff in Hle. congruence.
  - intros H. destruct (Qle_bool b a) eqn:E; [|reflexivity].
    apply Qle_bool_iff in E. exfalso. now apply (Qlt_not_le a b).
Qed.

Lemma Qltb_ge a b : Qltb a b = false <-> (b <= a)%Q.
Proof.
  unfold Qltb. rewrite negb_false_iff. apply Qle_bool_iff.
Qed.

(** [scoreMatches] against a finite target is the distance test on the
    number the score converts to. *)
Lemma scoreMatches_within v x t :
  ToNumber v = Fin x ->
  scoreMatches v (VNum (Fin t)) = true <-> within x t.
Proof. intros Hv. unfold scoreMatches, within. rewrite Hv. cbn. apply Qltb_lt. Qed.

Lemma scoreMatches_not_within v x t :
  ToNumber v = Fin x ->
  scoreMatches v (VNum (Fin t)) = false <-> ~ within x t.
Proof.
  intros Hv. rewrite <- (scoreMatches_within v x t Hv).
  destruct (scoreMatches _ _); split; intros H; congruence.
Qed.

Lemma scoreMatches_not_finite v t :
  isFinite (ToNumber v) = false -> scoreMatches v (VNum (Fin t)) = false.
Proof. unfold scoreMatches. now destruct (ToNumber v). Qed.

Lemma noScore_test v :
  isNullish v || isEmptyStr v = true <-> noScore v.
Proof.
  unfold noScore. split.
  - destruct v as [| | | |[|c s]]; cbn; intros H; try discriminate; auto.
  - intros [-> | [-> | ->]]; reflexivity.
Qed.

Lemma within_bounds x t :
  within x t <-> (t - (1 # 1000) < x /\ x < t + (1 # 1000))%Q.
Proof.
  unfold within. rewrite Qabs_Qlt_condition. split; intros [H1 H2]; split; lra.
Qed.

(** The three bands around 1, 0.5 and 0 do not meet. *)
Lemma within_half_not_one x : within x (1 # 2) -> ~ within x 1.
Proof. rewrite !within_bounds. intros [H1 H2] [H3 H4]. lra. Qed.

Lemma within_zero_not_one x : within x 0 -> ~ within x 1.
Proof. rewrite !within_bounds. intros [H1 H2] [H3 H4]. lra. Qed.

Lemma within_zero_not_half x : within x 0 -> ~ within x (1 # 2).
Proof. rewrite !within_bounds. intros [H1 H2] [H3 H4]. lra. Qed.

(** C6. The label of the adherence pill, for every score value and plan
    flag: "Sin plan" whenever the track has no plan, whatever the score;
    with a plan, "Pendiente" when no score was given (null, undefined or
    the empty string), "Cumplida" when the score is within 0.001 of 1,
    "Parcial" within 0.001 of 0.5, "No cumplida" within 0.001 of 0, and
    "Pendiente" when it matches none of the three. *)
Theorem planPill_label_by_score_and_plan (score : JsVal) :
  label (planPillFromAdherenceScore score false) = "Sin plan"
  /\ (noScore score ->
        label (planPillFromAdherenceScore score true) = "Pendiente")
  /\ (~ noScore score ->
        (forall x, ToNumber score = Fin x ->
           (within x 1 ->
              label (planPillFromAdherenceScore score true) = "Cumplida")
           /\ (within x (1 # 2) ->
              label (planPillFromAdherenceScore score true) = "Parcial")
           /\ (within x 0 ->
              label (planPillFromAdherenceScore score true) = "No cumplida"))
        /\ (matchesNoScore (ToNumber score) ->
              label (planPillFromAdherenceScore score true) = "Pendiente")).
Proof.
  split; [reflexivity|]. split.
  - intros H. apply noScore_test in H.
    unfold planPillFromAdherenceScore. cbn [negb]. now rewrite H.
  - intros H.
    assert (Hgiven : isNullish score || isEmptyStr score = false).
    { destruct (isNullish score || isEmptyStr score) eqn:E; [|reflexivity].
      elim H. now apply noScore_test. }
    unfold planPillFromAdherenceScore. cbn [negb]. rewrite Hgiven.
    split.
    + intros x Hx. repeat split; intros Hw.
      * now rewrite (proj2 (scoreMatches_within score x 1 Hx) Hw).
      * rewrite (proj2 (scoreMatches_not_within score x 1 Hx)
                       (within_half_not_one x Hw)).
        now rewrite (proj2 (scoreMatches_within score x (1 # 2) Hx) Hw).
      * rewrite (proj2 (scoreMatches_not_within score x 1 Hx)
                       (within_zero_not_one x Hw)).
        rewrite (proj2 (scoreMatches_not_within score x (1 # 2) Hx)
                       (within_zero_not_half x Hw)).
        now rewrite (proj2 (scoreMatches_within score x 0 Hx) Hw).
    + destruct (ToNumber score) as [| | |q] eqn:Hn.
      1-3: intros _; rewrite !scoreMatches_not_finite by now rewrite Hn.
      1-3: reflexivity.
      intros (H1 & H2 & H3).
      rewrite (proj2 (scoreMatches_not_within score q 1 Hn) H1).
      rewrite (proj2 (scoreMatches_not_within score q (1 # 2) Hn) H2).
      now rewrite (proj2 (scoreMatches_not_within score q 0 Hn) H3).
Qed.

(** The four values of a stored score, and a number outside the bands. *)
Example planPill_labels :
  List.map (fun v => label (planPillFromAdherenceScore v true))
           [VNum (Fin 1); VNum (Fin (1 # 2)); VNum (Fin 0); VNull;
            VNum (Fin (7 # 10)); VStr ""; VStr "0.5"]
  = ["Cumplida"; "Parcial"; "No cumplida"; "Pendiente"; "Pendiente";
     "Pendiente"; "Parcial"]
  /\ List.map (fun v => label (planPillFromAdherenceScore v false))
           [VNum (Fin 1); VNull]
     = ["Sin plan"; "Sin plan"].
Proof. split; reflexivity. Qed.

(** ** Waist-to-hip ratio *)

Lemma Qle_bool_false a b : Qle_bool a b = false <-> (b < a)%Q.
Proof.
  split.
  - intros H. apply Qnot_le_lt. intros Hle.
    apply Qle_bool_iff in Hle. congruence.
  - intros H. destruct (Qle_bool a b) eqn:E; [|reflexivity].
    apply Qle_bool_iff in E. exfalso. now apply (Qlt_not_le b a).
Qed.






(** The placeholder is returned whenever a measure is not finite or the hip
    is not above zero. *)
Lemma computeWHR_placeholder (r : JsObj) :
  isFinite (ToNumber (get r "waist_cm")) = false
  \/ isFinite (ToNumber (get r "hip_cm")) = false
  \/ leb (ToNumber (get r "hip_cm")) (Fin 0) = true ->
  computeWHR r = DASH.
Proof.
  unfold computeWHR. intros [H | [H | H]]; rewrite H; cbn [negb orb];
    [reflexivity | | ].
  - now rewrite orb_true_r.
  - now rewrite !orb_true_r.
Qed.

(** The division is reached only with a finite waist and a finite hip above
    zero. *)
Lemma computeWHR_divides_by_positive (r : JsObj) :
  computeWHR r <> DASH ->
  exists w h, ToNumber (get r "waist_cm") = Fin w
              /\ ToNumber (get r "hip_cm") = Fin h /\ (0 < h)%Q.
Proof.
  intros H.
  destruct (ToNumber (get r "waist_cm")) as [| | |w] eqn:Hw;
    try (elim H; apply computeWHR_placeholder; rewrite Hw; now left).
  destruct (ToNumber (get r "hip_cm")) as [| | |h] eqn:Hh;
    try (elim H; apply computeWHR_placeholder; rewrite Hh; right; now left).
  exists w, h. repeat split.
  destruct (Qle_bool h 0) eqn:Hle.
  - elim H. apply computeWHR_placeholder. rewrite Hh. right; right. exact Hle.
  - now apply Qle_bool_false.
Qed.

(** C9 at a check-in that has a hip measure and no waist measure: the
    missing waist converts to the number 0, passes the finiteness test, and
    the cell shows the ratio 0 instead of the placeholder. *)
Theorem computeWHR_missing_waist_shows_zero :
  get checkin_no_waist "waist_cm" = VNull
  /\ ToNumber (get checkin_no_waist "waist_cm") = Fin 0
  /\ computeWHR checkin_no_waist = "0,000"
  /\ computeWHR checkin_no_waist <> DASH.
Proof. repeat split; vm_compute; try reflexivity; discriminate. Qed.

(** ** Adherence history *)

(** An entry without a total score is left out of the mean ... *)
Lemma scoredValues_skips_undefined (item : JsObj) (its : list JsObj) :
  get item "total_score" = VUndefined ->
  scoredValues (item :: its) = scoredValues its.
Proof. intros H. unfold scoredValues. cbn [List.map List.filter]. now rewrite H. Qed.

(** ... and an entry whose total score is null counts as a score of 0. *)
Lemma scoredValues_counts_null (item : JsObj) (its : list JsObj) :
  get item "total_score" = VNull ->
  scoredValues (item :: its) = Fin 0 :: scoredValues its.
Proof. intros H. unfold scoredValues. cbn [List.map List.filter]. now rewrite H. Qed.

(** The number of days of the period does not depend on the entries. *)
Lemma totalDays_independent_of_items (h : AdherenceHistory) (its : option (list JsObj)) (w : num) :
  view_totalDays
    (renderPlanAdherenceHistory
       (mkAdherenceHistory (window_days h) its (scored_days h) (total_days h)
                           (from h) (to h)) w)
  = view_totalDays (renderPlanAdherenceHistory h w).
Proof. reflexivity. Qed.

(** C7 at a history with one day scored 1 and one day without score: the
    unscored day enters the mean as 0, which comes out as 0,50 over two
    days, although the list prints no total for that day; and a history
    whose only day is unscored gets the mean 0,00 instead of the
    placeholder. *)
Theorem periodAvg_counts_unscored_day_as_zero :
  scoredValues [day_scored; day_note_only] = [Fin 1; Fin 0]
  /\ view_periodAvg (renderPlanAdherenceHistory history_one_scored (Fin 15))
     = "0,50"
  /\ List.map line_total
       (view_lines (renderPlanAdherenceHistory history_one_scored (Fin 15)))
     = ["1,00"; DASH]
  /\ view_periodAvg (renderPlanAdherenceHistory history_none_scored (Fin 15))
     = "0,00"
  /\ view_totalDays (renderPlanAdherenceHistory history_one_scored (Fin 15))
     = Fin 7.
Proof. repeat split; vm_compute; reflexivity. Qed.

(** ** KPI deltas *)

Lemma hasClass_add c t n :
  hasClass c (classList_add t n) = String.eqb c t || hasClass c n.
Proof.
  unfold classList_add. destruct (hasClass t n) eqn:Ht.
  - destruct (String.eqb c t) eqn:Hc; [|reflexivity].
    apply String.eqb_eq in Hc. subst c. now rewrite Ht.
  - unfold hasClass. cbn [classList]. rewrite existsb_app. cbn [existsb].
    now rewrite orb_false_r, orb_comm.
Qed.

Lemma hasClass_remove c tokens n :
  hasClass c (classList_remove tokens n)
  = hasClass c n && negb (existsb (String.eqb c) tokens).
Proof.
  unfold hasClass, classList_remove. cbn [classList].
  induction (classList n) as [|a l IH]; [reflexivity|].
  cbn [List.filter existsb].
  destruct (String.eqb c a) eqn:Hca.
  - apply String.eqb_eq in Hca. subst a.
    destruct (existsb (String.eqb c) tokens) eqn:Hin; cbn [negb].
    + rewrite IH. cbn. now rewrite andb_false_r.
    + cbn [existsb]. now rewrite String.eqb_refl.
  - destruct (negb (existsb (String.eqb a) tokens)); cbn [existsb];
      rewrite ?Hca; exact IH.
Qed.

Lemma innerHTML_add t n : innerHTML (classList_add t n) = innerHTML n.
Proof. unfold classList_add. now destruct (hasClass t n). Qed.

Lemma hasClass_set_innerHTML c html n :
  hasClass c (set_innerHTML html n) = hasClass c n.
Proof. reflexivity. Qed.

Lemma hasClass_set_textContent c text n :
  hasClass c (set_textContent text n) = hasClass c n.
Proof. reflexivity. Qed.

(** The markup of the comparison starts with a tag, the muted text does
    not. *)
Lemma span_not_muted_text cls body rest :
  span cls body ++ rest <> "Sin comparativa previa".
Proof. unfold span. cbn. discriminate. Qed.

Lemma Qabs_zero_le z eps : (z == 0)%Q -> (0 <= eps)%Q -> Qle_bool (Qabs z) eps = true.
Proof.
  intros Hz Heps. apply Qle_bool_iff.
  assert (Qabs z == 0)%Q as ->; [|exact Heps].
  rewrite Hz. reflexivity.
Qed.

(** C3. A delta that is null (or undefined), or that does not convert to a
    number, is drawn as the muted state "Sin comparativa previa"; a delta
    that is the number 0 is drawn as the state "Igual: sin cambios
    relevantes"; the muted state is drawn for no other delta, so a missing
    baseline never shows as a zero delta, nor a zero delta as missing. *)
Theorem drawKpiDelta_null_is_not_zero
    (meta : string) (node : Node) (delta : JsVal) (digits : nat)
    (unit : string) (preferLower : bool) (eps : Q) :
  (0 <= eps)%Q ->
  exists out,
    drawKpiDelta meta (Some node) delta digits unit preferLower (Fin eps)
    = Some out
    /\ (isNullish delta = true \/ ToNumber delta = NaN ->
          innerHTML out = "Sin comparativa previa"
          /\ hasClass "state-muted" out = true
          /\ hasClass "state-equal" out = false)
    /\ ((exists z, delta = VNum (Fin z) /\ (z == 0)%Q) ->
          innerHTML out
          = span "kpi-delta-main" "Igual: sin cambios relevantes" ++ meta
          /\ hasClass "state-equal" out = true
          /\ hasClass "state-muted" out = false)
    /\ (hasClass "state-muted" out = true
        <-> isNullish delta = true \/ ToNumber delta = NaN)
    /\ (innerHTML out = "Sin comparativa previa"
        <-> isNullish delta = true \/ ToNumber delta = NaN).
Proof.
  intros Heps. unfold drawKpiDelta.
  set (node1 := set_innerHTML "" (classList_remove KPI_STATE_CLASSES node)).
  assert (Hclean : forall c, existsb (String.eqb c) KPI_STATE_CLASSES = true ->
                             hasClass c node1 = false).
  { intros c Hc. unfold node1.
    rewrite hasClass_set_innerHTML, hasClass_remove, Hc.
    now rewrite andb_false_r. }
  assert (Hmissing : isNullish delta || isNaN (ToNumber delta) = true
                     <-> isNullish delta = true \/ ToNumber delta = NaN).
  { rewrite orb_true_iff. split; intros [H|H]; auto.
    - right. now destruct (ToNumber delta).
    - right. now rewrite H. }
  destruct (isNullish delta || isNaN (ToNumber delta)) eqn:Hmiss.
  - assert (Hm : isNullish delta = true \/ ToNumber delta = NaN)
      by now apply Hmissing.
    eexists; split; [reflexivity|].
    rewrite !hasClass_add, !hasClass_set_textContent, innerHTML_add.
    rewrite (Hclean "state-equal") by reflexivity.
    change (innerHTML (set_textContent "Sin comparativa previa" node1))
      with "Sin comparativa previa".
    split; [intros _; repeat split|].
    split; [|tauto].
    intros (z & Hz & _). subst delta. destruct Hm as [Hm|Hm]; discriminate Hm.
  - assert (Hm : ~ (isNullish delta = true \/ ToNumber delta = NaN)).
    { intros H. apply Hmissing in H. discriminate. }
    destruct (leb (abs (ToNumber delta)) (Fin eps)) eqn:Hstable.
    + eexists; split; [reflexivity|].
      rewrite !hasClass_add, !hasClass_set_innerHTML, innerHTML_add.
      rewrite (Hclean "state-muted") by reflexivity.
      cbn [innerHTML set_innerHTML].
      split; [tauto|]. split; [intros _; repeat split|].
      split; [split; [discriminate | tauto]|].
      split; [|tauto].
      intros H. now apply span_not_muted_text in H.
    + eexists; split; [reflexivity|].
      rewrite !hasClass_add, !hasClass_set_innerHTML, innerHTML_add.
      rewrite (Hclean "state-muted") by reflexivity.
      cbn [innerHTML set_innerHTML].
      split; [tauto|].
      split.
      { intros (z & Hz & Hz0). subst delta. cbn [ToNumber abs leb] in Hstable.
        rewrite (Qabs_zero_le z eps Hz0 Heps) in Hstable. discriminate. }
      split.
      { split; [|tauto]. intros H. exfalso. revert H.
        destruct (if gtb (ToNumber delta) (Fin 0)
                  then negb preferLower else negb (negb preferLower));
          cbn; discriminate. }
      split; [|tauto].
      intros H. now apply span_not_muted_text in H.
Qed.

(** ** Check-in import *)

Lemma renderImportSummary_keeps (s : JsObj) (ui : ImportUi) :
  importPreviewRows (renderImportSummary s ui) = importPreviewRows ui
  /\ importPreviewBody (renderImportSummary s ui) = importPreviewBody ui
  /\ importPreviewWrap (renderImportSummary s ui) = importPreviewWrap ui
  /\ importApplyBtn (renderImportSummary s ui) = importApplyBtn ui.
Proof.
  unfold renderImportSummary.
  destruct (importDietSummary ui); repeat split; reflexivity.
Qed.

(** The preview always stores the rows it was given. *)
Lemma renderImportPreview_rows (payload : ImportPayload) (ui : ImportUi) :
  importPreviewRows (renderImportPreview payload ui)
  = default [] (preview payload).
Proof.
  unfold renderImportPreview.
  generalize (default [] (preview payload)). intros rows.
  set (ui0 := mkImportUi _ _ _ _ _).
  destruct (renderImportSummary_keeps (summary payload) ui0) as (Hr & _).
  destruct (importPreviewBody (renderImportSummary (summary payload) ui0));
    [|exact Hr].
  destruct (importPreviewWrap (renderImportSummary (summary payload) ui0));
    [|exact Hr].
  now destruct rows.
Qed.

(** On a page that has the dialog, the button is disabled exactly when no
    row passes the filter. *)
Lemma renderImportPreview_button (payload : ImportPayload) (ui : ImportUi) :
  hasImportDialog ui ->
  importApplyBtn (renderImportPreview payload ui)
  = Some (Nat.eqb (length (List.filter isValidItem
                                       (default [] (preview payload)))) 0).
Proof.
  intros ([body Hb] & [wrap Hw] & [btn Hbtn]).
  unfold renderImportPreview.
  generalize (default [] (preview payload)). intros rows.
  set (ui0 := mkImportUi _ _ _ _ _).
  destruct (renderImportSummary_keeps (summary payload) ui0)
    as (_ & Hb' & Hw' & Hbtn').
  rewrite Hb', Hw', Hbtn'. unfold ui0.
  cbn [importPreviewBody importPreviewWrap importApplyBtn].
  rewrite Hb, Hw, Hbtn.
  now destruct rows.
Qed.

Lemma isValidItem_statusIs (it : PreviewItem) :
  previewStatus (status it) -> isValidItem it = statusIs "valid" it.
Proof.
  unfold isValidItem, statusIs.
  intros [H | [H | H]]; rewrite H; reflexivity.
Qed.

Lemma statusIs_eq (name : string) (it : PreviewItem) :
  statusIs name it = true <-> status it = VStr name.
Proof.
  unfold statusIs. destruct (status it); try (split; discriminate).
  rewrite String.eqb_eq. split; congruence.
Qed.

Lemma filter_nonempty {A} (p : A -> bool) (l : list A) :
  Nat.eqb (length (List.filter p l)) 0 = false
  <-> exists x, In x l /\ p x = true.
Proof.
  split.
  - destruct (List.filter p l) as [|x l'] eqn:E; [discriminate|].
    intros _. exists x. apply filter_In. rewrite E. now left.
  - intros (x & Hx). apply filter_In in Hx.
    destruct (List.filter p l); [contradiction | reflexivity].
Qed.

(** C1. On the page of the import dialog, for every preview whose rows
    have one of the statuses valid, conflict and invalid: the apply button
    is enabled if and only if some previewed row has the status valid; the
    rows the apply request sends are exactly the previewed rows of status
    valid, in order, each with its row number and row; no request is made
    when there is none; so a row of status conflict or invalid is never
    sent. *)
Theorem import_apply_sends_exactly_valid_rows
    (payload : ImportPayload) (ui : ImportUi) :
  hasImportDialog ui ->
  Forall (fun it => previewStatus (status it)) (default [] (preview payload)) ->
  let rows := default [] (preview payload) in
  let ui' := renderImportPreview payload ui in
  (applyEnabled ui' <-> exists it, In it rows /\ status it = VStr "valid")
  /\ (applyDietImport ui' = None
      <-> forall it, In it rows -> status it <> VStr "valid")
  /\ (forall sent, applyDietImport ui' = Some sent ->
        sent = List.map toApplyRow (List.filter (statusIs "valid") rows)
        /\ forall ar, In ar sent ->
             exists it, In it rows /\ status it = VStr "valid"
                        /\ ar = toApplyRow it).
Proof.
  intros Hpage Hst rows ui'.
  assert (Hfilter : List.filter isValidItem rows
                    = List.filter (statusIs "valid") rows).
  { apply filter_ext_in. intros it Hin.
    apply isValidItem_statusIs.
    exact (proj1 (List.Forall_forall _ _) Hst it Hin). }
  assert (Hany : (exists it, In it rows /\ statusIs "valid" it = true)
                 <-> exists it, In it rows /\ status it = VStr "valid").
  { split; intros (it & Hin & H); exists it; split; auto;
      now apply statusIs_eq. }
  split; [|split].
  - unfold applyEnabled, ui'. rewrite (renderImportPreview_button _ _ Hpage).
    fold rows. rewrite Hfilter, <- Hany, <- filter_nonempty.
    split; [now intros [= ->] | now intros ->].
  - unfold applyDietImport, ui'. rewrite renderImportPreview_rows.
    fold rows. rewrite Hfilter.
    destruct (List.filter (statusIs "valid") rows) as [|x l] eqn:E;
      cbn [List.map].
    + split; [|reflexivity]. intros _ it Hin Hv.
      assert (In it (List.filter (statusIs "valid") rows)) as Hf
        by (apply filter_In; split; [exact Hin | now apply statusIs_eq]).
      rewrite E in Hf. contradiction.
    + split; [discriminate|]. intros H. exfalso.
      assert (In x (List.filter (statusIs "valid") rows)) as Hf
        by (rewrite E; now left).
      apply filter_In in Hf. destruct Hf as [Hin Hv].
      apply statusIs_eq in Hv. now apply (H x Hin).
  - intros sent. unfold applyDietImport, ui'. rewrite renderImportPreview_rows.
    fold rows. rewrite Hfilter. fold toApplyRow.
    change (fun r : PreviewItem => mkApplyRow (row_number r) (row r))
      with toApplyRow.
    destruct (List.map toApplyRow (List.filter (statusIs "valid") rows))
      as [|a l] eqn:E; [discriminate|].
    intros [= <-]. split; [reflexivity|].
    intros ar Har. rewrite <- E in Har. apply in_map_iff in Har.
    destruct Har as (it & <- & Hit). apply filter_In in Hit.
    destruct Hit as [Hin Hv]. exists it. repeat split; auto.
    now apply statusIs_eq.
Qed.

Lemma import_apply_sends_exactly_valid_rows_witness :
  hasImportDialog ui_dialog
  /\ Forall (fun it => previewStatus (status it))
            (default [] (preview preview_three_rows))
  /\ let rows := default [] (preview preview_three_rows) in
     let ui' := renderImportPreview preview_three_rows ui_dialog in
     (applyEnabled ui' <-> exists it, In it rows /\ status it = VStr "valid")
     /\ (applyDietImport ui' = None
         <-> forall it, In it rows -> status it <> VStr "valid")
     /\ (forall sent, applyDietImport ui' = Some sent ->
           sent = List.map toApplyRow (List.filter (statusIs "valid") rows)
           /\ forall ar, In ar sent ->
                exists it, In it rows /\ status it = VStr "valid"
                           /\ ar = toApplyRow it).
Proof.
  assert (Hpage : hasImportDialog ui_dialog).
  { unfold hasImportDialog, ui_dialog; simpl. repeat split; eexists; reflexivity. }
  assert (Hst : Forall (fun it => previewStatus (status it))
                       (default [] (preview preview_three_rows))).
  { simpl. repeat (apply List.Forall_cons || apply List.Forall_nil);
      unfold previewStatus; simpl; auto. }
  split; [exact Hpage|]. split; [exact Hst|].
  exact (import_apply_sends_exactly_valid_rows preview_three_rows ui_dialog
           Hpage Hst).
Defined.

(** The preview of the three rows enables the button and the apply request
    carries the one valid row. *)
Example preview_three_rows_applies_one :
  importApplyBtn (renderImportPreview preview_three_rows ui_dialog) = Some false
  /\ applyDietImport (renderImportPreview preview_three_rows ui_dialog)
     = Some [mkApplyRow (VNum (ofZ 3)) (Some (checkinRow "2099-02-11" 9100))].
Proof. split; reflexivity. Qed.

Lemma drawKpiDelta_null_is_not_zero_witness :
  (0 <= 1 # 10)%Q
  /\ exists out,
       drawKpiDelta "" (Some (mkNode ["kpi-delta"; "state-better"] "")) VNull
                    1 " kg" true (Fin (1 # 10))
       = Some out
       /\ (isNullish VNull = true \/ ToNumber VNull = NaN ->
             innerHTML out = "Sin comparativa previa"
             /\ hasClass "state-muted" out = true
             /\ hasClass "state-equal" out = false)
       /\ ((exists z, VNull = VNum (Fin z) /\ (z == 0)%Q) ->
             innerHTML out
             = span "kpi-delta-main" "Igual: sin cambios relevantes" ++ ""
             /\ hasClass "state-equal" out = true
             /\ hasClass "state-muted" out = false)
       /\ (hasClass "state-muted" out = true
           <-> isNullish VNull = true \/ ToNumber VNull = NaN)
       /\ (innerHTML out = "Sin comparativa previa"
           <-> isNullish VNull = true \/ ToNumber VNull = NaN).
Proof.
  assert (Heps : (0 <= 1 # 10)%Q) by (unfold Qle; simpl; lia).
  split; [exact Heps|].
  exact (drawKpiDelta_null_is_not_zero
           "" (mkNode ["kpi-delta"; "state-better"] "") VNull 1 " kg" true
           (1 # 10) Heps).
Defined.

(** The four KPI cards: a null delta and a zero delta on each of them. *)
Example drawKpiDelta_states :
  List.map (fun eps =>
              option_map classList
                (drawKpiDelta "" (Some (mkNode ["kpi-delta"] "")) VNull
                              1 "" true eps))
           [Fin (1 # 10); Fin (100 # 1); Fin (2 # 1000)]
  = [Some ["kpi-delta"; "state-muted"]; Some ["kpi-delta"; "state-muted"];
     Some ["kpi-delta"; "state-muted"]]
  /\ List.map (fun eps =>
              option_map classList
                (drawKpiDelta "" (Some (mkNode ["kpi-delta"] "")) (VNum (Fin 0))
                              1 "" true eps))
           [Fin (1 # 10); Fin (100 # 1); Fin (2 # 1000)]
  = [Some ["kpi-delta"; "state-equal"]; Some ["kpi-delta"; "state-equal"];
     Some ["kpi-delta"; "state-equal"]].
Proof. split; reflexivity. Qed.

(** ** The plan import reconciler *)

Section Reconciler.
Import PlanImport.

Lemma onDate_sessionOfRow d pos r :
  onDate d (sessionOfRow pos r) = rowOn d r.
Proof. reflexivity. Qed.

(** The sessions of one date are the rows of that date, numbered in file
    order from the count the reconciler has reached for the date. *)
Lemma sessionsOn_reconcileFrom d (rows : list WorkoutRow) :
  forall seen : gmap string nat,
    sessionsOn d (reconcileFrom seen rows)
    = numberRows (default 0%nat (seen !! d)) (List.filter (rowOn d) rows).
Proof.
  induction rows as [|r rest IH]; intros seen; [reflexivity|].
  cbn [reconcileFrom sessionsOn List.filter].
  rewrite onDate_sessionOfRow.
  fold (sessionsOn d (reconcileFrom
          (<[row_log_date r := S (default 0%nat (seen !! row_log_date r))]> seen)
          rest)).
  rewrite IH.
  destruct (rowOn d r) eqn:E; unfold rowOn in E.
  - apply String.eqb_eq in E. rewrite E.
    rewrite lookup_insert_eq. reflexivity.
  - apply String.eqb_neq in E.
    now rewrite lookup_insert_ne by exact E.
Qed.

Lemma filter_rowOn_none d (rows : list WorkoutRow) :
  Forall (fun r => row_log_date r <> d) rows ->
  List.filter (rowOn d) rows = [].
Proof.
  induction 1 as [|r rest Hr _ IH]; [reflexivity|].
  cbn [List.filter].
  assert (rowOn d r = false) as -> by now apply String.eqb_neq.
  exact IH.
Qed.

Lemma sessionsOn_app d (a b : list PlanWorkoutSession) :
  sessionsOn d (a ++ b) = (sessionsOn d a ++ sessionsOn d b)%list.
Proof. apply List.filter_app. Qed.

(** Importing a file clears what was stored for every date of the file. *)
Lemma stored_sessions_replaced d (store : list PlanWorkoutSession)
    (rows : list WorkoutRow) :
  existsb (rowOn d) rows = true ->
  sessionsOn d
    (List.filter
       (fun s => negb (existsb (fun r => String.eqb (row_log_date r) (log_date s))
                               rows))
       store)
  = [].
Proof.
  intros Hd. unfold sessionsOn.
  induction store as [|s store IH]; [reflexivity|].
  cbn [List.filter].
  destruct (existsb (fun r => String.eqb (row_log_date r) (log_date s)) rows)
    eqn:E; cbn [negb]; [exact IH|].
  cbn [List.filter]. rewrite IH.
  destruct (onDate d s) eqn:Hs; [|reflexivity].
  unfold onDate in Hs. apply String.eqb_eq in Hs. subst d.
  unfold rowOn in Hd. congruence.
Qed.

(** C2. A workout-plan file with two rows for a date, first a [pesas] row
    and later a [clase] row, and no other row for that date: after the
    import the date has exactly two sessions, [S01] for the pesas row and
    [S02] for the clase row, numbered by the order of the rows in the file
    alone, whatever was stored for the date before; the clase session has
    no exercise, whatever exercise data its row carried. *)
Theorem import_pesas_then_clase_gives_S01_S02
    (store : list PlanWorkoutSession) (d : string)
    (before between after : list WorkoutRow) (r1 r2 : WorkoutRow) :
  row_log_date r1 = d -> row_session_type r1 = Pesas ->
  row_log_date r2 = d -> row_session_type r2 = Clase ->
  Forall (fun r => row_log_date r <> d) (before ++ between ++ after) ->
  sessionsOn d
    (importWorkout store (before ++ r1 :: between ++ r2 :: after))
  = [mkSession d "S01" Pesas (row_context r1) (row_exercises r1);
     mkSession d "S02" Clase (row_context r2) []].
Proof.
  intros Hd1 Ht1 Hd2 Ht2 Hothers.
  apply List.Forall_app in Hothers. destruct Hothers as [Hb Hothers].
  apply List.Forall_app in Hothers. destruct Hothers as [Hm Ha].
  assert (Hrows : List.filter (rowOn d) (before ++ r1 :: between ++ r2 :: after)
                  = [r1; r2]).
  { assert (H1 : rowOn d r1 = true) by now apply String.eqb_eq.
    assert (H2 : rowOn d r2 = true) by now apply String.eqb_eq.
    rewrite List.filter_app, (filter_rowOn_none d before Hb).
    cbn [app List.filter]. rewrite H1.
    rewrite List.filter_app, (filter_rowOn_none d between Hm).
    cbn [app List.filter]. rewrite H2.
    now rewrite (filter_rowOn_none d after Ha). }
  unfold importWorkout. rewrite sessionsOn_app.
  rewrite (stored_sessions_replaced d store).
  - unfold reconcile. rewrite sessionsOn_reconcileFrom, Hrows.
    rewrite lookup_empty. cbn [default numberRows from_option app].
    unfold sessionOfRow. rewrite Hd1, Hd2, Ht1, Ht2. reflexivity.
  - rewrite existsb_app. cbn [existsb].
    assert (rowOn d r1 = true) as -> by now apply String.eqb_eq.
    now rewrite orb_true_r.
Qed.

Lemma import_pesas_then_clase_gives_S01_S02_witness :
  row_log_date row_pesas_day1 = "2099-05-01"
  /\ row_session_type row_pesas_day1 = Pesas
  /\ row_log_date row_clase_day1 = "2099-05-01"
  /\ row_session_type row_clase_day1 = Clase
  /\ Forall (fun r => row_log_date r <> "2099-05-01")
            ([] ++ [] ++ [row_pesas_day2])
  /\ sessionsOn "2099-05-01"
       (importWorkout
          [mkSession "2099-05-01" "S01" Clase (row_context row_clase_day1) []]
          ([] ++ row_pesas_day1 :: [] ++ row_clase_day1 :: [row_pesas_day2]))
     = [mkSession "2099-05-01" "S01" Pesas (row_context row_pesas_day1)
                  (row_exercises row_pesas_day1);
        mkSession "2099-05-01" "S02" Clase (row_context row_clase_day1) []].
Proof.
  assert (Hothers : Forall (fun r => row_log_date r <> "2099-05-01")
                           ([] ++ [] ++ [row_pesas_day2])).
  { simpl. apply List.Forall_cons; [simpl; discriminate | apply List.Forall_nil]. }
  do 4 (split; [reflexivity|]). split; [exact Hothers|].
  exact (import_pesas_then_clase_gives_S01_S02
           [mkSession "2099-05-01" "S01" Clase (row_context row_clase_day1) []]
           "2099-05-01" [] [] [row_pesas_day2] row_pesas_day1 row_clase_day1
           eq_refl eq_refl eq_refl eq_refl Hothers).
Defined.

End Reconciler.

(** ** The header of a diet-plan file *)

(** The diet plan of the end-to-end test names its first column [date]: by
    the rule of the specification its header is incomplete, while the test
    expects the import to succeed and the meals of the day to be shown. *)
Example e2e_diet_header_incomplete :
  headerComplete DIET_PLAN_COLUMNS DIET_PLAN_COLUMNS = true
  /\ headerComplete DIET_PLAN_COLUMNS e2e_diet_header = false.
Proof. split; reflexivity. Qed.

(** * Further properties of [static/app.js] *)

(** ** Theme toggle *)

Lemma getStoredTheme_mode (b : Browser) :
  isThemeMode (getStoredTheme b) = true.
Proof.
  unfold getStoredTheme. destruct (localStorage b) as [store|]; [|reflexivity].
  destruct (store !! THEME_KEY) as [v|]; [|reflexivity].
  destruct (isThemeMode v) eqn:E; [exact E | reflexivity].
Qed.

Lemma effectiveTheme_light_or_dark (mode : string) (b : Browser) :
  isThemeMode mode = true ->
  effectiveTheme mode b = "light" \/ effectiveTheme mode b = "dark".
Proof.
  unfold isThemeMode, effectiveTheme. intros H.
  destruct (eqb mode "system") eqn:Es.
  - destruct (systemPrefersLight b); auto.
  - rewrite orb_false_r in H. apply orb_true_iff in H.
    destruct H as [H|H]; apply text_eqb_eq in H; auto.
Qed.

(** X1. What [setStoredTheme] writes, [getStoredTheme] reads back: with a
    working storage a stored [light], [dark] or [system] is returned as it
    is and anything else reads as [system]; when the storage throws, the
    write is dropped and the read is [system]. *)
Theorem storedTheme_round_trip (v : string) (store : gmap string string)
    (light : bool) (theme mode label : option string) :
  getStoredTheme (setStoredTheme v (mkBrowser (Some store) light theme mode label))
  = (if isThemeMode v then v else "system")
  /\ getStoredTheme (setStoredTheme v (mkBrowser None light theme mode label))
     = "system"
  /\ setStoredTheme v (mkBrowser None light theme mode label)
     = mkBrowser None light theme mode label.
Proof.
  repeat split. unfold getStoredTheme, setStoredTheme. cbn [localStorage].
  now rewrite lookup_insert_eq.
Qed.

(** X2. With a working storage, a click on the theme button switches the
    page to the opposite of the theme in effect, stores that theme (so the
    mode is never [system] afterwards), names the other theme on the
    label, and a second click brings the first theme back. *)
Theorem themeToggle_switches_and_returns (store : gmap string string)
    (light : bool) (theme mode label : option string) :
  let b := mkBrowser (Some store) light theme mode label in
  let eff := effectiveTheme (getStoredTheme b) b in
  let b1 := themeToggleClick b in
  data_theme b1 = Some (oppositeTheme eff)
  /\ data_theme_mode b1 = Some (oppositeTheme eff)
  /\ getStoredTheme b1 = oppositeTheme eff
  /\ (label <> None ->
      themeLabel b1
      = Some ("Tema: " ++ (if eqb (oppositeTheme eff) "light"
                           then "Oscuro" else "Claro")))
  /\ data_theme (themeToggleClick b1) = Some eff.
Proof.
  intros b eff b1.
  assert (Heff : eff = "light" \/ eff = "dark")
    by (apply effectiveTheme_light_or_dark, getStoredTheme_mode).
  assert (Hb1 : b1 = applyTheme (oppositeTheme eff)
                       (setStoredTheme (oppositeTheme eff) b)) by reflexivity.
  assert (Hstored : getStoredTheme b1 = oppositeTheme eff).
  { rewrite Hb1. unfold applyTheme, updateThemeLabel, setStoredTheme, b.
    cbn [localStorage themeLabel].
    destruct label; unfold getStoredTheme; cbn [localStorage];
      rewrite lookup_insert_eq; destruct Heff as [-> | ->]; reflexivity. }
  assert (Htheme : forall m c, isThemeMode m = true -> m <> "system" ->
                     data_theme (applyTheme m c) = Some m
                     /\ data_theme_mode (applyTheme m c) = Some m).
  { intros m c _ Hm. unfold applyTheme, updateThemeLabel, effectiveTheme.
    apply text_eqb_neq in Hm. rewrite Hm. cbn [themeLabel].
    destruct (themeLabel c); split; reflexivity. }
  assert (Hopp : isThemeMode (oppositeTheme eff) = true
                 /\ oppositeTheme eff <> "system")
    by (destruct Heff as [-> | ->]; split; (reflexivity || discriminate)).
  destruct Hopp as [Hopp1 Hopp2].
  split; [rewrite Hb1; now apply Htheme|].
  split; [rewrite Hb1; now apply Htheme|].
  split; [exact Hstored|].
  split.
  - intros Hl. rewrite Hb1. unfold applyTheme, updateThemeLabel.
    unfold setStoredTheme, b. cbn [localStorage themeLabel].
    destruct label as [l|]; [|contradiction].
    cbn [themeLabel]. unfold effectiveTheme.
    apply text_eqb_neq in Hopp2. now rewrite Hopp2.
  - unfold themeToggleClick at 1. rewrite Hstored.
    assert (Heff1 : effectiveTheme (oppositeTheme eff) b1 = oppositeTheme eff).
    { unfold effectiveTheme. apply text_eqb_neq in Hopp2. now rewrite Hopp2. }
    rewrite Heff1.
    assert (Hback : (if eqb (oppositeTheme eff) "light" then "dark" else "light")
                    = eff)
      by (destruct Heff as [-> | ->]; reflexivity).
    rewrite Hback.
    apply Htheme.
    + destruct Heff as [-> | ->]; reflexivity.
    + destruct Heff as [-> | ->]; discriminate.
Qed.

(** X3. When the storage throws, the stored mode always reads as [system]:
    every click switches to the opposite of the system preference, so a
    second click does not bring the first theme back. *)
Theorem themeToggle_without_storage_is_stuck
    (light : bool) (theme mode label : option string) :
  let b := mkBrowser None light theme mode label in
  let away := if light then "dark" else "light" in
  data_theme (themeToggleClick b) = Some away
  /\ data_theme (themeToggleClick (themeToggleClick b)) = Some away
  /\ getStoredTheme (themeToggleClick (themeToggleClick b)) = "system".
Proof. destruct light, label; repeat split. Qed.

(** ** The adherence window *)

Lemma includes_isChoice (choices : list Z) (n : num) :
  includes choices n = true <-> isChoice choices n.
Proof. unfold includes, isChoice. apply existsb_exists. Qed.

Lemma isChoice_integer (choices : list Z) (n : num) :
  isChoice choices n -> isInteger n = true.
Proof.
  intros (c & _ & Hc). destruct n as [| | |q]; try discriminate.
  cbn in Hc. apply Qeq_bool_iff in Hc. cbn. apply Qeq_bool_iff.
  rewrite <- Hc. now rewrite Qfloor_Z.
Qed.

(** X4. Whatever the server sends as window and whatever window is
    remembered, [parsePlanAdherenceWindow] returns 7, 15 or 30: the number
    sent when it is one of the three, else the remembered one when that is
    one of the three, else 15; so the window [renderPlanAdherenceHistory]
    stores and shows is always one of the three. *)
Theorem adherence_window_is_always_a_choice (raw fallback : JsVal)
    (h : AdherenceHistory) (w : num) :
  isChoice PLAN_ADHERENCE_WINDOW_CHOICES (parsePlanAdherenceWindow raw fallback)
  /\ (isChoice PLAN_ADHERENCE_WINDOW_CHOICES (ToNumber raw) ->
      parsePlanAdherenceWindow raw fallback = ToNumber raw)
  /\ (~ isChoice PLAN_ADHERENCE_WINDOW_CHOICES (ToNumber raw) ->
      isChoice PLAN_ADHERENCE_WINDOW_CHOICES (ToNumber fallback) ->
      parsePlanAdherenceWindow raw fallback = ToNumber fallback)
  /\ (~ isChoice PLAN_ADHERENCE_WINDOW_CHOICES (ToNumber raw) ->
      ~ isChoice PLAN_ADHERENCE_WINDOW_CHOICES (ToNumber fallback) ->
      parsePlanAdherenceWindow raw fallback = ofZ 15)
  /\ isChoice PLAN_ADHERENCE_WINDOW_CHOICES
       (view_windowDays (renderPlanAdherenceHistory h w)).
Proof.
  assert (Hall : forall r f,
             isChoice PLAN_ADHERENCE_WINDOW_CHOICES (parsePlanAdherenceWindow r f)).
  { intros r f. unfold parsePlanAdherenceWindow.
    destruct (isInteger (ToNumber r)
              && includes PLAN_ADHERENCE_WINDOW_CHOICES (ToNumber r)) eqn:E.
    - apply andb_true_iff in E. now apply includes_isChoice.
    - destruct (includes PLAN_ADHERENCE_WINDOW_CHOICES (ToNumber f)) eqn:F.
      + now apply includes_isChoice.
      + exists 15. split; [cbn; auto | reflexivity]. }
  split; [apply Hall|]. split; [|split; [|split; [|apply Hall]]].
  - intros H. unfold parsePlanAdherenceWindow.
    rewrite (isChoice_integer _ _ H).
    now rewrite (proj2 (includes_isChoice _ _) H).
  - intros Hr Hf. unfold parsePlanAdherenceWindow.
    destruct (includes PLAN_ADHERENCE_WINDOW_CHOICES (ToNumber raw)) eqn:E;
      [elim Hr; now apply includes_isChoice|].
    rewrite andb_false_r.
    now rewrite (proj2 (includes_isChoice _ _) Hf).
  - intros Hr Hf. unfold parsePlanAdherenceWindow.
    destruct (includes PLAN_ADHERENCE_WINDOW_CHOICES (ToNumber raw)) eqn:E;
      [elim Hr; now apply includes_isChoice|].
    rewrite andb_false_r.
    destruct (includes PLAN_ADHERENCE_WINDOW_CHOICES (ToNumber fallback)) eqn:F;
      [elim Hf; now apply includes_isChoice | reflexivity].
Qed.

(** ** Dates *)

Lemma orElse_nonempty (s : string) (d : JsVal) :
  s <> "" -> orElse (VStr s) d = VStr s.
Proof.
  intros H. unfold orElse. cbn [truthy].
  apply text_eqb_neq in H. now rewrite H.
Qed.

Lemma orElse_str_text (s d : string) :
  ToString (orElse (VStr s) (VStr d)) = if eqb s "" then d else s.
Proof. unfold orElse. cbn [truthy]. now destruct (eqb s ""). Qed.

(** A string that passes the ISO test has ten characters: four digits, a
    dash, two digits, a dash, two digits. *)
Lemma isIsoDate_shape (s : string) :
  isIsoDate s = true ->
  exists y1 y2 y3 y4 m1 m2 d1 d2,
    s = String y1 (String y2 (String y3 (String y4 (String "-"
          (String m1 (String m2 (String "-" (String d1 (String d2
             EmptyString)))))))))
    /\ isDigit d1 = true.
Proof.
  unfold isIsoDate.
  do 10 (destruct s as [|? s]; [discriminate|]).
  destruct s; [|discriminate].
  cbn [chars list_ascii_of_string].
  rewrite !andb_true_iff.
  intros (((((((((H1 & H2) & H3) & H4) & H5) & H6) & H7) & H8) & H9) & H10).
  apply (code_eqb _ 45) in H5; [|reflexivity].
  apply (code_eqb _ 45) in H8; [|reflexivity].
  subst. do 8 eexists. split; [reflexivity | exact H9].
Qed.

Lemma isDigit_not_dash (c : ascii) : isDigit c = true -> c <> "-"%char.
Proof. intros H ->. discriminate. Qed.

(** X5. [humanDateDash] and [humanDate] turn an ISO date into
    day-month-year and leave any other text as it is; the result is never
    empty (a missing value gives the placeholder), and formatting it again
    changes nothing. *)
Theorem humanDate_formats_once (v : JsVal) :
  humanDateDash v <> ""
  /\ humanDateDash (VStr (humanDateDash v)) = humanDateDash v
  /\ humanDate v <> ""
  /\ humanDate (VStr (humanDate v)) = humanDate v
  /\ (forall t, t <> "" -> isIsoDate t = false ->
        humanDateDash (VStr t) = t /\ humanDate (VStr t) = t)
  /\ (forall y1 y2 y3 y4 m1 m2 d1 d2,
        let iso := String y1 (String y2 (String y3 (String y4 (String "-"
                     (String m1 (String m2 (String "-" (String d1 (String d2
                        EmptyString))))))))) in
        isIsoDate iso = true ->
        humanDateDash (VStr iso)
        = String d1 (String d2 (String "-" (String m1 (String m2 (String "-"
            (String y1 (String y2 (String y3 (String y4 EmptyString)))))))))
        /\ humanDate (VStr iso)
           = String d1 (String d2 (String "/" (String m1 (String m2 (String "/"
               (String y1 (String y2 (String y3 (String y4 EmptyString)))))))))).
Proof.
  assert (Hkeep : forall r, r <> "" -> isIsoDate r = false ->
                    humanDateDash (VStr r) = r /\ humanDate (VStr r) = r).
  { intros r Hr Hiso. unfold humanDateDash, humanDate.
    rewrite (orElse_nonempty r _ Hr). cbn [ToString]. rewrite Hiso.
    now rewrite (orElse_nonempty r _ Hr). }
  assert (Hiso : forall y1 y2 y3 y4 m1 m2 d1 d2,
            let iso := String y1 (String y2 (String y3 (String y4 (String "-"
                     (String m1 (String m2 (String "-" (String d1 (String d2
                        EmptyString))))))))) in
            isIsoDate iso = true ->
            humanDateDash (VStr iso)
            = String d1 (String d2 (String "-" (String m1 (String m2 (String "-"
                (String y1 (String y2 (String y3 (String y4 EmptyString)))))))))
            /\ humanDate (VStr iso)
               = String d1 (String d2 (String "/" (String m1 (String m2 (String "/"
                   (String y1 (String y2 (String y3 (String y4 EmptyString)))))))))).
  { intros y1 y2 y3 y4 m1 m2 d1 d2 iso H. unfold humanDateDash, humanDate.
    rewrite (orElse_nonempty iso) by discriminate. cbn [ToString].
    rewrite H. split; reflexivity. }
  assert (Htext : forall t, ToString (orElse (VStr t) (VStr "")) = t).
  { intros t. rewrite orElse_str_text. destruct (eqb t "") eqn:E; [|reflexivity].
    now apply text_eqb_eq in E. }
  assert (Hstr : forall t,
             (humanDateDash (VStr t) <> ""
              /\ humanDateDash (VStr (humanDateDash (VStr t)))
                 = humanDateDash (VStr t))
             /\ (humanDate (VStr t) <> ""
                 /\ humanDate (VStr (humanDate (VStr t))) = humanDate (VStr t))).
  { intros t. destruct (isIsoDate t) eqn:Ht.
    - destruct (isIsoDate_shape t Ht)
        as (y1 & y2 & y3 & y4 & m1 & m2 & d1 & d2 & -> & Hd1).
      destruct (Hiso _ _ _ _ _ _ _ _ Ht) as [-> ->].
      split; (split; [discriminate|]); apply Hkeep; try discriminate;
        unfold isIsoDate; cbn; destruct (isDigit d1), (isDigit d2); reflexivity.
    - destruct (eqb t "") eqn:Es.
      + apply text_eqb_eq in Es. subst t.
        split; (split; [discriminate | reflexivity]).
      + apply text_eqb_neq in Es. destruct (Hkeep t Es Ht) as [-> ->].
        destruct (Hkeep t Es Ht) as [-> ->]. now repeat split. }
  assert (Hv1 : humanDateDash v
                = humanDateDash (VStr (ToString (orElse v (VStr ""))))).
  { unfold humanDateDash. now rewrite Htext. }
  assert (Hv2 : humanDate v = humanDate (VStr (ToString (orElse v (VStr ""))))).
  { unfold humanDate. now rewrite Htext. }
  destruct (Hstr (ToString (orElse v (VStr "")))) as [[A1 A2] [B1 B2]].
  rewrite Hv1, Hv2.
  repeat split; try assumption; try (now apply Hkeep); now apply Hiso.
Qed.

(** ** Escaping markup *)

Lemma chars_app (a b : string) : chars (a ++ b) = (chars a ++ chars b)%list.
Proof.
  induction a as [|c a IH]; [reflexivity|].
  change (c :: chars (a ++ b) = c :: (chars a ++ chars b)%list).
  now rewrite IH.
Qed.

Lemma length_app (a b : string) :
  String.length (a ++ b) = (String.length a + String.length b)%nat.
Proof.
  induction a as [|c a IH]; [reflexivity|].
  change (S (String.length (a ++ b)) = S (String.length a + String.length b)).
  now rewrite IH.
Qed.

(** The cases of [escapeChars] on one character. *)
Lemma escapeChars_cons (c : ascii) (r : string) :
  (c = "&"%char /\ escapeChars (String c r) = "&amp;" ++ escapeChars r)
  \/ (c = "<"%char /\ escapeChars (String c r) = "&lt;" ++ escapeChars r)
  \/ (c = ">"%char /\ escapeChars (String c r) = "&gt;" ++ escapeChars r)
  \/ (c = QUOTE /\ escapeChars (String c r) = "&quot;" ++ escapeChars r)
  \/ (c = "'"%char /\ escapeChars (String c r) = "&#39;" ++ escapeChars r)
  \/ (c <> "&"%char /\ c <> "<"%char /\ c <> ">"%char /\ c <> QUOTE
      /\ c <> "'"%char
      /\ escapeChars (String c r) = String c (escapeChars r)).
Proof.
  cbn [escapeChars].
  destruct (N.eqb (code c) 38) eqn:E1;
    [apply (code_eqb c 38) in E1; [|reflexivity]; subst; now left|].
  destruct (N.eqb (code c) 60) eqn:E2;
    [apply (code_eqb c 60) in E2; [|reflexivity]; subst; right; now left|].
  destruct (N.eqb (code c) 62) eqn:E3;
    [apply (code_eqb c 62) in E3; [|reflexivity]; subst; do 2 right; now left|].
  destruct (N.eqb (code c) 34) eqn:E4;
    [apply (code_eqb c 34) in E4; [|reflexivity]; subst; do 3 right; now left|].
  destruct (N.eqb (code c) 39) eqn:E5;
    [apply (code_eqb c 39) in E5; [|reflexivity]; subst; do 4 right; now left|].
  do 5 right. repeat split; try reflexivity; intros ->; discriminate.
Qed.

Lemma escapeChars_safe (s : string) (c : ascii) :
  In c (chars (escapeChars s)) ->
  c <> "<"%char /\ c <> ">"%char /\ c <> QUOTE /\ c <> "'"%char.
Proof.
  induction s as [|a s IH]; [intros []|].
  destruct (escapeChars_cons a s)
    as [[_ ->] | [[_ ->] | [[_ ->] | [[_ ->] | [[_ ->] | (_ & H2 & H3 & H4 & H5 & ->)]]]]].
  1-5: rewrite chars_app, in_app_iff; intros [H|H]; [|now apply IH];
       cbn in H; repeat (destruct H as [<-|H]; [repeat split; discriminate|]);
       contradiction.
  rewrite chars_cons. intros [<-|H]; [repeat split; assumption | now apply IH].
Qed.

Lemma unescapeFuel_escape (s : string) :
  forall fuel, (String.length (escapeChars s) <= fuel)%nat ->
               unescapeFuel fuel (escapeChars s) = s.
Proof.
  induction s as [|a s IH]; intros fuel Hlen.
  - now destruct fuel.
  - destruct (escapeChars_cons a s)
      as [[-> E] | [[-> E] | [[-> E] | [[-> E] | [[-> E] | (H1 & _ & _ & _ & _ & E)]]]]];
      rewrite E in *; rewrite ?length_app in Hlen; cbn [String.length] in Hlen;
      (destruct fuel as [|fuel]; [lia|]).
    1-5: cbn; f_equal; apply IH; lia.
    cbn [unescapeFuel].
    assert (N.eqb (code a) 38 = false) as ->.
    { destruct (N.eqb (code a) 38) eqn:E1; [|reflexivity].
      apply (code_eqb a 38) in E1; [|reflexivity]. now elim H1. }
    f_equal. apply IH. lia.
Qed.

(** X6. The text [escapeHtml] returns has no [<], no [>], no double quote
    and no apostrophe, so it cannot open a tag or close an attribute; and
    nothing is lost: reading the five entities back gives the text of the
    value again (two different texts never escape to the same markup). *)
Theorem escapeHtml_safe_and_reversible (v : JsVal) :
  (forall c, In c (chars (escapeHtml v)) ->
     c <> "<"%char /\ c <> ">"%char /\ c <> QUOTE /\ c <> "'"%char)
  /\ unescapeHtml (escapeHtml v) = ToString v
  /\ (forall w, escapeHtml v = escapeHtml w -> ToString v = ToString w).
Proof.
  assert (Hback : forall u, unescapeHtml (escapeHtml u) = ToString u).
  { intros u. unfold unescapeHtml, escapeHtml.
    now apply unescapeFuel_escape. }
  split; [intros c; apply escapeChars_safe|].
  split; [apply Hback|].
  intros w H. rewrite <- (Hback v), <- (Hback w). now rewrite H.
Qed.

(** ** The states of a KPI delta *)

Lemma classList_add_fresh (t : string) (n : Node) :
  hasClass t n = false ->
  classList (classList_add t n) = (classList n ++ [t])%list.
Proof. intros H. unfold classList_add. now rewrite H. Qed.

Lemma hasClass_cleared (c : string) (html : string) (node : Node) :
  isKpiStateClass c = true ->
  hasClass c (set_innerHTML html (classList_remove KPI_STATE_CLASSES node))
  = false.
Proof.
  intros Hc. rewrite hasClass_set_innerHTML, hasClass_remove.
  unfold isKpiStateClass in Hc. rewrite Hc. now rewrite andb_false_r.
Qed.

(** X7. Whatever the delta, the tolerance and the classes the node had,
    [drawKpiDelta] leaves the node with exactly one of the four state
    classes, added after the classes it keeps: every earlier tone or state
    class is removed, every other class stays, in order. *)
Theorem drawKpiDelta_one_state_class
    (meta : string) (node : Node) (delta : JsVal) (digits : nat)
    (unit : string) (preferLower : bool) (stableEps : num) :
  exists out st,
    drawKpiDelta meta (Some node) delta digits unit preferLower stableEps
    = Some out
    /\ In st KPI_STATES
    /\ classList out
       = (List.filter (fun c => negb (isKpiStateClass c)) (classList node)
          ++ [st])%list
    /\ (forall c, hasClass c out = true <->
                  c = st \/ (hasClass c node = true /\ isKpiStateClass c = false)).
Proof.
  assert (Hmem : forall st html,
             isKpiStateClass st = true ->
             let out := classList_add st
                          (set_innerHTML html
                             (set_innerHTML ""
                                (classList_remove KPI_STATE_CLASSES node))) in
             classList out
             = (List.filter (fun c => negb (isKpiStateClass c)) (classList node)
                ++ [st])%list
             /\ (forall c, hasClass c out = true <->
                   c = st \/ (hasClass c node = true
                              /\ isKpiStateClass c = false))).
  { intros st html Hst out. split.
    - unfold out. rewrite classList_add_fresh; [reflexivity|].
      rewrite hasClass_set_innerHTML. now apply hasClass_cleared.
    - intros c. unfold out.
      rewrite hasClass_add, !hasClass_set_innerHTML, hasClass_remove.
      rewrite orb_true_iff, andb_true_iff, negb_true_iff, String.eqb_eq.
      reflexivity. }
  unfold drawKpiDelta.
  destruct (isNullish delta || isNaN (ToNumber delta)).
  - exists (classList_add "state-muted"
              (set_textContent "Sin comparativa previa"
                 (set_innerHTML ""
                    (classList_remove KPI_STATE_CLASSES node)))),
           "state-muted".
    split; [reflexivity|]. split; [cbn; auto|].
    apply (Hmem "state-muted" "Sin comparativa previa"). reflexivity.
  - destruct (leb (abs (ToNumber delta)) stableEps).
    + eexists _, "state-equal". split; [reflexivity|]. split; [cbn; auto|].
      apply Hmem. reflexivity.
    + destruct (if gtb (ToNumber delta) (Fin 0)
                then negb preferLower else negb (negb preferLower)).
      * eexists _, "state-better". split; [reflexivity|].
        split; [cbn; auto|]. apply Hmem. reflexivity.
      * eexists _, "state-worse". split; [reflexivity|].
        split; [cbn; auto 6|]. apply Hmem. reflexivity.
Qed.

Lemma Qltb_false a b : Qltb a b = false <-> (b <= a)%Q.
Proof. apply Qltb_ge. Qed.

(** X8. A delta beyond the tolerance is drawn as better or worse by its
    direction: for a KPI where lower is better (weight, WHR) a fall is
    "Mejor" and a rise "Peor", for the others (sleep, steps) the reverse;
    a rise is written with a plus sign. *)
Theorem drawKpiDelta_direction
    (meta : string) (node : Node) (delta : JsVal) (digits : nat)
    (unit : string) (preferLower : bool) (eps v : Q) :
  isNullish delta = false ->
  ToNumber delta = Fin v ->
  (0 <= eps)%Q ->
  (eps < Qabs v)%Q ->
  exists out,
    drawKpiDelta meta (Some node) delta digits unit preferLower (Fin eps)
    = Some out
    /\ (hasClass "state-better" out = true
        <-> ((v < 0)%Q /\ preferLower = true)
            \/ ((0 < v)%Q /\ preferLower = false))
    /\ (hasClass "state-worse" out = true
        <-> ((0 < v)%Q /\ preferLower = true)
            \/ ((v < 0)%Q /\ preferLower = false))
    /\ hasClass "state-equal" out = false
    /\ hasClass "state-muted" out = false
    /\ innerHTML out
       = span "kpi-delta-main"
              ((if xorb (Qltb 0 v) preferLower then "Mejor" else "Peor")
               ++ ": " ++ (if Qltb 0 v then "+" else "")
               ++ match digits with
                  | O => formatLocaleRounded (Fin v) (round (Fin v)) 0
                  | _ => formatLocaleNumber (VNum (Fin v)) digits
                  end
               ++ unit)
         ++ meta.
Proof.
  intros Hnull Hv Heps Hbig.
  assert (Hsign : (0 < v)%Q \/ (v < 0)%Q).
  { destruct (Qlt_le_dec 0 v) as [H|H]; [now left|].
    right. apply Qle_lt_or_eq in H. destruct H as [H|H]; [exact H|].
    exfalso. rewrite H in Hbig. cbn in Hbig.
    apply (Qlt_not_le _ _ Hbig). exact Heps. }
  assert (Hgt : gtb (Fin v) (Fin 0) = Qltb 0 v) by reflexivity.
  assert (Hpos : Qltb 0 v = true <-> (0 < v)%Q) by apply Qltb_lt.
  assert (Hneg : Qltb 0 v = false <-> (v < 0)%Q).
  { rewrite Qltb_false. split; [|apply Qlt_le_weak].
    intros H. destruct Hsign as [Hs|Hs]; [|exact Hs].
    exfalso. now apply (Qlt_not_le _ _ Hs). }
  unfold drawKpiDelta. rewrite Hnull, Hv. cbn [isNaN orb abs leb].
  rewrite (proj2 (Qle_bool_false (Qabs v) eps) Hbig).
  rewrite Hgt.
  set (node1 := set_innerHTML "" (classList_remove KPI_STATE_CLASSES node)).
  eexists. split; [reflexivity|].
  rewrite !hasClass_add, !hasClass_set_innerHTML, innerHTML_add.
  unfold node1.
  rewrite !hasClass_cleared by reflexivity.
  cbn [innerHTML set_innerHTML].
  assert (Hno : ~ ((0 < v)%Q /\ (v < 0)%Q)).
  { intros [A B]. apply (Qlt_irrefl v). eapply Qlt_trans; eassumption. }
  destruct (Qltb 0 v) eqn:Ev.
  - assert (Hv0 : (0 < v)%Q) by (apply Hpos; reflexivity).
    destruct preferLower; cbn [negb xorb].
    all: split; [|split; [|split; [reflexivity|split; [reflexivity|]]]].
    all: try (destruct digits; reflexivity).
    all: cbn; split; intros H; try discriminate; try tauto.
    all: destruct H as [[A B]|[A B]]; try discriminate; exfalso; tauto.
  - assert (Hv0 : (v < 0)%Q) by (apply Hneg; reflexivity).
    destruct preferLower; cbn [negb xorb].
    all: split; [|split; [|split; [reflexivity|split; [reflexivity|]]]].
    all: try (destruct digits; reflexivity).
    all: cbn; split; intros H; try discriminate; try tauto.
    all: destruct H as [[A B]|[A B]]; try discriminate; exfalso; tauto.
Qed.

Lemma drawKpiDelta_direction_witness :
  isNullish (VNum (Fin (-2))) = false
  /\ ToNumber (VNum (Fin (-2))) = Fin (-2)
  /\ (0 <= 1 # 10)%Q
  /\ (1 # 10 < Qabs (-2))%Q
  /\ exists out,
       drawKpiDelta "" (Some kpi_node) (VNum (Fin (-2))) 1 " kg" true
                    (Fin (1 # 10))
       = Some out
       /\ (hasClass "state-better" out = true
           <-> ((-2 < 0)%Q /\ true = true) \/ ((0 < -2)%Q /\ true = false))
       /\ (hasClass "state-worse" out = true
           <-> ((0 < -2)%Q /\ true = true) \/ ((-2 < 0)%Q /\ true = false))
       /\ hasClass "state-equal" out = false
       /\ hasClass "state-muted" out = false
       /\ innerHTML out
          = span "kpi-delta-main"
                 ((if xorb (Qltb 0 (-2)) true then "Mejor" else "Peor")
                  ++ ": " ++ (if Qltb 0 (-2) then "+" else "")
                  ++ formatLocaleNumber (VNum (Fin (-2))) 1
                  ++ " kg")
            ++ "".
Proof.
  assert (H1 : (0 <= 1 # 10)%Q) by (unfold Qle; simpl; lia).
  assert (H2 : (1 # 10 < Qabs (-2))%Q) by (unfold Qlt; simpl; lia).
  split; [reflexivity|]. split; [reflexivity|].
  split; [exact H1|]. split; [exact H2|].
  exact (drawKpiDelta_direction "" kpi_node (VNum (Fin (-2))) 1 " kg" true
           (1 # 10) (-2) eq_refl eq_refl H1 H2).
Defined.

(** A fall of two kilos, as the end-to-end test reads it. *)
Example drawKpiDelta_weight_down :
  drawKpiDelta "" (Some kpi_node) (VNum (Fin (-2))) 1 " kg" true (Fin (1 # 10))
  = Some (mkNode ["kpi-delta"; "state-better"]
                 (span "kpi-delta-main" "Mejor: -2,0 kg")).
Proof. reflexivity. Qed.

(** ** The import dialog *)

(** X9. On the page of the import dialog, after any preview the apply
    button is enabled exactly when a click on it sends a request; the
    request carries the previewed rows whose status reads [valid] in any
    letter case, in order, and never more rows than were previewed; once
    the preview is cleared the button is disabled and a click sends
    nothing. *)
Theorem import_button_matches_request
    (payload : ImportPayload) (ui : ImportUi) :
  hasImportDialog ui ->
  let rows := default [] (preview payload) in
  let ui' := renderImportPreview payload ui in
  (applyEnabled ui' <-> applyDietImport ui' <> None)
  /\ (forall sent, applyDietImport ui' = Some sent ->
        sent = List.map toApplyRow (List.filter isValidItem rows)
        /\ (length sent <= length rows)%nat)
  /\ (forall it, isValidItem it = true
                 <-> toLowerCase (ToString (orElse (status it) (VStr "")))
                     = "valid")
  /\ ~ applyEnabled (clearImportPreview ui')
  /\ applyDietImport (clearImportPreview ui') = None.
Proof.
  intros Hpage rows ui'.
  assert (Hsent : applyDietImport ui'
                  = match List.map toApplyRow (List.filter isValidItem rows) with
                    | [] => None
                    | l => Some l
                    end).
  { unfold applyDietImport, ui'. rewrite renderImportPreview_rows.
    fold rows. unfold toApplyRow.
    now destruct (List.map _ (List.filter isValidItem rows)). }
  split; [|split; [|split; [|split]]].
  - unfold applyEnabled, ui'. rewrite (renderImportPreview_button _ _ Hpage).
    fold rows ui'. rewrite Hsent.
    destruct (List.filter isValidItem rows); cbn; split;
      intros H; congruence.
  - intros sent. rewrite Hsent.
    destruct (List.map toApplyRow (List.filter isValidItem rows)) eqn:E;
      [discriminate|].
    intros [= <-]. split; [reflexivity|].
    rewrite <- E, length_map. apply filter_length_le.
  - intros it. unfold isValidItem, statusKey. apply text_eqb_eq.
  - unfold applyEnabled, clearImportPreview. cbn [importApplyBtn].
    destruct (importApplyBtn ui'); discriminate.
  - reflexivity.
Qed.

Lemma import_button_matches_request_witness :
  hasImportDialog ui_dialog
  /\ let rows := default [] (preview preview_three_rows) in
     let ui' := renderImportPreview preview_three_rows ui_dialog in
     (applyEnabled ui' <-> applyDietImport ui' <> None)
     /\ (forall sent, applyDietImport ui' = Some sent ->
           sent = List.map toApplyRow (List.filter isValidItem rows)
           /\ (length sent <= length rows)%nat)
     /\ (forall it, isValidItem it = true
                    <-> toLowerCase (ToString (orElse (status it) (VStr "")))
                        = "valid")
     /\ ~ applyEnabled (clearImportPreview ui')
     /\ applyDietImport (clearImportPreview ui') = None.
Proof.
  assert (Hpage : hasImportDialog ui_dialog).
  { unfold hasImportDialog, ui_dialog; simpl. repeat split; eexists; reflexivity. }
  split; [exact Hpage|].
  exact (import_button_matches_request preview_three_rows ui_dialog Hpage).
Defined.

(** ** Scores in the history list and on the pill *)


(** ** The CSV file of the import incidents *)

Lemma runCsv_app (st : CsvState) (a b : string) :
  runCsv st (a ++ b) = runCsv (runCsv st a) b.
Proof.
  revert st. induction a as [|c a IH]; intros st; [reflexivity|].
  change (runCsv (csvStep st c) (a ++ b) = runCsv (runCsv (csvStep st c) a) b).
  apply IH.
Qed.

Lemma append_assoc (a b c : string) : (a ++ b) ++ c = a ++ (b ++ c).
Proof.
  induction a as [|x a IH]; [reflexivity|].
  change (String x ((a ++ b) ++ c) = String x (a ++ (b ++ c))). now rewrite IH.
Qed.

Lemma append_nil_r (a : string) : a ++ "" = a.
Proof.
  induction a as [|x a IH]; [reflexivity|].
  change (String x (a ++ "") = String x a). now rewrite IH.
Qed.

Lemma snoc_append (f : string) (c : ascii) (t : string) :
  snoc f c ++ t = f ++ String c t.
Proof. unfold snoc. now rewrite append_assoc. Qed.

(** Reading a text without double quote, comma and line feed. *)
Lemma runCsv_plain (text : string) :
  needsQuoting text = false ->
  forall m f rec recs,
    m = FieldStart \/ m = Unquoted ->
    exists m', fieldEnded m' = true
               /\ runCsv (mkCsvState m f rec recs) text
                  = mkCsvState m' (f ++ text) rec recs.
Proof.
  induction text as [|c text IH]; intros Hq m f rec recs Hm.
  - exists m. rewrite append_nil_r. split; [now destruct Hm as [-> | ->]|reflexivity].
  - rewrite needsQuoting_cons in Hq.
    apply orb_false_iff in Hq. destruct Hq as [Hc Hq].
    apply orb_false_iff in Hc. destruct Hc as [Hc Hlf].
    apply orb_false_iff in Hc. destruct Hc as [Hquote Hcomma].
    assert (Hstep : csvStep (mkCsvState m f rec recs) c
                    = mkCsvState Unquoted (snoc f c) rec recs).
    { assert (Ascii.eqb c COMMA = false) as Ec.
      { apply Ascii.eqb_neq. intros ->. discriminate. }
      assert (Ascii.eqb c LF = false) as El.
      { apply Ascii.eqb_neq. intros ->. discriminate. }
      unfold csvStep. cbn [csv_mode].
      destruct Hm as [-> | ->]; rewrite ?Hquote, Ec, El; reflexivity. }
    cbn [runCsv]. rewrite Hstep.
    destruct (IH Hq Unquoted (snoc f c) rec recs (or_intror eq_refl))
      as (m' & Hm' & Hrun).
    exists m'. split; [exact Hm'|]. now rewrite Hrun, snoc_append.
Qed.

(** Reading the doubled text of a quoted field. *)
Lemma runCsv_doubled (text : string) :
  forall f rec recs,
    runCsv (mkCsvState Quoted f rec recs) (doubleQuotes text)
    = mkCsvState Quoted (f ++ text) rec recs.
Proof.
  induction text as [|c text IH]; intros f rec recs.
  - now rewrite append_nil_r.
  - cbn [doubleQuotes]. fold (isQuote c). destruct (isQuote c) eqn:Hc.
    + apply isQuote_true in Hc. subst c. rewrite !DQ_append.
      cbn [runCsv]. unfold csvStep at 2. cbn [csv_mode]. rewrite isQuote_QUOTE.
      unfold csvStep at 1. cbn [csv_mode setMode]. rewrite isQuote_QUOTE.
      unfold addChar. cbn [csv_field csv_record csv_records].
      now rewrite IH, snoc_append.
    + cbn [runCsv]. unfold csvStep. cbn [csv_mode]. rewrite Hc.
      unfold addChar. cbn [csv_field csv_record csv_records].
      now rewrite IH, snoc_append.
Qed.

(** Reading one cell written by [csvCell]: the field is the text, and the
    reader is where a field can end. *)
Lemma runCsv_cell (text : string) (rec : list string) (recs : list (list string)) :
  exists m, fieldEnded m = true
            /\ runCsv (mkCsvState FieldStart "" rec recs) (csvCell (VStr text))
               = mkCsvState m text rec recs.
Proof.
  unfold csvCell. cbn [coalesce isNullish ToString].
  destruct (needsQuoting text) eqn:Hq.
  - exists QuoteSeen. split; [reflexivity|].
    rewrite DQ_append. cbn [runCsv]. unfold csvStep at 1. cbn [csv_mode].
    rewrite isQuote_QUOTE. unfold setMode. cbn [csv_field csv_record csv_records].
    rewrite runCsv_app, runCsv_doubled. unfold DQ. cbn [runCsv].
    unfold csvStep. cbn [csv_mode]. fold QUOTE. now rewrite isQuote_QUOTE.
  - destruct (runCsv_plain text Hq FieldStart "" rec recs (or_introl eq_refl))
      as (m & Hm & Hrun).
    exists m. split; [exact Hm | exact Hrun].
Qed.

Lemma csvStep_comma (m : CsvMode) f rec recs :
  fieldEnded m = true ->
  csvStep (mkCsvState m f rec recs) COMMA
  = mkCsvState FieldStart "" (rec ++ [f])%list recs.
Proof. now destruct m. Qed.

Lemma csvStep_lf (m : CsvMode) f rec recs :
  fieldEnded m = true ->
  csvStep (mkCsvState m f rec recs) LF
  = mkCsvState FieldStart "" [] (recs ++ [(rec ++ [f])%list])%list.
Proof. now destruct m. Qed.

(** Reading one line of cells. *)
Lemma runCsv_line (cells : list string) :
  cells <> [] ->
  forall rec recs,
    exists m f rec',
      fieldEnded m = true
      /\ runCsv (mkCsvState FieldStart "" rec recs)
                (join "," (List.map (fun t => csvCell (VStr t)) cells))
         = mkCsvState m f rec' recs
      /\ (rec' ++ [f])%list = (rec ++ cells)%list.
Proof.
  induction cells as [|c cells IH]; [congruence|]. intros _ rec recs.
  destruct cells as [|c2 cells].
  - destruct (runCsv_cell c rec recs) as (m & Hm & Hrun).
    exists m, c, rec. repeat split; assumption.
  - change (join "," (List.map (fun t => csvCell (VStr t)) (c :: c2 :: cells)))
      with (csvCell (VStr c) ++ "," ++
            join "," (List.map (fun t => csvCell (VStr t)) (c2 :: cells))).
    rewrite runCsv_app.
    destruct (runCsv_cell c rec recs) as (m & Hm & ->).
    change ("," ++ join "," (List.map (fun t => csvCell (VStr t)) (c2 :: cells)))
      with (String COMMA
              (join "," (List.map (fun t => csvCell (VStr t)) (c2 :: cells)))).
    cbn [runCsv]. rewrite (csvStep_comma m _ _ _ Hm).
    destruct (IH ltac:(discriminate) (rec ++ [c])%list recs)
      as (m' & f & rec' & Hm' & Hrun & Heq).
    exists m', f, rec'. repeat split; try assumption.
    rewrite Heq. now rewrite <- List.app_assoc.
Qed.

(** Reading the lines of a table. *)
Lemma runCsv_table (table : list (list string)) :
  table <> [] ->
  Forall (fun cells => cells <> []) table ->
  forall recs,
    csvFinish
      (runCsv (mkCsvState FieldStart "" [] recs)
         (join LFs
            (List.map (fun cells =>
                         join "," (List.map (fun t => csvCell (VStr t)) cells))
                      table)))
    = (recs ++ table)%list.
Proof.
  induction table as [|cells table IH]; [congruence|].
  intros _ Hall recs. inversion Hall as [|? ? Hcells Hrest]; subst.
  destruct table as [|cells2 table].
  - cbn [List.map join].
    destruct (runCsv_line cells Hcells [] recs)
      as (m & f & rec' & Hm & -> & Heq).
    unfold csvFinish. cbn [csv_records csv_record csv_field].
    rewrite Heq. reflexivity.
  - set (line := fun cells : list string =>
                   join "," (List.map (fun t => csvCell (VStr t)) cells)).
    change (join LFs (List.map line (cells :: cells2 :: table)))
      with (line cells ++ LFs ++ join LFs (List.map line (cells2 :: table))).
    rewrite runCsv_app. unfold line at 1.
    destruct (runCsv_line cells Hcells [] recs)
      as (m & f & rec' & Hm & -> & Heq).
    change (LFs ++ join LFs (List.map line (cells2 :: table)))
      with (String LF (join LFs (List.map line (cells2 :: table)))).
    cbn [runCsv]. rewrite (csvStep_lf m _ _ _ Hm), Heq.
    cbn [app]. unfold line.
    rewrite (IH ltac:(discriminate) Hrest).
    now rewrite <- List.app_assoc.
Qed.

Lemma csvCell_cellText (raw : JsVal) : csvCell raw = csvCell (VStr (cellText raw)).
Proof.
  unfold csvCell, cellText. cbn [coalesce isNullish ToString].
  reflexivity.
Qed.

Lemma csvLine_text (cells : list JsVal) :
  csvLine cells
  = join "," (List.map (fun t => csvCell (VStr t)) (List.map cellText cells)).
Proof.
  unfold csvLine. rewrite List.map_map. f_equal.
Qed.

(** X11. The CSV file offered for download can be read back: whatever the
    incidents contain (commas, double quotes, line feeds), a CSV reader
    gets the header and, line by line, the six cells of every incident
    exactly as they were; with no incident there is no file. *)
Theorem planImportDetailCsv_reads_back (rows : list DetailRow) :
  match planImportDetailCsv rows with
  | Some text =>
      rows <> []
      /\ parseCsv text
         = List.map (List.map cellText)
                    (DETAIL_CSV_HEADER :: List.map detailCells rows)
  | None => rows = []
  end.
Proof.
  destruct rows as [|r rows]; [reflexivity|].
  cbn [planImportDetailCsv]. split; [discriminate|].
  unfold parseCsv.
  set (table := DETAIL_CSV_HEADER :: List.map detailCells (r :: rows)).
  assert (Htext :
    csvLine DETAIL_CSV_HEADER
      :: List.map (fun r0 => csvLine (detailCells r0)) (r :: rows)
    = List.map (fun cells =>
                  join "," (List.map (fun t => csvCell (VStr t)) cells))
               (List.map (List.map cellText) table)).
  { unfold table. cbn [List.map]. rewrite !csvLine_text. do 2 f_equal.
    rewrite !List.map_map. apply List.map_ext. intros r0. apply csvLine_text. }
  rewrite Htext.
  rewrite (runCsv_table (List.map (List.map cellText) table)).
  - reflexivity.
  - unfold table. discriminate.
  - apply List.Forall_forall. intros cells Hin.
    apply in_map_iff in Hin. destruct Hin as (raw & <- & Hin).
    unfold table in Hin. destruct Hin as [<- | Hin]; [discriminate|].
    apply in_map_iff in Hin. destruct Hin as (r0 & <- & _). discriminate.
Qed.

(** ** The incidents of a plan import *)

Lemma trimStart_eq (s : string) :
  trimStart s
  = match wsLen s, s with
    | 1%nat, String _ r => trimStart r
    | 2%nat, String _ (String _ r) => trimStart r
    | 3%nat, String _ (String _ (String _ r)) => trimStart r
    | _, _ => s
    end.
Proof. destruct s; reflexivity. Qed.

Lemma trimStartRev_eq (l : list ascii) :
  trimStartRev l
  = match wsLenRev l, l with
    | 1%nat, _ :: r => trimStartRev r
    | 2%nat, _ :: _ :: r => trimStartRev r
    | 3%nat, _ :: _ :: _ :: r => trimStartRev r
    | _, _ => l
    end.
Proof. destruct l; reflexivity. Qed.

(** [trimStart] drops characters from the front only. *)
Lemma trimStart_chars (c : ascii) :
  forall n s, (String.length s <= n)%nat ->
              In c (chars (trimStart s)) -> In c (chars s).
Proof.
  induction n as [|n IH]; intros s Hlen.
  - destruct s; [auto | cbn in Hlen; lia].
  - rewrite trimStart_eq.
    destruct (wsLen s) as [|[|[|[|k]]]]; auto.
    + destruct s as [|a r]; auto. cbn in Hlen.
      intros H. right. apply IH; [lia | exact H].
    + destruct s as [|a [|b r]]; auto. cbn in Hlen.
      intros H. right; right. apply IH; [lia | exact H].
    + destruct s as [|a [|b [|d r]]]; auto. cbn in Hlen.
      intros H. right; right; right. apply IH; [lia | exact H].
Qed.

Lemma trimStartRev_In (c : ascii) :
  forall n l, (length l <= n)%nat -> In c (trimStartRev l) -> In c l.
Proof.
  induction n as [|n IH]; intros l Hlen.
  - destruct l; [auto | cbn in Hlen; lia].
  - rewrite trimStartRev_eq.
    destruct (wsLenRev l) as [|[|[|[|k]]]]; auto.
    + destruct l as [|a r]; auto. cbn in Hlen.
      intros H. right. apply IH; [lia | exact H].
    + destruct l as [|a [|b r]]; auto. cbn in Hlen.
      intros H. right; right. apply IH; [lia | exact H].
    + destruct l as [|a [|b [|d r]]]; auto. cbn in Hlen.
      intros H. right; right; right. apply IH; [lia | exact H].
Qed.

(** Every character of a trimmed text is a character of the text. *)
Lemma trim_chars (c : ascii) (s : string) :
  In c (chars (trim s)) -> In c (chars s).
Proof.
  unfold trim, trimEnd, ofChars, chars.
  rewrite list_ascii_of_string_of_list_ascii. intros H.
  apply (trimStart_chars c (String.length s) s (Nat.le_refl _)).
  apply in_rev in H.
  apply (trimStartRev_In c _ _ (Nat.le_refl _)) in H.
  now apply in_rev in H.
Qed.

(** No piece of a split text has a separator in it. *)
Lemma splitOn_no_separator (sep : ascii -> bool) (s : string) :
  forall piece c, In piece (splitOn sep s) -> In c (chars piece) ->
                  sep c = false.
Proof.
  induction s as [|a s IH]; intros piece c Hp Hc.
  - destruct Hp as [<- | []]. destruct Hc.
  - cbn [splitOn] in Hp. destruct (sep a) eqn:Ha.
    + destruct Hp as [<- | Hp]; [destruct Hc | now apply (IH piece)].
    + destruct (splitOn sep s) as [|h t] eqn:E.
      * destruct Hp as [<- | []]. destruct Hc as [<- | []]. exact Ha.
      * destruct Hp as [<- | Hp].
        -- destruct Hc as [<- | Hc]; [exact Ha|].
           apply (IH h); [now left | exact Hc].
        -- apply (IH piece); [now right | exact Hc].
Qed.

Lemma splitPlanImportReasons_pieces (reasonText : JsVal) (piece : string) :
  In piece (splitPlanImportReasons reasonText) ->
  piece <> ""
  /\ forall c, In c (chars piece) -> isReasonSeparator c = false.
Proof.
  unfold splitPlanImportReasons. intros H.
  apply filter_In in H. destruct H as [H Hne].
  apply in_map_iff in H. destruct H as (raw & <- & Hraw).
  split.
  - unfold nonEmpty in Hne. apply negb_true_iff in Hne.
    now apply text_eqb_neq.
  - intros c Hc. apply trim_chars in Hc.
    now apply (splitOn_no_separator _ _ raw c Hraw).
Qed.

Lemma planImportIssueType_values (st reasonText : JsVal) :
  planImportIssueType st reasonText = "Error"
  \/ planImportIssueType st reasonText = "Aviso"
  \/ planImportIssueType st reasonText = "".
Proof.
  unfold planImportIssueType.
  repeat match goal with
         | |- context [if ?b then _ else _] => destruct b
         end; auto.
Qed.

Lemma planImportActionHint_nonempty (reasonText : JsVal) (issueType : string)
    (rowData : JsObj) :
  planImportActionHint reasonText issueType rowData <> "".
Proof.
  unfold planImportActionHint.
  repeat match goal with
         | |- context [if ?b then _ else _] => destruct b
         end; discriminate.
Qed.

Lemma detailRowsOf_In (item : PreviewItem) (d : DetailRow) :
  In d (detailRowsOf item) ->
  planImportIssueType (status item) (reason item) <> ""
  /\ detail_issue_type d = planImportIssueType (status item) (reason item)
  /\ detail_line d = (if isFinite (ToNumber (row_number item))
                      then VNum (ToNumber (row_number item)) else VStr "")
  /\ (In (detail_reason d) (splitPlanImportReasons (reason item))
      \/ (splitPlanImportReasons (reason item) = []
          /\ detail_reason d = "Incidencia sin detalle."))
  /\ detail_action d
     = planImportActionHint (VStr (detail_reason d))
         (planImportIssueType (status item) (reason item))
         (default ∅ (row item)).
Proof.
  unfold detailRowsOf.
  destruct (eqb (planImportIssueType (status item) (reason item)) "") eqn:E;
    [intros []|].
  apply text_eqb_neq in E. intros H.
  apply in_map_iff in H. destruct H as (r & <- & Hr).
  cbn [detail_issue_type detail_line detail_reason detail_action].
  repeat split; try assumption.
  destruct (splitPlanImportReasons (reason item)) as [|r0 rs].
  - right. destruct Hr as [<- | []]. now split.
  - now left.
Qed.

(** X12. Every line of the incident list is well formed: its type is
    Error or Aviso, its reason is not empty and has no [;] and no [|] in it
    (a reason with separators is listed piece by piece), and it carries an
    action hint. *)
Theorem detail_rows_are_well_formed (results : option (list PreviewItem))
    (d : DetailRow) :
  In d (buildPlanImportDetailRows results) ->
  (detail_issue_type d = "Error" \/ detail_issue_type d = "Aviso")
  /\ detail_reason d <> ""
  /\ (forall c, In c (chars (detail_reason d)) -> isReasonSeparator c = false)
  /\ detail_action d <> "".
Proof.
  unfold buildPlanImportDetailRows. intros H.
  apply in_concat in H. destruct H as (l & Hl & Hd).
  apply in_map_iff in Hl. destruct Hl as (item & <- & _).
  apply detailRowsOf_In in Hd.
  destruct Hd as (Hne & Htype & _ & Hreason & Haction).
  split; [|split; [|split]].
  - rewrite Htype.
    destruct (planImportIssueType_values (status item) (reason item))
      as [H | [H | H]]; auto. contradiction.
  - destruct Hreason as [H | [_ ->]]; [|discriminate].
    now apply splitPlanImportReasons_pieces in H.
  - destruct Hreason as [H | [_ ->]].
    + now apply splitPlanImportReasons_pieces in H.
    + intros c Hc. cbn in Hc.
      repeat (destruct Hc as [<- | Hc]; [reflexivity|]). contradiction.
  - rewrite Haction. apply planImportActionHint_nonempty.
Qed.

Lemma detail_rows_are_well_formed_witness :
  In detail_of_warned
     (buildPlanImportDetailRows (Some [result_invalid; result_warned]))
  /\ (detail_issue_type detail_of_warned = "Error"
      \/ detail_issue_type detail_of_warned = "Aviso")
  /\ detail_reason detail_of_warned <> ""
  /\ (forall c, In c (chars (detail_reason detail_of_warned)) ->
                isReasonSeparator c = false)
  /\ detail_action detail_of_warned <> "".
Proof.
  assert (H : In detail_of_warned
                 (buildPlanImportDetailRows
                    (Some [result_invalid; result_warned]))).
  { vm_compute. right; right; left. reflexivity. }
  split; [exact H|].
  exact (detail_rows_are_well_formed _ _ H).
Defined.

Lemma detailRowsOf_nonempty (item : PreviewItem) :
  planImportIssueType (status item) (reason item) <> "" ->
  exists d, In d (detailRowsOf item)
            /\ detail_issue_type d
               = planImportIssueType (status item) (reason item)
            /\ detail_line d = lineOf item.
Proof.
  intros H. unfold detailRowsOf.
  apply text_eqb_neq in H. rewrite H.
  destruct (splitPlanImportReasons (reason item)) as [|r rs];
    eexists; (split; [left; reflexivity|]); split; reflexivity.
Qed.

Lemma detailRowsOf_listed (results : option (list PreviewItem))
    (item : PreviewItem) (d : DetailRow) :
  In item (default [] results) -> In d (detailRowsOf item) ->
  In d (buildPlanImportDetailRows results).
Proof.
  intros Hi Hd. unfold buildPlanImportDetailRows.
  apply in_concat. exists (detailRowsOf item). split; [|exact Hd].
  now apply in_map.
Qed.

(** X13. No incident of an import is lost and nothing else is listed: a
    result whose status reads [invalid] is listed as an Error and one that
    reads [warning] as an Aviso, each at least once and with its row number,
    even when it has no reason; a result [imported] without a reason, or
    with any other status, adds no line. *)
Theorem every_incident_is_listed (results : option (list PreviewItem))
    (item : PreviewItem) :
  In item (default [] results) ->
  (statusText item = "invalid" ->
     exists d, In d (buildPlanImportDetailRows results)
               /\ detail_issue_type d = "Error" /\ detail_line d = lineOf item)
  /\ (statusText item = "warning" ->
     exists d, In d (buildPlanImportDetailRows results)
               /\ detail_issue_type d = "Aviso" /\ detail_line d = lineOf item)
  /\ (statusText item = "imported" ->
      trim (ToString (orElse (reason item) (VStr ""))) = "" ->
      detailRowsOf item = [])
  /\ (statusText item <> "invalid" -> statusText item <> "warning" ->
      statusText item <> "imported" ->
      detailRowsOf item = []).
Proof.
  intros Hin.
  assert (Hlisted : forall t,
             planImportIssueType (status item) (reason item) = t -> t <> "" ->
             exists d, In d (buildPlanImportDetailRows results)
                       /\ detail_issue_type d = t /\ detail_line d = lineOf item).
  { intros t Ht Hne. rewrite <- Ht in Hne.
    destruct (detailRowsOf_nonempty item Hne) as (d & Hd & Htype & Hline).
    exists d. split; [now apply (detailRowsOf_listed results item)|].
    split; [now rewrite Htype | exact Hline]. }
  assert (Hnone : planImportIssueType (status item) (reason item) = "" ->
                  detailRowsOf item = []).
  { intros H. unfold detailRowsOf. now rewrite H. }
  unfold statusText. split; [|split; [|split]].
  - intros H. apply (Hlisted "Error"); [|discriminate].
    unfold planImportIssueType. now rewrite H.
  - intros H. apply (Hlisted "Aviso"); [|discriminate].
    unfold planImportIssueType. now rewrite H.
  - intros H Hr. apply Hnone. unfold planImportIssueType. now rewrite H, Hr.
  - intros H1 H2 H3. apply Hnone. unfold planImportIssueType.
    apply text_eqb_neq in H1, H2, H3. now rewrite H1, H2, H3.
Qed.

Lemma every_incident_is_listed_witness :
  In result_invalid (default [] (Some [result_invalid; result_warned]))
  /\ ((statusText result_invalid = "invalid" ->
        exists d, In d (buildPlanImportDetailRows
                          (Some [result_invalid; result_warned]))
                  /\ detail_issue_type d = "Error"
                  /\ detail_line d = lineOf result_invalid)
      /\ (statusText result_invalid = "warning" ->
        exists d, In d (buildPlanImportDetailRows
                          (Some [result_invalid; result_warned]))
                  /\ detail_issue_type d = "Aviso"
                  /\ detail_line d = lineOf result_invalid)
      /\ (statusText result_invalid = "imported" ->
          trim (ToString (orElse (reason result_invalid) (VStr ""))) = "" ->
          detailRowsOf result_invalid = [])
      /\ (statusText result_invalid <> "invalid" ->
          statusText result_invalid <> "warning" ->
          statusText result_invalid <> "imported" ->
          detailRowsOf result_invalid = [])).
Proof.
  assert (H : In result_invalid
                 (default [] (Some [result_invalid; result_warned])))
    by (simpl; left; reflexivity).
  split; [exact H|].
  exact (every_incident_is_listed _ _ H).
Defined.

(** ** The cause of an incident *)

Lemma append_cons (c : ascii) (a b : string) :
  String c a ++ b = String c (a ++ b).
Proof. reflexivity. Qed.

Lemma append_nil_l (b : string) : "" ++ b = b.
Proof. reflexivity. Qed.

Lemma substring_all (s : string) : substring 0 (String.length s) s = s.
Proof. induction s as [|c s IH]; [reflexivity|]. cbn. now rewrite IH. Qed.

Lemma substring_0_0 (s : string) : substring 0 0 s = "".
Proof. now destruct s. Qed.

Lemma spanDigits_run (d : string) (c : ascii) (r : string) :
  allChars isDigit d = true -> isDigit c = false ->
  spanDigits (d ++ String c r) = (d, String c r).
Proof.
  intros Hd Hc. induction d as [|a d IH].
  - rewrite append_nil_l. cbn [spanDigits]. now rewrite Hc.
  - cbn [allChars] in Hd. apply andb_true_iff in Hd. destruct Hd as [Ha Hd].
    rewrite append_cons. cbn [spanDigits]. rewrite Ha, (IH Hd). reflexivity.
Qed.

(** X14. Incidents are grouped by a cause that does not depend on the
    exercise slot: the reasons [exercise_N: ...] of two slots have the same
    cause, [exercise_*: ...], whatever follows the colon. *)
Theorem cause_ignores_exercise_slot (d1 d2 rest : string) :
  d1 <> "" -> allChars isDigit d1 = true ->
  d2 <> "" -> allChars isDigit d2 = true ->
  normalizePlanImportCause (VStr ("exercise_" ++ d1 ++ ":" ++ rest))
  = trim ("exercise_*: " ++ trimStart rest)
  /\ normalizePlanImportCause (VStr ("exercise_" ++ d1 ++ ":" ++ rest))
     = normalizePlanImportCause (VStr ("exercise_" ++ d2 ++ ":" ++ rest)).
Proof.
  assert (H : forall d, d <> "" -> allChars isDigit d = true ->
                normalizePlanImportCause (VStr ("exercise_" ++ d ++ ":" ++ rest))
                = trim ("exercise_*: " ++ trimStart rest)).
  { intros d Hne Hd.
    change (":" ++ rest) with (String ":" rest).
    set (x := d ++ String ":" rest).
    change ("exercise_" ++ x)
      with (String "e" (String "x" (String "e" (String "r" (String "c"
              (String "i" (String "s" (String "e" (String "_" x))))))))).
    unfold normalizePlanImportCause.
    rewrite orElse_nonempty by discriminate.
    cbn [ToString]. unfold matchExercisePrefix.
    cbn [substring toLowerCase String.length Nat.sub].
    rewrite substring_0_0, Nat.sub_0_r, substring_all.
    change (eqb _ "exercise_") with true. cbn iota.
    unfold x. rewrite (spanDigits_run d ":" rest Hd eq_refl).
    destruct d as [|a d]; [congruence|].
    rewrite trimStart_eq.
    assert (Hws : wsLen (String ":" rest) = 0%nat)
      by (destruct rest as [|b [|c r]]; reflexivity).
    rewrite Hws. reflexivity. }
  intros Hn1 Hd1 Hn2 Hd2. split; [now apply H|].
  now rewrite (H d1), (H d2).
Qed.

Lemma cause_ignores_exercise_slot_witness :
  "1" <> "" /\ allChars isDigit "1" = true
  /\ "12" <> "" /\ allChars isDigit "12" = true
  /\ normalizePlanImportCause
       (VStr ("exercise_" ++ "1" ++ ":" ++ " reps_min invalido"))
     = trim ("exercise_*: " ++ trimStart " reps_min invalido")
  /\ normalizePlanImportCause
       (VStr ("exercise_" ++ "1" ++ ":" ++ " reps_min invalido"))
     = normalizePlanImportCause
         (VStr ("exercise_" ++ "12" ++ ":" ++ " reps_min invalido")).
Proof.
  assert (H1 : "1" <> "") by discriminate.
  assert (H2 : "12" <> "") by discriminate.
  split; [exact H1|]. split; [reflexivity|].
  split; [exact H2|]. split; [reflexivity|].
  exact (cause_ignores_exercise_slot "1" "12" " reps_min invalido"
           H1 eq_refl H2 eq_refl).
Defined.

(** ** Numbers the views format cannot be parsed back *)

Lemma spanDigits_spec (s : string) :
  forall d r, spanDigits s = (d, r) ->
    s = d ++ r /\ allChars isDigit d = true.
Proof.
  induction s as [|c s IH]; intros d r H.
  - injection H as <- <-. now split.
  - cbn [spanDigits] in H. destruct (isDigit c) eqn:Hc.
    + destruct (spanDigits s) as [d' r'] eqn:E. injection H as <- <-.
      destruct (IH d' r' eq_refl) as [-> Hd]. split; [reflexivity|].
      cbn [allChars]. now rewrite Hc, Hd.
    + injection H as <- <-. now split.
Qed.

Lemma allChars_In (p : ascii -> bool) (s : string) (c : ascii) :
  allChars p s = true -> In c (chars s) -> p c = true.
Proof.
  induction s as [|a s IH]; [intros _ []|].
  cbn [allChars]. rewrite andb_true_iff, chars_cons.
  intros [Ha Hs] [<- | H]; [exact Ha | now apply IH].
Qed.

(** The comma of a text is after its leading digits. *)
Lemma comma_after_digits (s d r : string) :
  spanDigits s = (d, r) -> In COMMA (chars s) -> In COMMA (chars r).
Proof.
  intros H Hc. destruct (spanDigits_spec s d r H) as [-> Hd].
  rewrite chars_app, in_app_iff in Hc. destruct Hc as [Hc|Hc]; [|exact Hc].
  apply (allChars_In _ _ _ Hd) in Hc. discriminate.
Qed.

Lemma exponentValue_comma (s : string) :
  In COMMA (chars s) -> exponentValue s = None.
Proof.
  intros Hc. unfold exponentValue.
  assert (Hbody : forall body, In COMMA (chars body) ->
            match spanDigits body with
            | (EmptyString, _) => None
            | (d, EmptyString) => Some (decValue d)
            | (_, _) => None
            end = None
            /\ match spanDigits body with
               | (EmptyString, _) => None
               | (d, EmptyString) => Some (- decValue d)
               | (_, _) => @None Z
               end = None).
  { intros body Hb. destruct (spanDigits body) as [d r] eqn:E.
    apply (comma_after_digits _ _ _ E) in Hb.
    destruct d; [now split|]. destruct r; [destruct Hb | now split]. }
  destruct s as [|c r]; [destruct Hc|].
  destruct (Ascii.eqb c "+") eqn:Ep.
  { apply Ascii.eqb_eq in Ep. subst c. destruct Hc as [Hc|Hc]; [discriminate|].
    cbn. now apply Hbody. }
  destruct (Ascii.eqb c "-") eqn:Em.
  { apply Ascii.eqb_eq in Em. subst c. destruct Hc as [Hc|Hc]; [discriminate|].
    cbn. now apply Hbody. }
  assert (Hrest : (let '(negative, body) :=
                     match String c r with
                     | String "+" r0 => (false, r0)
                     | String "-" r0 => (true, r0)
                     | _ => (false, String c r)
                     end in (negative, body)) = (false, String c r)).
  { each_ascii c; try reflexivity; discriminate. }
  destruct (Hbody (String c r) Hc) as [H1 _].
  revert Hrest H1.
  each_ascii c; try discriminate; cbn; intros _ H1; exact H1.
Qed.

Lemma withExponent_comma (ip fp rest : string) :
  In COMMA (chars rest) -> withExponent ip fp rest = NaN.
Proof.
  destruct rest as [|c r]; [intros []|]. intros [Hc|Hc]; cbn [withExponent].
  - now subst c.
  - rewrite (exponentValue_comma r Hc). now destruct (_ || _).
Qed.

Lemma unsignedDecimal_comma (s : string) :
  In COMMA (chars s) -> unsignedDecimal s = NaN.
Proof.
  intros Hc. unfold unsignedDecimal.
  destruct (eqb s "Infinity") eqn:Einf.
  { apply String.eqb_eq in Einf. subst s. cbn in Hc.
    repeat (destruct Hc as [Hc|Hc]; [discriminate|]). destruct Hc. }
  destruct (spanDigits s) as [ip r1] eqn:E1.
  apply (comma_after_digits _ _ _ E1) in Hc.
  destruct r1 as [|c r2]; [destruct Hc|].
  destruct (Ascii.eqb c ".") eqn:Edot.
  - apply Ascii.eqb_eq in Edot. subst c.
    destruct Hc as [Hc|Hc]; [discriminate|].
    destruct (spanDigits r2) as [fp r3] eqn:E2.
    apply (comma_after_digits _ _ _ E2) in Hc.
    destruct ip, fp; try reflexivity; now apply withExponent_comma.
  - pose proof (withExponent_comma ip "" (String c r2) Hc) as Hw.
    revert Edot Hw. clear.
    each_ascii c; try discriminate; intros _ Hw; now destruct ip.
Qed.

Lemma numberChar_range (c : ascii) :
  numberChar c = true -> (44 <= code c <= 57)%N.
Proof.
  unfold numberChar, isDigit. cbv zeta.
  rewrite !orb_true_iff, andb_true_iff, !N.leb_le, !N.eqb_eq. lia.
Qed.

Lemma numberChar_not_space (a : ascii) :
  numberChar a = true ->
  isAsciiWs a = false
  /\ (forall b c, isWs3 a b c = false) /\ (forall b c, isWs3 c b a = false)
  /\ N.eqb (code a) 194 = false /\ N.eqb (code a) 160 = false.
Proof.
  intros H. apply numberChar_range in H.
  assert (Heq : forall k, (k < 44 \/ 57 < k)%N -> N.eqb (code a) k = false)
    by (intros k Hk; apply N.eqb_neq; lia).
  assert (Hle : forall k, (57 < k)%N -> N.leb k (code a) = false)
    by (intros k Hk; apply N.leb_gt; lia).
  repeat split.
  - unfold isAsciiWs. cbv zeta. rewrite (Heq 32%N) by lia.
    assert (N.leb (code a) 13 = false) as -> by (apply N.leb_gt; lia).
    now rewrite andb_false_r.
  - intros b c. unfold isWs3. cbv zeta.
    rewrite (Heq 225%N), (Heq 226%N), (Heq 227%N), (Heq 239%N) by lia.
    reflexivity.
  - intros b c. unfold isWs3. cbv zeta.
    rewrite (Heq 128%N), (Heq 168%N), (Heq 169%N), (Heq 175%N), (Heq 159%N),
      (Heq 191%N), (Hle 128%N) by lia.
    now rewrite ?andb_false_l, ?andb_false_r, ?orb_false_r.
  - apply Heq; lia.
  - apply Heq; lia.
Qed.

(** A text of digits, dots, commas and minus signs has nothing to trim. *)
Lemma trim_numberChars (s : string) :
  (forall c, In c (chars s) -> numberChar c = true) -> trim s = s.
Proof.
  intros H. unfold trim.
  assert (Hstart : trimStart s = s).
  { rewrite trimStart_eq. destruct s as [|a r]; [reflexivity|].
    destruct (numberChar_not_space a (H a (or_introl eq_refl)))
      as (Ha & H3 & _ & H2 & _).
    cbn [wsLen]. rewrite Ha, H2. cbn [andb].
    destruct r as [|b [|c r]]; try reflexivity. now rewrite H3. }
  rewrite Hstart. unfold trimEnd.
  assert (Hend : trimStartRev (List.rev (chars s)) = List.rev (chars s)).
  { assert (Hl : forall c, In c (List.rev (chars s)) -> numberChar c = true)
      by (intros c Hc; apply H; now apply in_rev).
    revert Hl. generalize (List.rev (chars s)). intros l Hl.
    rewrite trimStartRev_eq. destruct l as [|a r]; [reflexivity|].
    destruct (numberChar_not_space a (Hl a (or_introl eq_refl)))
      as (Ha & _ & H3 & _ & H2).
    cbn [wsLenRev]. rewrite Ha, H2.
    destruct r as [|b [|c r]]; rewrite ?andb_false_r; try reflexivity.
    now rewrite H3. }
  rewrite Hend, rev_involutive. apply string_of_list_ascii_of_string.
Qed.

(** [Number(s)] is NaN for a text of digits, dots, commas and minus signs
    with a comma in it. *)
Lemma StringToNumber_comma (s : string) :
  (forall c, In c (chars s) -> numberChar c = true) ->
  In COMMA (chars s) ->
  StringToNumber s = NaN.
Proof.
  intros Hall Hc. unfold StringToNumber. rewrite (trim_numberChars s Hall).
  destruct s as [|a r]; [destruct Hc|].
  pose proof (Hall a (or_introl eq_refl)) as Ha.
  destruct (Ascii.eqb a "-") eqn:Em.
  { apply Ascii.eqb_eq in Em. subst a.
    destruct Hc as [Hc|Hc]; [discriminate|].
    now rewrite (unsignedDecimal_comma r Hc). }
  destruct (Ascii.eqb a "0") eqn:Ez.
  - apply Ascii.eqb_eq in Ez. subst a.
    pose proof (unsignedDecimal_comma _ Hc) as Hu.
    destruct r as [|b r]; [exact Hu|].
    pose proof (Hall b (or_intror (or_introl eq_refl))) as Hb.
    revert Hb Hu. clear.
    each_ascii b; try (intros Hb; discriminate Hb); intros _ Hu; exact Hu.
  - pose proof (unsignedDecimal_comma _ Hc) as Hu.
    revert Ha Em Ez Hu. clear.
    each_ascii a; try (intros Ha; discriminate Ha);
      try (intros _ Em; discriminate Em);
      try (intros _ _ Ez; discriminate Ez);
      intros _ _ _ Hu; exact Hu.
Qed.

Lemma string_of_uint_digits (d : Decimal.uint) (c : ascii) :
  In c (chars (DecimalString.NilEmpty.string_of_uint d)) -> isDigit c = true.
Proof.
  induction d as [|d IH|d IH|d IH|d IH|d IH|d IH|d IH|d IH|d IH|d IH];
    cbn; [intros [] | ..]; (intros [<-|H]; [reflexivity | now apply IH]).
Qed.

Lemma decString_digits (z : Z) (c : ascii) :
  In c (chars (decString z)) -> isDigit c = true.
Proof.
  unfold decString, DecimalString.NilZero.string_of_uint.
  destruct (N.to_uint (Z.to_N z)) eqn:E;
    try (rewrite <- E; apply string_of_uint_digits).
  cbn. intros [<-|[]]. reflexivity.
Qed.

Lemma repeatChar_chars (n : nat) (a c : ascii) :
  In c (chars (repeatChar n a)) -> c = a.
Proof. induction n as [|n IH]; cbn; [intros [] | intros [<-|H]; auto]. Qed.

Lemma group3Rev_chars (l : list ascii) :
  forall n c, In c (group3Rev n l) -> In c l \/ c = "."%char.
Proof.
  induction l as [|a r IH]; intros n c; [intros []|].
  cbn [group3Rev]. destruct r as [|b r'].
  - destruct n; intros [<-|[]]; left; now left.
  - destruct n as [|n'].
    + intros [<-|[<-|H]]; [left; now left | now right |].
      destruct (IH _ _ H) as [H'|H']; [left; now right | now right].
    + intros [<-|H]; [left; now left|].
      destruct (IH _ _ H) as [H'|H']; [left; now right | now right].
Qed.

Lemma group3_chars (s : string) (c : ascii) :
  In c (chars (group3 s)) -> In c (chars s) \/ c = "."%char.
Proof.
  unfold group3, ofChars, chars.
  rewrite list_ascii_of_string_of_list_ascii. intros H.
  apply in_rev in H. apply group3Rev_chars in H.
  destruct H as [H|H]; [left; now apply in_rev | now right].
Qed.

(** A number formatted with decimals is made of digits, dots, one comma
    and at most a minus sign. *)
Lemma toLocaleString_esES_chars (q : Q) (d : nat) :
  let s := toLocaleString_esES q (S d) in
  (forall c, In c (chars s) -> numberChar c = true) /\ In COMMA (chars s).
Proof.
  unfold toLocaleString_esES. cbv zeta iota.
  set (scale := (10 ^ Z.of_nat (S d))%Z).
  set (m := Qfloor _).
  split.
  - intros c. rewrite !chars_app, !in_app_iff.
    intros [H|[H|[H|H]]].
    + destruct (Qltb q 0); [destruct H as [<-|[]]; reflexivity | destruct H].
    + apply group3_chars in H. destruct H as [H| ->]; [|reflexivity].
      apply decString_digits in H. unfold numberChar. now rewrite H.
    + destruct H as [<-|[]]. reflexivity.
    + unfold zeroPad in H. rewrite chars_app, in_app_iff in H.
      destruct H as [H|H].
      * apply repeatChar_chars in H. now subst c.
      * apply decString_digits in H. unfold numberChar. now rewrite H.
  - rewrite !chars_app, !in_app_iff. right. right. left. now left.
Qed.

Lemma formatLocaleRounded_shape (x y : num) :
  formatLocaleRounded x y 3 = DASH
  \/ ((forall c, In c (chars (formatLocaleRounded x y 3)) ->
         numberChar c = true)
      /\ In COMMA (chars (formatLocaleRounded x y 3))).
Proof.
  unfold formatLocaleRounded, formatLocaleNumber. cbn [ToNumber].
  destruct y as [| | |q]; cbn [isZero]; rewrite ?andb_false_r;
    [now left.. | right].
  destruct (toLocaleString_esES_chars q 2) as [Hall Hc].
  destruct (isNeg x && Qeq_bool q 0); [|now split].
  change ("-" ++ toLocaleString_esES q 3)
    with (String "-" (toLocaleString_esES q 3)).
  rewrite chars_cons. split; [|now right].
  intros c [<-|H]; [reflexivity | now apply Hall].
Qed.

Lemma fmt3_shape (x : JsVal) :
  fmt3 x = DASH
  \/ ((forall c, In c (chars (fmt3 x)) -> numberChar c = true)
      /\ In COMMA (chars (fmt3 x))).
Proof.
  unfold fmt3. destruct (isNullish x || Number_isNaN x); [now left|].
  apply formatLocaleRounded_shape.
Qed.

Lemma computeWHR_shape (r : JsObj) :
  computeWHR r = DASH
  \/ ((forall c, In c (chars (computeWHR r)) -> numberChar c = true)
      /\ In COMMA (chars (computeWHR r))).
Proof.
  unfold computeWHR. cbv zeta.
  destruct (_ || _); [now left | apply fmt3_shape].
Qed.

Lemma Number_of_computeWHR (r : JsObj) :
  ToNumber (VStr (computeWHR r)) = NaN.
Proof.
  cbn [ToNumber]. destruct (computeWHR_shape r) as [-> | [Hall Hc]].
  - reflexivity.
  - now apply StringToNumber_comma.
Qed.

(** ** The photo items of the lightbox *)

Lemma compare_refl (s : string) : String.compare s s = Eq.
Proof.
  pose proof (String.compare_antisym s s) as H.
  destruct (String.compare s s); [reflexivity | discriminate..].
Qed.

Lemma compare_not_lt_trans (a : string) :
  forall b c, String.compare a b <> Lt -> String.compare b c <> Lt ->
              String.compare a c <> Lt.
Proof.
  induction a as [|x a IH]; intros [|y b] [|z c]; cbn; try congruence.
  unfold Ascii.compare.
  destruct (N.compare_spec (N_of_ascii x) (N_of_ascii y)) as [Exy|Exy|Exy],
           (N.compare_spec (N_of_ascii y) (N_of_ascii z)) as [Eyz|Eyz|Eyz],
           (N.compare_spec (N_of_ascii x) (N_of_ascii z)) as [Exz|Exz|Exz];
    try congruence; try lia.
  apply IH.
Qed.

Lemma photoCompare_le (a b : PhotoItem) :
  (photoCompare a b <=? 0)%Z = true <-> notEarlier a b.
Proof.
  unfold photoCompare, notEarlier, strGtb, eqb.
  destruct (String.eqb_spec (photo_log_date a) (photo_log_date b)) as [->|Hne].
  - rewrite compare_refl. split; [discriminate | reflexivity].
  - destruct (String.compare _ _) eqn:E.
    + apply String.compare_eq_iff in E. contradiction.
    + split; [discriminate | congruence].
    + split; [discriminate | reflexivity].
Qed.

Lemma notEarlier_total (a b : PhotoItem) : notEarlier a b \/ notEarlier b a.
Proof.
  unfold notEarlier. rewrite (String.compare_antisym (photo_log_date b)).
  destruct (String.compare _ _); cbn; [left | right | left]; discriminate.
Qed.

Lemma insertSorted_perm {A} (cmp : A -> A -> Z) (x : A) (l : list A) :
  Permutation (insertSorted cmp x l) (x :: l).
Proof.
  induction l as [|y l IH]; cbn; [reflexivity|].
  destruct (cmp x y <=? 0)%Z; [reflexivity|].
  rewrite IH. apply perm_swap.
Qed.

Lemma sortBy_perm {A} (cmp : A -> A -> Z) (l : list A) :
  Permutation (sortBy cmp l) l.
Proof.
  induction l as [|x l IH]; cbn; [reflexivity|].
  rewrite insertSorted_perm. now rewrite IH.
Qed.

Lemma insertSorted_sorted (x : PhotoItem) (l : list PhotoItem) :
  StronglySorted notEarlier l ->
  StronglySorted notEarlier (insertSorted photoCompare x l).
Proof.
  induction 1 as [|y l Hs IH Hy]; cbn.
  - constructor; constructor.
  - destruct (photoCompare x y <=? 0)%Z eqn:E.
    + apply photoCompare_le in E. constructor.
      * now constructor.
      * constructor; [exact E|].
        revert Hy. apply List.Forall_impl. intros z Hz.
        unfold notEarlier in *. eapply compare_not_lt_trans; eauto.
    + constructor; [exact IH|].
      apply (Permutation_Forall (Permutation_sym (insertSorted_perm _ x l))).
      constructor; [|exact Hy].
      destruct (notEarlier_total x y) as [H|H]; [|exact H].
      apply photoCompare_le in H. congruence.
Qed.

Lemma sortBy_sorted (l : list PhotoItem) :
  StronglySorted notEarlier (sortBy photoCompare l).
Proof.
  induction l as [|x l IH]; cbn; [constructor | now apply insertSorted_sorted].
Qed.

(** What the entries of the [Map] satisfy at every moment. *)
Lemma isoLike_iso (v : JsVal) :
  eqb (isoLike v) "" = false -> isIsoDate (isoLike v) = true.
Proof.
  unfold isoLike. cbv zeta. destruct (isIsoDate _) eqn:E; [now rewrite E|].
  discriminate.
Qed.

Lemma existsb_key (key : string) (entries : list (string * PhotoItem)) :
  existsb (fun kv => eqb (fst kv) key) entries = false ->
  ~ In key (List.map fst entries).
Proof.
  intros H Hin. apply in_map_iff in Hin. destruct Hin as [kv [Hk Hin]].
  assert (existsb (fun kv => eqb (fst kv) key) entries = true); [|congruence].
  apply existsb_exists. exists kv. split; [exact Hin|].
  unfold eqb. now apply String.eqb_eq.
Qed.

Lemma put_cases (entries : list (string * PhotoItem)) (item : option JsObj) :
  put entries item = entries
  \/ exists it date,
       item = Some it
       /\ date = isoLike (get it "log_date")
       /\ isIsoDate date = true
       /\ ~ In (photoKey date (ToString (get it "photo_url")))
               (List.map fst entries)
       /\ put entries item
          = (entries ++
             [(photoKey date (ToString (get it "photo_url")),
               mkPhotoItem date
                 (ToString (get it "photo_url"))
                 (ToString (orElse (get it "label") (VStr ("Foto " ++ date))))
                 (ToString (orElse (get it "original_name") (VStr "")))
                 (numberOrNull (get it "weight_kg"))
                 (numberOrNull (get it "whr")))])%list.
Proof.
  unfold put. destruct item as [it|]; [|now left].
  destruct (negb _); [now left|]. cbv zeta.
  destruct (eqb (isoLike _) "") eqn:Ed; [now left|].
  destruct (existsb _ _) eqn:Ek; [now left|].
  right. exists it, (isoLike (get it "log_date")).
  repeat split; [now apply isoLike_iso | now apply existsb_key].
Qed.

Lemma photoIdentity_of_key (entries : list (string * PhotoItem)) :
  Forall (fun kv => fst kv
                    = photoKey (photo_log_date (snd kv)) (photo_url (snd kv)))
         entries ->
  List.NoDup (List.map fst entries) ->
  List.NoDup (List.map photoIdentity (List.map snd entries)).
Proof.
  intros Hk Hnd.
  apply (NoDup_map_inv (fun p => photoKey (fst p) (snd p))).
  rewrite !List.map_map.
  erewrite List.map_ext_in; [exact Hnd|].
  intros kv Hin. rewrite List.Forall_forall in Hk. symmetry. now apply Hk.
Qed.

Lemma put_ok (entries : list (string * PhotoItem)) (item : option JsObj) :
  entriesOk entries -> entriesOk (put entries item).
Proof.
  intros [Hnd Hall].
  destruct (put_cases entries item)
    as [-> | (it & date & _ & _ & Hiso & Hfresh & ->)]; [now split|].
  split.
  - rewrite List.map_app. cbn [List.map fst].
    apply (Permutation_NoDup (Permutation_cons_append _ _)).
    now constructor.
  - apply List.Forall_app. split; [exact Hall|].
    constructor; [|constructor]. now split.
Qed.

Lemma putDietRow_ok (entries : list (string * PhotoItem)) (r : option JsObj) :
  entriesOk entries -> entriesOk (putDietRow entries r).
Proof.
  intros H. unfold putDietRow. destruct r as [row|]; [|exact H].
  destruct (negb _); [exact H | now apply put_ok].
Qed.

Lemma fold_ok (f : list (string * PhotoItem) -> option JsObj
                   -> list (string * PhotoItem))
    (Hf : forall e x, entriesOk e -> entriesOk (f e x))
    (l : list (option JsObj)) :
  forall e, entriesOk e -> entriesOk (fold_left f l e).
Proof. induction l as [|x l IH]; cbn; auto. Qed.

Lemma dietPhotoObject_whr (row : JsObj) :
  get (dietPhotoObject row) "whr" = VNull.
Proof.
  unfold get, dietPhotoObject. cbv zeta.
  rewrite !lookup_insert_ne by discriminate. rewrite lookup_insert_eq.
  now rewrite Number_of_computeWHR.
Qed.

Lemma putDietRow_whr (kv : string * PhotoItem) (r : option JsObj)
    (entries : list (string * PhotoItem)) :
  In kv (putDietRow entries r) -> In kv entries \/ photo_whr (snd kv) = VNull.
Proof.
  unfold putDietRow. destruct r as [row|]; [|now left].
  destruct (negb _); [now left|].
  destruct (put_cases entries (Some (dietPhotoObject row)))
    as [-> | (it & date & Hit & _ & _ & _ & ->)]; [now left|].
  injection Hit as <-. rewrite in_app_iff. intros [H|[<-|[]]]; [now left|].
  right. cbn [snd photo_whr]. now rewrite dietPhotoObject_whr.
Qed.

Lemma fold_putDietRow_whr (kv : string * PhotoItem)
    (rows : list (option JsObj)) :
  forall entries,
    In kv (fold_left putDietRow rows entries) ->
    In kv entries \/ photo_whr (snd kv) = VNull.
Proof.
  induction rows as [|r rows IH]; intros entries; cbn [fold_left]; [now left|].
  intros H. destruct (IH _ H) as [H'|H']; [|now right].
  now apply putDietRow_whr in H'.
Qed.

(** X15. The photo items of the lightbox come out with the newest date
    first, no two of them have the same date and address, and each has a
    date of the form YYYY-MM-DD, whatever the photos and the check-in rows
    given. *)
Theorem normalizePhotoItems_sorted_and_distinct
    (rawPhotos dietRows : option (list (option JsObj))) :
  let items := normalizePhotoItems rawPhotos dietRows in
  StronglySorted notEarlier items
  /\ List.NoDup (List.map photoIdentity items)
  /\ Forall (fun p => isIsoDate (photo_log_date p) = true) items.
Proof.
  unfold normalizePhotoItems. cbv zeta.
  set (m2 := fold_left putDietRow _ _).
  assert (Hok : entriesOk m2).
  { apply (fold_ok _ putDietRow_ok), (fold_ok _ put_ok).
    split; constructor. }
  destruct Hok as [Hnd Hall].
  pose proof (sortBy_perm photoCompare (List.map snd m2)) as Hperm.
  split; [apply sortBy_sorted|]. split.
  - apply (Permutation_NoDup
             (Permutation_map photoIdentity (Permutation_sym Hperm))).
    apply photoIdentity_of_key; [|exact Hnd].
    revert Hall. apply List.Forall_impl. now intros kv [H _].
  - apply (Permutation_Forall (Permutation_sym Hperm)).
    apply List.Forall_forall. intros p Hp.
    apply in_map_iff in Hp. destruct Hp as [kv [<- Hin]].
    rewrite List.Forall_forall in Hall. now apply Hall.
Qed.

(** X16. [Number] of the ratio [computeWHR] prints is never a number (the
    text is the placeholder or has a decimal comma), so a photo item that
    comes from a check-in row, and not from the photos given, has no
    waist-to-hip ratio. *)
Theorem checkin_photo_has_no_whr
    (rawPhotos dietRows : option (list (option JsObj))) (item : PhotoItem)
    (Hin : In item (normalizePhotoItems rawPhotos dietRows)) :
  (forall r, ToNumber (VStr (computeWHR r)) = NaN)
  /\ (In item (normalizePhotoItems rawPhotos None) \/ photo_whr item = VNull).
Proof.
  split; [exact Number_of_computeWHR|].
  unfold normalizePhotoItems in *. cbv zeta in *.
  apply (Permutation_in _ (sortBy_perm _ _)) in Hin.
  apply in_map_iff in Hin. destruct Hin as [kv [<- Hin]].
  apply fold_putDietRow_whr in Hin. destruct Hin as [Hin|Hin]; [left | now right].
  apply (Permutation_in _ (Permutation_sym (sortBy_perm _ _))).
  apply in_map_iff. now exists kv.
Qed.

Lemma checkin_photo_has_no_whr_witness :
  computeWHR checkin_with_photo = "0,800"
  /\ In photo_of_checkin
        (normalizePhotoItems None (Some [Some checkin_with_photo]))
  /\ (forall r, ToNumber (VStr (computeWHR r)) = NaN)
  /\ (In photo_of_checkin (normalizePhotoItems None None)
      \/ photo_whr photo_of_checkin = VNull).
Proof.
  split; [vm_compute; reflexivity|].
  split; [vm_compute; left; reflexivity|].
  apply (checkin_photo_has_no_whr None (Some [Some checkin_with_photo])).
  vm_compute. left. reflexivity.
Defined.

(** ** Limits and display helpers *)

(** X17. A limit that starts as one of 7, 15, 30, 60, 90 is one of them
    after any values received from the selects or the server: a value that
    is one of the five becomes the limit, any other leaves it as it was;
    [parseLimitValue] returns its second argument then, and 15 when that
    argument is undefined. *)
Theorem limit_is_always_a_choice (c0 : Z) (received : list JsVal) :
  In c0 LIMIT_CHOICES ->
  (exists n, limitAfter (VNum (ofZ c0)) received = VNum n
             /\ isChoice LIMIT_CHOICES n)
  /\ (forall raw cur, isChoice LIMIT_CHOICES (ToNumber raw) ->
        parseLimitValue raw cur = VNum (ToNumber raw))
  /\ (forall raw cur, ~ isChoice LIMIT_CHOICES (ToNumber raw) ->
        cur <> VUndefined -> parseLimitValue raw cur = cur)
  /\ (forall raw, ~ isChoice LIMIT_CHOICES (ToNumber raw) ->
        parseLimitValue raw VUndefined = VNum (ofZ 15)).
Proof.
  intros Hc0.
  assert (Hyes : forall raw cur, isChoice LIMIT_CHOICES (ToNumber raw) ->
                   parseLimitValue raw cur = VNum (ToNumber raw)).
  { intros raw cur H. unfold parseLimitValue. cbv zeta.
    rewrite (isChoice_integer _ _ H).
    apply includes_isChoice in H. now rewrite H. }
  assert (Hno : forall raw cur, ~ isChoice LIMIT_CHOICES (ToNumber raw) ->
                  parseLimitValue raw cur = defaultArg (VNum (ofZ 15)) cur).
  { intros raw cur H. unfold parseLimitValue. cbv zeta.
    destruct (includes LIMIT_CHOICES (ToNumber raw)) eqn:E.
    - apply includes_isChoice in E. contradiction.
    - now rewrite andb_false_r. }
  split; [|split; [exact Hyes|split]].
  2: { intros raw cur H Hcur. rewrite (Hno raw cur H).
       now destruct cur. }
  2: { intros raw H. now rewrite (Hno raw VUndefined H). }
  unfold limitAfter.
  assert (Hinit : exists n, VNum (ofZ c0) = VNum n /\ isChoice LIMIT_CHOICES n).
  { exists (ofZ c0). split; [reflexivity|]. exists c0. split; [exact Hc0|].
    cbn. apply Qeq_bool_iff. reflexivity. }
  revert Hinit. generalize (VNum (ofZ c0)).
  induction received as [|raw rest IH]; intros cur Hcur; [exact Hcur|].
  cbn [fold_left]. apply IH.
  destruct (includes LIMIT_CHOICES (ToNumber raw)) eqn:E.
  - apply includes_isChoice in E. rewrite (Hyes _ _ E). eauto.
  - rewrite Hno.
    + destruct Hcur as (n & -> & Hn). cbn [defaultArg]. eauto.
    + intros H. apply includes_isChoice in H. congruence.
Qed.

Lemma limit_is_always_a_choice_witness :
  In 7%Z LIMIT_CHOICES
  /\ limitAfter (VNum (ofZ 7)) [VStr "30"; VStr "custom"; VNum (Fin 45)]
     = VNum (Fin 30)
  /\ exists n,
       limitAfter (VNum (ofZ 7)) [VStr "30"; VStr "custom"; VNum (Fin 45)]
       = VNum n
       /\ isChoice LIMIT_CHOICES n.
Proof.
  split; [now left|]. split; [vm_compute; reflexivity|].
  exact (proj1 (limit_is_always_a_choice 7
                  [VStr "30"; VStr "custom"; VNum (Fin 45)]
                  (or_introl eq_refl))).
Defined.

Lemma escapeChars_number (s : string) :
  (forall c, In c (chars s) -> numberChar c = true) -> escapeChars s = s.
Proof.
  induction s as [|a s IH]; intros H; [reflexivity|].
  cbn [escapeChars]. cbv zeta.
  pose proof (numberChar_range a (H a (or_introl eq_refl))) as Ha.
  assert (Heq : forall k, (k < 44)%N -> N.eqb (code a) k = false)
    by (intros k Hk; apply N.eqb_neq; lia).
  assert (N.eqb (code a) 60 = false) as -> by (apply N.eqb_neq; lia).
  assert (N.eqb (code a) 62 = false) as -> by (apply N.eqb_neq; lia).
  rewrite !Heq by lia.
  rewrite IH; [reflexivity|]. intros c Hc. apply H. now right.
Qed.

Lemma toLocaleString_esES_numberChars (q : Q) (d : nat) (c : ascii) :
  In c (chars (toLocaleString_esES q d)) -> numberChar c = true.
Proof.
  destruct d as [|d]; [|apply (toLocaleString_esES_chars q d)].
  unfold toLocaleString_esES. cbv zeta iota.
  rewrite chars_app, in_app_iff. intros [H|H].
  - destruct (Qltb q 0); [destruct H as [<-|[]]; reflexivity | destruct H].
  - apply group3_chars in H. destruct H as [H| ->]; [|reflexivity].
    apply decString_digits in H. unfold numberChar. now rewrite H.
Qed.

Lemma formatLocaleNumber_chars (v : JsVal) (d : nat) :
  (isFinite (ToNumber v) = false /\ formatLocaleNumber v d = DASH)
  \/ (isFinite (ToNumber v) = true
      /\ forall c, In c (chars (formatLocaleNumber v d)) -> numberChar c = true).
Proof.
  unfold formatLocaleNumber. destruct (ToNumber v) as [| | |q];
    [now left.. | right].
  split; [reflexivity|]. apply toLocaleString_esES_numberChars.
Qed.

Lemma formatLocaleRounded_chars (x y : num) (d : nat) (c : ascii) :
  isFinite y = true ->
  In c (chars (formatLocaleRounded x y d)) -> numberChar c = true.
Proof.
  intros Hy. unfold formatLocaleRounded.
  destruct (formatLocaleNumber_chars (VNum y) d) as [[E _] | [_ E]];
    [cbn [ToNumber] in E; congruence|].
  destruct (isNeg x && isZero y); [|apply E].
  change ("-" ++ formatLocaleNumber (VNum y) d)
    with (String "-" (formatLocaleNumber (VNum y) d)).
  rewrite chars_cons. intros [<-|H]; [reflexivity | now apply E].
Qed.

Lemma round_negative_zero (q : Q) :
  (- (1 # 2) <= q)%Q -> (q < 0)%Q -> Qfloor (q + (1 # 2)) = 0%Z.
Proof.
  intros Hlo Hhi.
  pose proof (Qfloor_le (q + (1 # 2))) as H1.
  pose proof (Qlt_floor (q + (1 # 2))) as H2.
  set (f := Qfloor (q + (1 # 2))) in *.
  rewrite inject_Z_plus in H2. change (inject_Z 1) with 1%Q in H2.
  assert (Hf1 : (inject_Z f < inject_Z 1)%Q)
    by (change (inject_Z 1) with 1%Q; lra).
  assert (Hf0 : (inject_Z (-1) < inject_Z f)%Q)
    by (change (inject_Z (-1)) with (-1 # 1)%Q; lra).
  rewrite <- Zlt_Qlt in Hf1, Hf0. lia.
Qed.

(** X18. The cells [displayFloat] and [displayInt] fill are plain text:
    escaping changes nothing in a formatted number, which is the
    placeholder exactly when the value is not a finite number and is made
    of digits, dots, commas and a minus sign otherwise; a negative number
    that rounds to zero is shown by [displayInt] as [-0]; and what
    [asDisplay] returns cannot open a tag or close an attribute. *)
Theorem display_cells_are_plain_text (v : JsVal) (d : nat) :
  displayFloat v d = formatLocaleNumber v d
  /\ displayInt v
     = (if isFinite (ToNumber v)
        then formatLocaleRounded (ToNumber v) (round (ToNumber v)) 0
        else DASH)
  /\ (displayFloat v d = DASH <-> isFinite (ToNumber v) = false)
  /\ (displayInt v = DASH <-> isFinite (ToNumber v) = false)
  /\ (displayFloat v d = DASH
      \/ forall c, In c (chars (displayFloat v d)) -> numberChar c = true)
  /\ (displayInt v = DASH
      \/ forall c, In c (chars (displayInt v)) -> numberChar c = true)
  /\ (forall q, (- (1 # 2) <= q)%Q -> (q < 0)%Q ->
        displayInt (VNum (Fin q)) = "-0")
  /\ (forall c, In c (chars (asDisplay v)) ->
        c <> "<"%char /\ c <> ">"%char /\ c <> QUOTE /\ c <> "'"%char).
Proof.
  assert (Hdash : forall s, (forall c, In c (chars s) -> numberChar c = true) ->
                    s <> DASH).
  { intros s Hs ->. specialize (Hs _ (or_introl eq_refl)). discriminate Hs. }
  assert (Hfloat : displayFloat v d = formatLocaleNumber v d).
  { unfold displayFloat, escapeHtml. cbv zeta. cbn [ToString].
    destruct (formatLocaleNumber_chars v d) as [[-> E] | [-> E]];
      [now rewrite E|].
    cbn [ToNumber]. unfold formatLocaleNumber in *. cbn [ToNumber].
    now apply escapeChars_number. }
  assert (Hround : forall x, isFinite (round x) = isFinite x)
    by now intros [| | |q].
  assert (Hint : forall u,
             displayInt u
             = (if isFinite (ToNumber u)
                then formatLocaleRounded (ToNumber u) (round (ToNumber u)) 0
                else DASH)).
  { intros u. unfold displayInt, escapeHtml. cbv zeta. cbn [ToString].
    destruct (isFinite (ToNumber u)) eqn:E; [|reflexivity].
    apply escapeChars_number. intros c.
    apply formatLocaleRounded_chars. now rewrite Hround. }
  assert (Hchars : isFinite (ToNumber v) = true ->
             forall c, In c (chars (displayInt v)) -> numberChar c = true).
  { intros E c. rewrite Hint, E.
    apply formatLocaleRounded_chars. now rewrite Hround. }
  assert (Has : forall c, In c (chars (asDisplay v)) ->
                 c <> "<"%char /\ c <> ">"%char /\ c <> QUOTE /\ c <> "'"%char).
  { intros c. unfold asDisplay. destruct (_ || _); [|apply escapeChars_safe].
    cbn. intros H.
    repeat (destruct H as [<-|H]; [repeat split; discriminate|]). destruct H. }
  assert (Hzero : forall q, (- (1 # 2) <= q)%Q -> (q < 0)%Q ->
                    displayInt (VNum (Fin q)) = "-0").
  { intros q Hlo Hhi. rewrite Hint. cbn [ToNumber isFinite round].
    rewrite (round_negative_zero q Hlo Hhi).
    unfold formatLocaleRounded. cbn [isNeg].
    now rewrite (proj2 (Qltb_lt q 0) Hhi). }
  split; [exact Hfloat|]. split; [apply Hint|].
  rewrite Hfloat.
  destruct (formatLocaleNumber_chars v d) as [[E1 E] | [E1 E]].
  - split; [tauto|]. split; [now rewrite Hint, E1|]. split; [now left|].
    split; [left; now rewrite Hint, E1|]. split; [exact Hzero | exact Has].
  - split; [split; [intros H; now apply Hdash in H | congruence]|].
    split; [split; [intros H; elim (Hdash _ (Hchars E1) H) | congruence]|].
    split; [now right|]. split; [right; now apply Hchars|].
    split; [exact Hzero | exact Has].
Qed.

(** ** The synchronisation status *)

Lemma filter_twice {A} (f : A -> bool) (l : list A) :
  List.filter f (List.filter f l) = List.filter f l.
Proof.
  induction l as [|a l IH]; [reflexivity|].
  cbn [List.filter]. destruct (f a) eqn:E; [|exact IH].
  cbn [List.filter]. now rewrite E, IH.
Qed.

Lemma sync_tone_step (t txt : string) (node : Node) :
  isSyncTone t = true ->
  classList_add t
    (classList_remove ["ok"; "warn"; "bad"] (set_textContent txt node))
  = mkNode (List.filter (fun c => negb (isSyncTone c)) (classList node)
            ++ [t])%list
           (textMarkup txt).
Proof.
  intros Ht. unfold classList_add.
  rewrite hasClass_remove. fold (isSyncTone t). rewrite Ht, andb_false_r.
  reflexivity.
Qed.

(** X19. Whatever classes the status line had and whatever tone is asked
    for, [setSyncStatus] leaves it with exactly one of [ok], [warn] and
    [bad], after the classes it keeps: the tone asked for when it is [warn]
    or [bad], and [ok] for any other value; setting the same status again
    changes nothing. *)
Theorem setSyncStatus_one_tone (node : Node) (text tone : JsVal) :
  exists out t,
    setSyncStatus (Some node) text tone = Some out
    /\ In t ["ok"; "warn"; "bad"]
    /\ (tone = VStr "warn" -> t = "warn")
    /\ (tone = VStr "bad" -> t = "bad")
    /\ (tone <> VStr "warn" -> tone <> VStr "bad" -> t = "ok")
    /\ classList out
       = (List.filter (fun c => negb (isSyncTone c)) (classList node)
          ++ [t])%list
    /\ setSyncStatus (Some out) text tone = Some out.
Proof.
  set (txt := ToString (orElse text (VStr "Sin estado"))).
  assert (Hstep : forall t, isSyncTone t = true ->
            let out := mkNode
                         (List.filter (fun c => negb (isSyncTone c))
                                      (classList node) ++ [t])%list
                         (textMarkup txt) in
            classList_add t
              (classList_remove ["ok"; "warn"; "bad"]
                 (set_textContent txt node)) = out
            /\ classList_add t
                 (classList_remove ["ok"; "warn"; "bad"]
                    (set_textContent txt out)) = out).
  { intros t Ht out. split; [now apply sync_tone_step|].
    rewrite (sync_tone_step t txt out Ht). unfold out. cbn [classList].
    rewrite List.filter_app, filter_twice. cbn [List.filter].
    rewrite Ht. cbn [negb]. now rewrite app_nil_r. }
  assert (Hok : exists out,
            classList_add "ok"
              (classList_remove ["ok"; "warn"; "bad"]
                 (set_textContent txt node)) = out
            /\ classList_add "ok"
                 (classList_remove ["ok"; "warn"; "bad"]
                    (set_textContent txt out)) = out
            /\ classList out
               = (List.filter (fun c => negb (isSyncTone c)) (classList node)
                  ++ ["ok"])%list).
  { eexists. destruct (Hstep "ok" eq_refl) as [H1 H2].
    split; [exact H1|]. split; [exact H2 | reflexivity]. }
  unfold setSyncStatus. fold txt. cbv zeta.
  destruct tone as [| |b|n|t];
    try (destruct Hok as (out & H1 & H2 & H3); exists out, "ok";
         rewrite H1, H2;
         repeat split; try discriminate; cbn; auto; fail).
  destruct (String.eqb_spec t "warn") as [->|Hw].
  { destruct (Hstep "warn" eq_refl) as [H1 H2]. cbn [orb].
    eexists _, "warn". rewrite H1, H2.
    repeat split; try discriminate; try congruence; cbn; auto. }
  destruct (String.eqb_spec t "bad") as [->|Hb].
  { destruct (Hstep "bad" eq_refl) as [H1 H2]. cbn [orb].
    eexists _, "bad". rewrite H1, H2.
    repeat split; try discriminate; try congruence; cbn; auto. }
  cbn [orb]. destruct Hok as (out & H1 & H2 & H3). exists out, "ok".
  rewrite H1, H2.
  repeat split; try congruence; cbn; auto.
Qed.

(** ** The ratio shown, read back *)

























